(** * EVAonline: climate-source scheduling and FAO-56 reference
      evapotranspiration

    A shallow embedding of the acquisition and calculation core of the
    EVAonline back end:

    - [backend/core/data_processing/data_download.py]
      ([classify_request_type], [download_weather_data]),
    - [backend/api/services/climate_source_availability.py]
      ([ClimateSourceAvailability]),
    - [backend/core/eto_calculation/eto_services.py]
      ([EToCalculationService]; of [EToProcessingService] the functions
      [process_location], [_generate_recomendations] and
      [_summarize_series]),
    - [backend/api/services/met_norway/met_norway_client.py]
      (the static and class methods of [METNorwayClient] that do not
      touch the network),
    - [backend/api/routes/eto_routes.py] ([calculate_eto]).

    Modelling conventions.

    - Python [float]s are embedded twice.  In [Binary64] and [ETo64]
      they are IEEE 754 doubles (the primitive floats), with Python's
      rules on top (a division by zero raises, [round] is the correctly
      rounded decimal rounding, a comparison with a not-a-number is
      false) and the functions of the C library ([math.exp], the power
      operator, ...) as a parameter: what [calculate_et0],
      [detect_anomalies] and [_summarize_series] return is stated
      there.  In [ETo] they are idealised as real numbers ([R]), exact
      and without overflow, for the properties of the FAO-56 formulas
      that rest on real analysis; the one not-a-number the code creates
      itself ([np.nan] for a zero denominator) is an explicit
      constructor there.
    - Calendar dates are proleptic Gregorian ordinals ([Z], as
      [date.toordinal()]); pandas timestamps are nanosecond counts.
    - "Today" ([datetime.now()]) is an explicit argument.
    - Python exceptions are an error monad; a [try]/[except] is a match
      on its result.
    - Dictionaries looked up by key are [gmap string _]; dictionaries
      the code iterates in insertion order are association lists.
    - The outside world of the download coordinator (clock, date
      parser, source manager, provider adapters) is a record passed as
      an argument. *)

From Stdlib Require Import ZArith Reals Lra Lia String Ascii List Floats.
From stdpp Require Import base option gmap strings list.

Local Open Scope Z_scope.
Set Warnings "-inexact-float".

(* ================================================================== *)
(** * Python exceptions                                                 *)
(* ================================================================== *)

Module Py.

(** The exception classes the embedded code raises or catches; the
    argument is [str(e)]. *)
Inductive exn : Type :=
| ValueError (msg : string)
| TypeError (msg : string)
| KeyError (msg : string)
| ZeroDivisionError (msg : string)
| OverflowError (msg : string).

Definition exn_str (e : exn) : string :=
  match e with
  | ValueError s | TypeError s | KeyError s | ZeroDivisionError s
  | OverflowError s => s
  end.

Inductive exc (A : Type) : Type :=
| Ok (a : A)
| Raise (e : exn).
Global Arguments Ok {A} a.
Global Arguments Raise {A} e.

Global Instance exc_ret : MRet exc := fun A a => Ok a.
Global Instance exc_bind : MBind exc := fun A B f c =>
  match c with
  | Ok a => f a
  | Raise e => Raise e
  end.

Definition is_ok {A} (c : exc A) : bool :=
  match c with Ok _ => true | Raise _ => false end.

(** [sep.join(items)] *)
Fixpoint join (sep : string) (items : list string) : string :=
  match items with
  | [] => ""
  | [s] => s
  | s :: rest => s +:+ sep +:+ join sep rest
  end.

(** Comparisons on floats, as booleans. *)
Definition Rleb (x y : R) : bool := if Rle_dec x y then true else false.
Definition Rltb (x y : R) : bool := if Rlt_dec x y then true else false.
Definition Reqb (x y : R) : bool := if Req_dec_T x y then true else false.

End Py.
Export Py.

(* ================================================================== *)
(** * Calendar arithmetic ([datetime])                                  *)
(* ================================================================== *)

Module Calendar.

(** [datetime._is_leap] *)
Definition is_leap (year : Z) : bool :=
  (year mod 4 =? 0) && (negb (year mod 100 =? 0) || (year mod 400 =? 0)).

(** [datetime._days_before_year]: days before January 1st of [year]. *)
Definition days_before_year (year : Z) : Z :=
  let y := year - 1 in
  y * 365 + y / 4 - y / 100 + y / 400.

(** [datetime._days_in_month] *)
Definition days_in_month (year month : Z) : Z :=
  if (month =? 2) && is_leap year then 29
  else match month with
       | 1 | 3 | 5 | 7 | 8 | 10 | 12 => 31
       | 4 | 6 | 9 | 11 => 30
       | 2 => 28
       | _ => 0
       end.

(** [datetime._days_before_month] *)
Definition days_before_month (year month : Z) : Z :=
  let base := match month with
              | 1 => 0 | 2 => 31 | 3 => 59 | 4 => 90 | 5 => 120
              | 6 => 151 | 7 => 181 | 8 => 212 | 9 => 243 | 10 => 273
              | 11 => 304 | 12 => 334
              | _ => 0
              end in
  base + (if (2 <? month) && is_leap year then 1 else 0).

(** [datetime._ymd2ord]: 0001-01-01 is day 1. *)
Definition ymd2ord (year month day : Z) : Z :=
  days_before_year year + days_before_month year month + day.

(** [date(year, month, day)] with its range checks. *)
Definition valid_ymd (year month day : Z) : bool :=
  (1 <=? year) && (year <=? 9999) &&
  (1 <=? month) && (month <=? 12) &&
  (1 <=? day) && (day <=? days_in_month year month).

Definition is_digit (c : ascii) : bool :=
  let n := Z.of_nat (nat_of_ascii c) in (48 <=? n) && (n <=? 57).

Definition digit (c : ascii) : Z := Z.of_nat (nat_of_ascii c) - 48.

(** The directive [%m]: [1[0-2]|0[1-9]|[1-9]]. *)
Definition parse_month (cs : list ascii) : option Z :=
  match cs with
  | [a; b] =>
      if (digit a =? 1) && is_digit b && (digit b <=? 2)
      then Some (10 + digit b)
      else if (digit a =? 0) && is_digit b && (1 <=? digit b)
           then Some (digit b)
           else None
  | [a] => if is_digit a && (1 <=? digit a) then Some (digit a) else None
  | _ => None
  end.

(** The directive [%d]: [3[01]|[12]\d|0[1-9]|[1-9]| [1-9]]. *)
Definition parse_day (cs : list ascii) : option Z :=
  match cs with
  | [a; b] =>
      if (digit a =? 3) && is_digit b && (digit b <=? 1)
      then Some (30 + digit b)
      else if is_digit a && (1 <=? digit a) && (digit a <=? 2) && is_digit b
           then Some (10 * digit a + digit b)
           else if ((digit a =? 0) || Ascii.eqb a " ")
                   && is_digit b && (1 <=? digit b)
                then Some (digit b)
                else None
  | [a] => if is_digit a && (1 <=? digit a) then Some (digit a) else None
  | _ => None
  end.

(** Splits at the first hyphen. *)
Fixpoint split_hyphen (cs : list ascii) : option (list ascii * list ascii) :=
  match cs with
  | [] => None
  | c :: rest =>
      if Ascii.eqb c "-" then Some ([], rest)
      else match split_hyphen rest with
           | Some (l, r) => Some (c :: l, r)
           | None => None
           end
  end.

(** [datetime.strptime(s, "%Y-%m-%d")] on an ASCII string: the year is
    four digits, the whole string must be consumed, and the resulting
    date must exist.  [None] stands for the [ValueError] it raises. *)
Definition strptime_ymd (s : string) : option (Z * Z * Z) :=
  match list_ascii_of_string s with
  | y1 :: y2 :: y3 :: y4 :: sep :: rest =>
      if is_digit y1 && is_digit y2 && is_digit y3 && is_digit y4
         && Ascii.eqb sep "-"
      then
        let year := 1000 * digit y1 + 100 * digit y2
                    + 10 * digit y3 + digit y4 in
        match split_hyphen rest with
        | Some (ms, ds) =>
            match parse_month ms, parse_day ds with
            | Some month, Some day =>
                if valid_ymd year month day
                then Some (year, month, day) else None
            | _, _ => None
            end
        | None => None
        end
      else None
  | _ => None
  end.

(** [datetime.strptime(s, "%Y-%m-%d").date()] as an ordinal. *)
Definition parse_date (s : string) : exc Z :=
  match strptime_ymd s with
  | Some (y, m, d) => Ok (ymd2ord y m d)
  | None => Raise (ValueError "time data does not match format '%Y-%m-%d'")
  end.

(** [timetuple().tm_yday] *)
Definition tm_yday (ymd : Z * Z * Z) : Z :=
  let '(y, m, d) := ymd in days_before_month y m + d.

(** A pandas [Timestamp]: nanoseconds since the epoch of the ordinals. *)
Definition ns_per_day : Z := 86400 * 1000000000.

(** [pd.to_datetime(d)] of a date: midnight of that day. *)
Definition midnight (d : Z) : Z := d * ns_per_day.

(** [Timestamp.date()] *)
Definition date_of (t : Z) : Z := t / ns_per_day.

(** [pd.Timedelta(days=n)] *)
Definition days (n : Z) : Z := n * ns_per_day.

(** [Timedelta.days] *)
Definition timedelta_days (dt : Z) : Z := dt / ns_per_day.

End Calendar.

(* ================================================================== *)
(** * [climate_source_availability.py]                                  *)
(* ================================================================== *)

Module Availability.
Import Calendar.

(** One entry of [API_LIMITS].  Historical entries carry an absolute
    ["start_date"], the others a ["start_date_offset"]; reading an
    absent key is a [KeyError]. *)
Record api_limits : Type := {
  l_type : string;
  l_start_date : option Z;
  l_start_date_offset : option Z;
  l_end_date_offset : Z;
  l_coverage : string;
  l_regional_variables : bool
}.

Definition historical_limits (start : Z) (end_off : Z) (cov : string)
  : api_limits :=
  {| l_type := "historical"; l_start_date := Some start;
     l_start_date_offset := None; l_end_date_offset := end_off;
     l_coverage := cov; l_regional_variables := false |}.

Definition rolling_limits (ty : string) (start_off end_off : Z)
  (cov : string) (regional : bool) : api_limits :=
  {| l_type := ty; l_start_date := None;
     l_start_date_offset := Some start_off; l_end_date_offset := end_off;
     l_coverage := cov; l_regional_variables := regional |}.

(** [ClimateSourceAvailability.API_LIMITS], in insertion order. *)
Definition API_LIMITS : list (string * api_limits) :=
  [ ("nasa_power", historical_limits (ymd2ord 1990 1 1) (-2) "global");
    ("openmeteo_archive",
       historical_limits (ymd2ord 1990 1 1) (-2) "global");
    ("openmeteo_forecast", rolling_limits "forecast" (-30) 5 "global" false);
    ("met_norway", rolling_limits "forecast" 0 5 "global" true);
    ("nws_forecast", rolling_limits "forecast" 0 5 "usa" false);
    ("nws_stations", rolling_limits "realtime" (-1) 0 "usa" false) ].

Local Open Scope R_scope.

(** [is_in_usa]: the [USA_BBOX] test. *)
Definition is_in_usa (lat lon : R) : bool :=
  (Rleb (-125) lon && Rleb lon (-66)) && (Rleb 24 lat && Rleb lat 49).

(** [is_in_nordic]: the [NORDIC_BBOX] test. *)
Definition is_in_nordic (lat lon : R) : bool :=
  (Rleb 4 lon && Rleb lon 31) && (Rleb 54 lat && Rleb lat (715 / 10)).

Local Close Scope R_scope.

(** The entries of a verdict's [reason] list; the dates are the ones
    the messages interpolate.  The dictionary stores them joined by
    [" | "], or ["Disponível"] when the list is empty. *)
Inductive reason_item : Type :=
| NotOutsideUSA           (* "Não disponível fora dos EUA" *)
| NotHistoricalSource     (* "Não é fonte histórica" *)
| HistoricalNoFuture      (* "Fonte histórica não cobre período futuro" *)
| StartBefore (api_start : Z)   (* "Data inicial anterior a {api_start}" *)
| EndAfter (api_end : Z)        (* "Data final posterior a {api_end}" *)
| NordicAllVariables      (* "Região Nordic: todas as variáveis" *)
| OutsideNordic           (* "Fora Nordic: sem precipitation_amount" *)
| AllVariables.           (* "Todas as variáveis disponíveis" *)

Record verdict : Type := {
  available : bool;
  variables : list string;
  v_type : string;
  v_coverage : string;
  reason : list reason_item
}.

(** A [date | str] argument. *)
Inductive date_arg : Type :=
| DateObj (d : Z)
| DateStr (s : string).

(** [datetime.strptime(d, "%Y-%m-%d").date()] when [d] is a string. *)
Definition as_date (d : date_arg) : exc Z :=
  match d with
  | DateObj d => Ok d
  | DateStr s => parse_date s
  end.

Definition key {A} (name : string) (v : option A) : exc A :=
  match v with
  | Some a => Ok a
  | None => Raise (KeyError name)
  end.

(** Step 3 of the loop body: the temporal limits. *)
Definition check_window (api_start api_end start_date end_date : Z)
  (st : bool * list reason_item) : bool * list reason_item :=
  let st := if start_date <? api_start
            then (false, st.2 ++ [StartBefore api_start]) else st in
  if api_end <? end_date
  then (false, st.2 ++ [EndAfter api_end]) else st.

(** The body of the loop over [API_LIMITS.items()]. *)
Definition evaluate_api (today start_date end_date : Z)
  (in_usa in_nordic : bool) (data_type : string)
  (api_name : string) (limits : api_limits) : exc verdict :=
  (* 1. geographic coverage *)
  let st : bool * list reason_item :=
    if String.eqb (l_coverage limits) "usa" && negb in_usa
    then (false, [NotOutsideUSA]) else (true, []) in
  (* 2. type compatibility *)
  let api_type := l_type limits in
  let st :=
    if String.eqb data_type "historical" then
      if negb (String.eqb api_type "historical")
      then (false, st.2 ++ [NotHistoricalSource]) else st
    else if String.eqb data_type "forecast" then
      if String.eqb api_type "historical" then
        if end_date <? today then st
        else (false, st.2 ++ [HistoricalNoFuture])
      else st
    else st in
  (* 3. temporal limits *)
  st ←
    (if st.1 && String.eqb api_type "historical" then
       api_start ← key "start_date" (l_start_date limits);
       let api_end := today + l_end_date_offset limits in
       mret (check_window api_start api_end start_date end_date st)
     else if st.1 && (String.eqb api_type "forecast"
                      || String.eqb api_type "realtime") then
       off ← key "start_date_offset" (l_start_date_offset limits);
       let api_start := today + off in
       let api_end := today + l_end_date_offset limits in
       mret (check_window api_start api_end start_date end_date st)
     else mret st);
  (* 4. variables *)
  let '(vars, rsn) :=
    if st.1 : bool then
      if String.eqb api_name "met_norway" then
        if in_nordic
        then (["air_temperature"; "relative_humidity"; "wind_speed";
               "precipitation_amount"], st.2 ++ [NordicAllVariables])
        else (["air_temperature"; "relative_humidity"; "wind_speed"],
              st.2 ++ [OutsideNordic])
      else (["all"], st.2 ++ [AllVariables])
    else ([], st.2) in
  mret {| available := st.1; variables := vars; v_type := api_type;
          v_coverage := l_coverage limits; reason := rsn |}.

(** The loop, over any catalog. *)
Fixpoint evaluate_all (today start_date end_date : Z)
  (in_usa in_nordic : bool) (data_type : string)
  (catalog : list (string * api_limits)) : exc (list (string * verdict)) :=
  match catalog with
  | [] => mret []
  | (api_name, limits) :: rest =>
      v ← evaluate_api today start_date end_date in_usa in_nordic
            data_type api_name limits;
      vs ← evaluate_all today start_date end_date in_usa in_nordic
             data_type rest;
      mret ((api_name, v) :: vs)
  end.

(** [get_available_sources]; the result dictionary keeps the order of
    [API_LIMITS]. *)
Definition get_available_sources (today : Z) (start_date end_date : date_arg)
  (lat lon : R) (data_type : string) : exc (list (string * verdict)) :=
  start_date ← as_date start_date;
  end_date ← as_date end_date;
  let in_usa := is_in_usa lat lon in
  let in_nordic := is_in_nordic lat lon in
  evaluate_all today start_date end_date in_usa in_nordic data_type
    API_LIMITS.

(** [d[name]] on an ordered dictionary. *)
Fixpoint assoc {A} (name : string) (d : list (string * A)) : option A :=
  match d with
  | [] => None
  | (k, v) :: rest => if String.eqb k name then Some v else assoc name rest
  end.

(** [get_compatible_sources_list] *)
Definition get_compatible_sources_list (today : Z)
  (start_date end_date : date_arg) (lat lon : R) (data_type : string)
  : exc (list string) :=
  avail ← get_available_sources today start_date end_date lat lon data_type;
  mret (map fst (filter (fun p => available p.2 = true) avail)).

End Availability.

(* ================================================================== *)
(** * Strings ([str] methods on ASCII text)                             *)
(* ================================================================== *)

Module PyStr.

(** [c.lower()] *)
Definition lower_ascii (c : ascii) : ascii :=
  let n := nat_of_ascii c in
  if ((65 <=? n) && (n <=? 90))%nat then ascii_of_nat (n + 32) else c.

(** [s.lower()] *)
Fixpoint lower (s : string) : string :=
  match s with
  | EmptyString => EmptyString
  | String c rest => String (lower_ascii c) (lower rest)
  end.

(** [c.isspace()] *)
Definition is_space (c : ascii) : bool :=
  let n := nat_of_ascii c in
  ((n =? 32) || ((9 <=? n) && (n <=? 13)) || ((28 <=? n) && (n <=? 31)))%nat.

Fixpoint lstrip (s : string) : string :=
  match s with
  | EmptyString => EmptyString
  | String c rest => if is_space c then lstrip rest else s
  end.

(** Drops trailing white space; [None] when nothing else is left. *)
Fixpoint rstrip_aux (s : string) : option string :=
  match s with
  | EmptyString => None
  | String c rest =>
      match rstrip_aux rest with
      | Some rest' => Some (String c rest')
      | None => if is_space c then None else Some (String c EmptyString)
      end
  end.

(** [s.strip()] *)
Definition strip (s : string) : string :=
  match rstrip_aux (lstrip s) with
  | Some s' => s'
  | None => EmptyString
  end.

(** [s.split(",")] *)
Fixpoint split_comma (s : string) : list string :=
  match s with
  | EmptyString => [EmptyString]
  | String c rest =>
      if Ascii.eqb c "," then EmptyString :: split_comma rest
      else match split_comma rest with
           | piece :: pieces => String c piece :: pieces
           | [] => [String c EmptyString]
           end
  end.

(** ["," in s] *)
Fixpoint has_comma (s : string) : bool :=
  match s with
  | EmptyString => false
  | String c rest => Ascii.eqb c "," || has_comma rest
  end.

(** [x in items] for a list of strings. *)
Definition mem (x : string) (items : list string) : bool :=
  existsb (String.eqb x) items.

End PyStr.

(* ================================================================== *)
(** * [data_download.py]                                                *)
(* ================================================================== *)

Module Download.
Import Calendar PyStr.

(** An argument that is a [date] or a [datetime]/[Timestamp]. *)
Inductive pydatetime : Type :=
| PDate (d : Z)
| PTimestamp (t : Z).

(** [x.date() if hasattr(x, "date") else x] *)
Definition to_date (x : pydatetime) : Z :=
  match x with
  | PDate d => d
  | PTimestamp t => date_of t
  end.

(** [classify_request_type] *)
Definition classify_request_type (today : Z)
  (data_inicial data_final : pydatetime) : string :=
  let start_date := to_date data_inicial in
  let end_date := to_date data_final in
  let threshold := today - 30 in
  if today <? end_date then "forecast"
  else if start_date <=? threshold then "historical"
  else "current".

(** ** Data frames

    A frame is the list of its rows; a row is its index (the date)
    and its named cells, [None] for a missing value ([NaN]). *)
Record row : Type := { r_date : Z; r_cells : list (string * option R) }.
Definition DataFrame : Type := list row.

(** [row[name]], missing when the row has no such cell. *)
Definition cell (r : row) (name : string) : option R :=
  match Availability.assoc name (r_cells r) with
  | Some c => c
  | None => None
  end.

Fixpoint add_names (names seen : list string) : list string :=
  match names with
  | [] => seen
  | n :: rest =>
      if mem n seen then add_names rest seen
      else add_names rest (seen ++ [n])
  end.

(** [df.columns] *)
Definition columns (df : DataFrame) : list string :=
  fold_left (fun seen r => add_names (map fst (r_cells r)) seen) df [].

(** [df.empty] *)
Definition df_empty (df : DataFrame) : bool :=
  match df, columns df with
  | [], _ | _, [] => true
  | _, _ => false
  end.

(** [df[dst] = df[src]] *)
Definition copy_column (src dst : string) (df : DataFrame) : DataFrame :=
  map (fun r =>
         let kept := filter (fun p => negb (String.eqb p.1 dst)) (r_cells r) in
         {| r_date := r_date r;
            r_cells := if mem dst (map fst (r_cells r))
                       then map (fun p => if String.eqb p.1 dst
                                          then (dst, cell r src) else p)
                                (r_cells r)
                       else kept ++ [(dst, cell r src)] |}) df.

(** The harmonisation loop over a name table. *)
Definition harmonize (table : list (string * string)) (df : DataFrame)
  : DataFrame :=
  fold_left (fun df p => if mem p.1 (columns df)
                         then copy_column p.1 p.2 df else df) table df.

Definition archive_harmonization : list (string * string) :=
  [ ("temperature_2m_max", "T2M_MAX"); ("temperature_2m_min", "T2M_MIN");
    ("temperature_2m_mean", "T2M");
    ("relative_humidity_2m_mean", "RH2M"); ("wind_speed_2m_mean", "WS2M");
    ("shortwave_radiation_sum", "ALLSKY_SFC_SW_DWN");
    ("precipitation_sum", "PRECTOTCORR") ].

Definition forecast_harmonization : list (string * string) :=
  [ ("temperature_2m_max", "T2M_MAX"); ("temperature_2m_min", "T2M_MIN");
    ("temperature_2m_mean", "T2M_MEAN");
    ("relative_humidity_2m_mean", "RH2M"); ("wind_speed_2m_mean", "WS2M");
    ("shortwave_radiation_sum", "ALLSKY_SFC_SW_DWN");
    ("precipitation_sum", "PRECTOTCORR") ].

(** The records an adapter returns, as rows keyed by attribute name;
    [rename] builds the frame the code builds from them. *)
Definition rename (table : list (string * string)) (records : list row)
  : DataFrame :=
  map (fun r => {| r_date := r_date r;
                   r_cells := map (fun p => (p.1, cell r p.2)) table |})
      records.

Definition nasa_columns : list (string * string) :=
  [ ("T2M_MAX", "temp_max"); ("T2M_MIN", "temp_min"); ("T2M", "temp_mean");
    ("RH2M", "humidity"); ("WS2M", "wind_speed");
    ("ALLSKY_SFC_SW_DWN", "solar_radiation");
    ("PRECTOTCORR", "precipitation") ].

Definition met_columns (include_precipitation : bool)
  : list (string * string) :=
  [ ("temperature_2m_max", "temp_max"); ("temperature_2m_min", "temp_min");
    ("temperature_2m_mean", "temp_mean");
    ("relative_humidity_2m_mean", "humidity_mean") ]
  ++ (if include_precipitation
      then [("precipitation_sum", "precipitation_sum")] else []).

Definition nws_forecast_columns : list (string * string) :=
  [ ("temperature_2m_max", "temp_max"); ("temperature_2m_min", "temp_min");
    ("temperature_2m_mean", "temp_mean");
    ("relative_humidity_2m_mean", "humidity_mean");
    ("wind_speed_10m_max", "wind_speed_max");
    ("wind_speed_10m_mean", "wind_speed_mean");
    ("precipitation_sum", "precipitation_sum") ].

Definition nws_stations_columns : list (string * string) :=
  [ ("temp_celsius", "temp_mean"); ("humidity_percent", "humidity");
    ("wind_speed_ms", "wind_speed"); ("precipitation_mm", "precipitation") ].

(** [METNorwayClient.get_recommended_variables] *)
Definition met_recommended_variables (lat lon : R) : list string :=
  if Availability.is_in_nordic lat lon
  then ["air_temperature_max"; "air_temperature_min";
        "air_temperature_mean"; "precipitation_sum";
        "relative_humidity_mean"]
  else ["air_temperature_max"; "air_temperature_min";
        "air_temperature_mean"; "relative_humidity_mean"].

(** [df.replace(-999.00, np.nan)] *)
Definition replace_sentinel (df : DataFrame) : DataFrame :=
  map (fun r =>
         {| r_date := r_date r;
            r_cells := map (fun p =>
                              (p.1, match p.2 with
                                    | Some x => if Reqb x (-999)%R
                                                then None else Some x
                                    | None => None
                                    end)) (r_cells r) |}) df.

(** [df.dropna(how="all", subset=df.columns)] *)
Definition dropna_all (df : DataFrame) : DataFrame :=
  let cols := columns df in
  filter (fun r => existsb (fun c => bool_decide (is_Some (cell r c))) cols
                   = true) df.

(** [(df.index.max() - df.index.min()).days + 1]; no value on an
    empty index, where pandas yields a not-a-number. *)
Definition days_returned (df : DataFrame) : option Z :=
  match map r_date df with
  | [] => None
  | d :: ds =>
      Some (timedelta_days (fold_left Z.max ds d - fold_left Z.min ds d) + 1)
  end.

(** The number of missing cells of a column. *)
Definition missing_count (df : DataFrame) (col : string) : Z :=
  Z.of_nat (length (filter (fun r => cell r col = None) df)).

(** ** Warnings

    The entries of [warnings_list]; each constructor is one message
    of the code and carries the values the message interpolates. *)
Inductive warning : Type :=
| WNasaNoFuture
    (* "NASA POWER: truncando para data atual (sem dados futuros)" *)
| WArchiveTruncated
    (* "Open-Meteo Archive: truncando para today - 2d (consolidação)" *)
| WNasaTruncatedTo (t : Z)
    (* "NASA POWER data truncated to {t} as it does not provide
       future data." *)
| WNoData (source : string)
    (* "<source>: Nenhum dado para (lat, lon)" *)
| WHealthCheck (source : string)
    (* "<source>: Verificação falhou" *)
| WOutOfCoverage (source msg : string)
    (* "<source>: fora da cobertura - {msg}" *)
| WMetAttribution
    (* "Dados MET Norway: CC-BY 4.0 - Atribuição requerida" *)
| WDownloadError (source msg : string)
    (* "{source}: erro ao baixar dados: {msg}" *)
| WNothingObtained (source : string)
    (* "Nenhum dado obtido de {source} para (lat, lon) entre ..." *)
| WFewerDays (source : string) (got requested : Z)
    (* "{source}: obtidos {got} dias (solicitados: {requested})" *)
| WMissing (source column : string) (missing total : Z).
    (* "{source}: {pct:.1f}% faltantes em {column}. Será feita
       imputação." *)

(** ** The outside world: the clock, pandas' date parser, the source
    manager and the six provider adapters. *)
Record world : Type := {
  (** [datetime.now().date()] *)
  now_date : Z;
  (** [pd.to_datetime(s)]; [None] when it raises [ValueError] *)
  to_datetime : string -> option Z;
  (** [ClimateSourceManager().get_available_sources_for_location(lat,
      lon, exclude_non_commercial=True)]: id and [meta["available"]] *)
  available_sources_for_location : R -> R -> list (string * bool);
  (** [adapter.health_check_sync()] of a source *)
  health_check_sync : string -> exc bool;
  (** [adapter.get_daily_data_sync / get_data_sync(lat, lon, start, end)] *)
  get_data_sync : string -> R -> R -> Z -> Z -> exc (list row)
}.

(** ** [download_weather_data] *)

Definition valid_sources : list string :=
  [ "openmeteo_archive"; "openmeteo_forecast"; "nasa_power";
    "nws_forecast"; "nws_stations"; "met_norway"; "data fusion" ].

(** The [data_source] argument: a string or a list of strings. *)
Inductive data_source_arg : Type :=
| SourceStr (s : string)
| SourceList (l : list string).

(** The normalisation of [data_source] into [requested]. *)
Definition requested_of (data_source : data_source_arg) : list string :=
  match data_source with
  | SourceList l => map lower l
  | SourceStr s =>
      let data_source_str := lower s in
      if has_comma data_source_str
      then map strip (split_comma data_source_str)
      else [data_source_str]
  end.

(** The loop validating the requested names. *)
Fixpoint validate_requested (available_source_ids requested : list string)
  : exc unit :=
  match requested with
  | [] => mret ()
  | req :: rest =>
      if negb (mem req valid_sources)
      then Raise (ValueError ("Fonte inválida: " +:+ req +:+ ". Use: "
                              +:+ join ", " valid_sources))
      else if negb (String.eqb req "data fusion")
              && negb (mem req available_source_ids)
      then Raise (ValueError
                    ("Fonte '" +:+ req +:+ "' não disponível para as "
                     +:+ "coordenadas. Fontes disponíveis: "
                     +:+ (match available_source_ids with
                          | [] => "nenhuma"
                          | _ => join ", " available_source_ids
                          end)))
      else validate_requested available_source_ids rest
  end.

(** The candidate list of the pseudo-source ["data fusion"]. *)
Definition possible_sources (request_type : string) : list string :=
  if String.eqb request_type "historical"
  then ["nasa_power"; "openmeteo_archive"]
  else if String.eqb request_type "current"
  then ["openmeteo_archive"; "nasa_power"; "met_norway"; "nws_forecast";
        "openmeteo_forecast"; "nws_stations"]
  else ["openmeteo_forecast"; "met_norway"; "nws_forecast"].

(** The sources to query. *)
Definition select_sources (request_type : string)
  (available_source_ids requested : list string) : exc (list string) :=
  if mem "data fusion" requested then
    let sources := filter (fun src => mem src available_source_ids = true)
                          (possible_sources request_type) in
    match sources with
    | [] => Raise (ValueError ("Nenhuma fonte disponível para "
                               +:+ request_type +:+ " nas coordenadas."))
    | _ => mret sources
    end
  else
    mret (filter (fun req => mem req available_source_ids = true) requested).

(** The per-source checks of the dates (the [if]/[elif] chain that
    opens the loop body): they raise, or return the warnings. *)
Definition validate_source (current_date data_inicial data_final : Z)
  (source : string) (warnings : list warning) : exc (list warning) :=
  if String.eqb source "nasa_power" then
    if data_inicial <? midnight (ymd2ord 1990 1 1)
    then Raise (ValueError "NASA POWER: data inicial deve ser >= 1990-01-01")
    else if current_date <? data_final
         then mret (warnings ++ [WNasaNoFuture])
         else mret warnings
  else if String.eqb source "openmeteo_archive" then
    if data_inicial <? midnight (ymd2ord 1990 1 1)
    then Raise (ValueError
                  "Open-Meteo Archive: data inicial deve ser >= 1990-01-01")
    else if current_date - days 2 <? data_final
         then mret (warnings ++ [WArchiveTruncated])
         else mret warnings
  else if String.eqb source "openmeteo_forecast" then
    if data_inicial <? current_date - days 25
    then Raise (ValueError
                  ("Open-Meteo Forecast: data inicial deve ser >= "
                   +:+ "{min_date} (máximo 25 dias no passado)"))
    else if current_date + days 5 <? data_final
         then Raise (ValueError
                       "Open-Meteo Forecast: data final deve ser <= hoje + 5 dias")
         else mret warnings
  else if String.eqb source "met_norway" then
    if data_inicial <? current_date
    then Raise (ValueError
                  "MET Norway: data inicial deve ser >= hoje (sem histórico)")
    else if current_date + days 5 <? data_final
         then Raise (ValueError
                       "MET Norway: data final deve ser <= hoje + 5 dias")
         else mret warnings
  else if String.eqb source "nws_forecast" then
    if data_inicial <? current_date
    then Raise (ValueError
                  "NWS Forecast: data inicial deve ser >= hoje (sem histórico)")
    else if current_date + days 5 <? data_final
         then Raise (ValueError
                       "NWS Forecast: data final deve ser <= hoje + 5 dias")
         else mret warnings
  else if String.eqb source "nws_stations" then
    if data_inicial <? current_date - days 1
    then Raise (ValueError
                  ("NWS Stations: data inicial deve ser >= {min_date} "
                   +:+ "(observações em tempo real: máximo 1 dia passado)"))
    else if current_date <? data_final
         then Raise (ValueError
                       ("NWS Stations: data final deve ser <= hoje "
                        +:+ "(sem previsão, apenas observações reais)"))
         else mret warnings
  else mret warnings.

(** [data_final_adjusted], as the assignment that follows the checks
    leaves it. *)
Definition adjusted_end (current_date data_final : Z) (source : string) : Z :=
  if String.eqb source "nasa_power"
  then Z.min data_final current_date else data_final.

(** What the [try] block of one iteration leaves: [continue] after a
    warning, or the value of [weather_df] ([None] when no branch
    assigned it). *)
Inductive fetched : Type :=
| Skipped (warnings : list warning)
| Fetched (warnings : list warning) (weather_df : option DataFrame).

(** The outer [except Exception] of the download block. *)
Definition download_error (source : string) (e : exn)
  (warnings : list warning) : fetched :=
  Skipped (warnings ++ [WDownloadError source (exn_str e)]).

(** The sources that check health first and catch [ValueError]
    around the fetch. *)
Definition fetch_checked (w : world) (source : string) (lat lon : R)
  (data_inicial data_final_adjusted : Z)
  (cols : list (string * string)) (extra : list warning)
  (warnings : list warning) : fetched :=
  match health_check_sync w source with
  | Raise e => download_error source e warnings
  | Ok false => Skipped (warnings ++ [WHealthCheck source])
  | Ok true =>
      match get_data_sync w source lat lon data_inicial
              data_final_adjusted with
      | Raise (ValueError msg) =>
          Skipped (warnings ++ [WOutOfCoverage source msg])
      | Raise e => download_error source e warnings
      | Ok [] => Skipped (warnings ++ [WNoData source])
      | Ok records =>
          Fetched (warnings ++ extra) (Some (rename cols records))
      end
  end.

(** The [try] block of the loop body.  Every exception is caught, so
    it never raises. *)
Definition fetch_source (w : world) (source : string) (lat lon : R)
  (data_inicial data_final data_final_adjusted : Z)
  (warnings : list warning) : fetched :=
  if String.eqb source "nasa_power" then
    match get_data_sync w source lat lon data_inicial
            data_final_adjusted with
    | Raise e => download_error source e warnings
    | Ok [] => download_error source (KeyError "'date'") warnings
    | Ok records => Fetched warnings (Some (rename nasa_columns records))
    end
  else if String.eqb source "openmeteo_archive" then
    match get_data_sync w source lat lon data_inicial
            data_final_adjusted with
    | Raise e => download_error source e warnings
    | Ok [] => Skipped (warnings ++ [WNoData source])
    | Ok records =>
        Fetched warnings (Some (harmonize archive_harmonization records))
    end
  else if String.eqb source "openmeteo_forecast" then
    match get_data_sync w source lat lon data_inicial data_final with
    | Raise e => download_error source e warnings
    | Ok [] => Skipped (warnings ++ [WNoData source])
    | Ok records =>
        Fetched warnings (Some (harmonize forecast_harmonization records))
    end
  else if String.eqb source "met_norway" then
    fetch_checked w source lat lon data_inicial data_final_adjusted
      (met_columns (mem "precipitation_sum"
                        (met_recommended_variables lat lon)))
      [WMetAttribution] warnings
  else if String.eqb source "nws_forecast" then
    fetch_checked w source lat lon data_inicial data_final_adjusted
      nws_forecast_columns [] warnings
  else if String.eqb source "nws_stations" then
    fetch_checked w source lat lon data_inicial data_final_adjusted
      nws_stations_columns [] warnings
  else Fetched warnings None.

(** The checks on a fetched frame: cleaning, the days returned and
    the share of missing values per column. *)
Definition inspect_frame (source : string) (period_days : Z)
  (df : DataFrame) (warnings : list warning) : list warning * DataFrame :=
  let df := dropna_all (replace_sentinel df) in
  let warnings :=
    match days_returned df with
    | Some dias_retornados =>
        if dias_retornados <? period_days
        then warnings ++ [WFewerDays source dias_retornados period_days]
        else warnings
    | None => warnings
    end in
  let total := Z.of_nat (length df) in
  let warnings :=
    fold_left (fun ws col =>
                 let missing := missing_count df col in
                 if 25 * total <? 100 * missing
                 then ws ++ [WMissing source col missing total] else ws)
              (columns df) warnings in
  (warnings, df).

(** One iteration of the loop over [sources]. *)
Definition process_source (w : world) (lat lon : R)
  (current_date data_inicial data_final period_days : Z)
  (source : string) (st : list warning * list DataFrame)
  : exc (list warning * list DataFrame) :=
  let '(warnings, frames) := st in
  warnings ← validate_source current_date data_inicial data_final source
               warnings;
  let data_final_adjusted := adjusted_end current_date data_final source in
  let warnings :=
    if (data_final_adjusted <? data_final) && String.eqb source "nasa_power"
    then warnings ++ [WNasaTruncatedTo data_final_adjusted] else warnings in
  match fetch_source w source lat lon data_inicial data_final
          data_final_adjusted warnings with
  | Skipped warnings => mret (warnings, frames)
  | Fetched warnings None =>
      mret (warnings ++ [WNothingObtained source], frames)
  | Fetched warnings (Some df) =>
      if df_empty df
      then mret (warnings ++ [WNothingObtained source], frames)
      else let '(warnings, df) := inspect_frame source period_days df
                                    warnings in
           mret (warnings, frames ++ [df])
  end.

(** The loop over [sources]. *)
Fixpoint process_sources (w : world) (lat lon : R)
  (current_date data_inicial data_final period_days : Z)
  (sources : list string) (st : list warning * list DataFrame)
  : exc (list warning * list DataFrame) :=
  match sources with
  | [] => mret st
  | source :: rest =>
      st ← process_source w lat lon current_date data_inicial data_final
             period_days source st;
      process_sources w lat lon current_date data_inicial data_final
        period_days rest st
  end.

(** [df[~df.index.duplicated(keep="first")]] *)
Fixpoint drop_duplicated (seen : list Z) (df : DataFrame) : DataFrame :=
  match df with
  | [] => []
  | r :: rest =>
      if existsb (Z.eqb (r_date r)) seen then drop_duplicated seen rest
      else r :: drop_duplicated (r_date r :: seen) rest
  end.

(** The consolidation that ends the function. *)
Definition consolidate (frames : list DataFrame) : exc DataFrame :=
  match frames with
  | [] => Raise (ValueError "Nenhuma fonte forneceu dados válidos")
  | [df] => mret df
  | _ => mret (drop_duplicated [] (concat frames))
  end.

(** The checks of the period by request type. *)
Definition validate_period (current_date data_inicial data_final : Z)
  (period_days : Z) (request_type : string) : exc unit :=
  _ ← (if (String.eqb request_type "historical"
           || String.eqb request_type "current")
          && (current_date <? data_inicial)
       then Raise (ValueError
                     ("A data inicial não pode ser futura para dados "
                      +:+ "históricos ou atuais."))
       else mret ());
  _ ← (if String.eqb request_type "historical"
          && negb ((1 <=? period_days) && (period_days <=? 90))
       then Raise (ValueError "Dados históricos: período entre 1 e 90 dias")
       else mret ());
  _ ← (if String.eqb request_type "current"
          && negb ((7 <=? period_days) && (period_days <=? 30))
       then Raise (ValueError "Dados atuais: período entre 7 e 30 dias")
       else mret ());
  if String.eqb request_type "forecast" then
    if current_date + days 5 <? data_final
    then Raise (ValueError "Dados forecast: período máximo até hoje + 5 dias")
    else if data_inicial <? current_date - days 25
         then Raise (ValueError
                       "Dados forecast: data inicial deve ser >= hoje - 25 dias")
         else mret ()
  else mret ().

(** What the checks that precede the loop establish: the parsed dates,
    the period, the clock, the request type and the sources to query. *)
Record request : Type := {
  rq_inicial : Z;
  rq_final : Z;
  rq_period_days : Z;
  rq_current_date : Z;
  rq_request_type : string;
  rq_sources : list string
}.

(** The first part of [download_weather_data], down to the choice of
    [sources]: the checks of the coordinates, the dates, the period and
    the source names. *)
Definition prepare (w : world) (data_source : data_source_arg)
  (data_inicial data_final : string) (longitude latitude : R)
  : exc request :=
  _ ← (if negb (Rleb (-90) latitude && Rleb latitude 90)
       then Raise (ValueError "Latitude deve estar entre -90 e 90 graus")
       else mret ());
  _ ← (if negb (Rleb (-180) longitude && Rleb longitude 180)
       then Raise (ValueError "Longitude deve estar entre -180 e 180 graus")
       else mret ());
  '(data_inicial_formatted, data_final_formatted) ←
    match to_datetime w data_inicial, to_datetime w data_final with
    | Some a, Some b => mret (a, b)
    | _, _ => Raise (ValueError
                       "As datas devem estar no formato 'AAAA-MM-DD'")
    end;
  _ ← (if data_final_formatted <? data_inicial_formatted
       then Raise (ValueError
                     "A data final deve ser posterior à data inicial")
       else mret ());
  let period_days :=
    timedelta_days (data_final_formatted - data_inicial_formatted) + 1 in
  _ ← (if period_days <? 1
       then Raise (ValueError "O período deve ter pelo menos 1 dia")
       else mret ());
  let current_date := midnight (now_date w) in
  let request_type :=
    classify_request_type (now_date w) (PTimestamp data_inicial_formatted)
      (PTimestamp data_final_formatted) in
  _ ← validate_period current_date data_inicial_formatted
        data_final_formatted period_days request_type;
  let available_sources :=
    available_sources_for_location w latitude longitude in
  let available_source_ids :=
    map fst (filter (fun p => p.2 = true) available_sources) in
  let requested := requested_of data_source in
  _ ← validate_requested available_source_ids requested;
  sources ← select_sources request_type available_source_ids requested;
  mret {| rq_inicial := data_inicial_formatted;
          rq_final := data_final_formatted;
          rq_period_days := period_days;
          rq_current_date := current_date;
          rq_request_type := request_type;
          rq_sources := sources |}.

(** The loop of [download_weather_data] over the chosen sources, from
    an empty [warnings_list] and no frame. *)
Definition collect (w : world) (longitude latitude : R) (rq : request)
  : exc (list warning * list DataFrame) :=
  process_sources w latitude longitude (rq_current_date rq) (rq_inicial rq)
    (rq_final rq) (rq_period_days rq) (rq_sources rq) ([], []).

(** [download_weather_data] *)
Definition download_weather_data (w : world) (data_source : data_source_arg)
  (data_inicial data_final : string) (longitude latitude : R)
  : exc (DataFrame * list warning) :=
  rq ← prepare w data_source data_inicial data_final longitude latitude;
  '(warnings_list, weather_data_sources) ← collect w longitude latitude rq;
  weather_data ← consolidate weather_data_sources;
  mret (weather_data, warnings_list).

End Download.

(* ================================================================== *)
(** * [eto_services.py]                                                 *)
(* ================================================================== *)

Module ETo.
Import Calendar.
Local Open Scope R_scope.

(** ** Numbers *)

(** A float that may be [np.nan]. *)
Inductive pyfloat : Type :=
| Fin (r : R)
| NaN.

(** Rounding to the nearest integer, ties to even. *)
Definition round_half_even (x : R) : Z :=
  let n := Int_part x in
  let d := x - IZR n in
  if Rlt_dec d (1 / 2) then n
  else if Rlt_dec (1 / 2) d then (n + 1)%Z
  else if Z.even n then n else (n + 1)%Z.

(** [round(x, ndigits)] *)
Definition py_round (x : R) (ndigits : nat) : R :=
  IZR (round_half_even (x * 10 ^ ndigits)) / 10 ^ ndigits.

(** [x / y] on floats. *)
Definition div (x y : R) : exc R :=
  if Reqb y 0 then Raise (ZeroDivisionError "float division by zero")
  else Ok (x / y).

(** [math.acos] *)
Definition math_acos (x : R) : exc R :=
  if Rleb (-1) x && Rleb x 1 then Ok (acos x)
  else Raise (ValueError "math domain error").

(** ** Measurements *)

(** A value of the measurements dictionary: a number, or a string
    (the date). *)
Inductive pyval : Type :=
| VFloat (r : R)
| VStr (s : string).

(** [measurements[k]] used as a number. *)
Definition num (measurements : gmap string pyval) (k : string) : exc R :=
  match measurements !! k with
  | Some (VFloat r) => Ok r
  | Some (VStr _) => Raise (TypeError "unsupported operand type: 'str'")
  | None => Raise (KeyError k)
  end.

(** [measurements[k]] used as a string. *)
Definition str (measurements : gmap string pyval) (k : string)
  : exc string :=
  match measurements !! k with
  | Some (VStr s) => Ok s
  | Some (VFloat _) =>
      Raise (TypeError "strptime() argument 1 must be str, not float")
  | None => Raise (KeyError k)
  end.

Definition required_vars : list string :=
  [ "T2M_MAX"; "T2M_MIN"; "T2M_MEAN"; "RH2M"; "WS2M"; "PRECTOTCORR";
    "ALLSKY_SFC_SW_DWN"; "latitude"; "longitude"; "date"; "elevation_m" ].

(** [raise ValueError(msg)] unless [ok]. *)
Definition check (ok : bool) (msg : string) : exc unit :=
  if ok then mret () else Raise (ValueError msg).

(** [_validate_measurements] *)
Definition _validate_measurements (measurements : gmap string pyval)
  : exc bool :=
  let missing_vars :=
    filter (fun var => measurements !! var = None) required_vars in
  _ ← check (bool_decide (missing_vars = []))
        ("Variáveis obrigatórias ausentes: " +:+ join ", " missing_vars);
  latitude ← num measurements "latitude";
  _ ← check (Rleb (-90) latitude && Rleb latitude 90)
        "Latitude deve estar entre -90 e 90";
  longitude ← num measurements "longitude";
  _ ← check (Rleb (-180) longitude && Rleb longitude 180)
        "Longitude deve estar entre -180 e 180";
  elevation_m ← num measurements "elevation_m";
  _ ← check (negb (Rltb elevation_m (-500) || Rltb 9000 elevation_m))
        "Elevação deve estar entre -500 e 9000 metros";
  RH2M ← num measurements "RH2M";
  _ ← check (Rleb 0 RH2M && Rleb RH2M 100)
        "Umidade relativa deve estar entre 0 e 100%";
  WS2M ← num measurements "WS2M";
  _ ← check (negb (Rltb WS2M 0))
        "Velocidade do vento não pode ser negativa";
  T2M_MAX ← num measurements "T2M_MAX";
  T2M_MIN ← num measurements "T2M_MIN";
  _ ← check (negb (Rltb T2M_MAX T2M_MIN))
        "T2M_MAX não pode ser menor que T2M_MIN";
  mret true.

(** ** The FAO-56 terms *)

(** [_saturation_vapor_pressure] *)
Definition _saturation_vapor_pressure (T : R) : exc R :=
  q ← div (17.27 * T) (T + 237.3);
  mret (0.6108 * exp q).

(** [_vapor_pressure_slope] *)
Definition _vapor_pressure_slope (T : R) : exc R :=
  exp_term ← div (17.27 * T) (T + 237.3);
  div (4098 * 0.6108 * exp exp_term) ((T + 237.3) ^ 2).

(** [_psychrometric_constant] *)
Definition _psychrometric_constant (P z : R) : R :=
  0.000665 * P / 2.45.

(** [_solar_declination] *)
Definition _solar_declination (N : Z) : R :=
  let b := 2 * PI * (IZR N - 1) / 365 in
  0.409 * sin (b - 1.39).

(** [_extraterrestrial_radiation] *)
Definition _extraterrestrial_radiation (lat : R) (N : Z) (delta : R)
  : exc R :=
  let phi := lat * (PI / 180) in
  let dr := 1 + 0.033 * cos (2 * PI * IZR N / 365) in
  omega_s ← math_acos (- tan phi * tan delta);
  let Ra := (24 * 60 / PI) * 0.0820 * dr
            * (omega_s * sin phi * sin delta
               + cos phi * cos delta * sin omega_s) in
  mret (Rmax 0 Ra).

(** [_day_of_year] *)
Definition _day_of_year (date_str : string) : exc Z :=
  match strptime_ymd date_str with
  | Some ymd => Ok (tm_yday ymd)
  | None => Raise (ValueError "time data does not match format '%Y-%m-%d'")
  end.

(** ** [calculate_et0] *)

Record components : Type := {
  Ra : R; Rn : R; slope : R; gamma : R; Vpd : R
}.

Record et0_result : Type := {
  et0_mm_day : R;
  quality : string;
  method : string;
  comps : option components;
  error : option string
}.

Definition ALBEDO : R := 0.23.

(** Steps 3 and 4 of the [try] block: the pressure, the intermediate
    terms and the combined equation, from the extracted variables.  The
    result is the raw [ET0] and the unrounded components.  The power of
    the pressure formula is taken on a positive base, which the
    validation of the elevation ensures. *)
Definition combined_equation (T_max T_min T_mean RH_mean u2 Rs z lat : R)
  (date_str : string) : exc (pyfloat * components) :=
  let P := 101.3 * Rpower ((293 - 0.0065 * z) / 293) 5.26 in
  es_T_max ← _saturation_vapor_pressure T_max;
  es_T_min ← _saturation_vapor_pressure T_min;
  let es := (es_T_max + es_T_min) / 2 in
  let ea := (RH_mean / 100) * es in
  let Vpd := es - ea in
  N ← _day_of_year date_str;
  let delta := _solar_declination N in
  Ra ← _extraterrestrial_radiation lat N delta;
  let Rn_sw := (1 - ALBEDO) * Rs in
  let Rn_lw := 0.23 in
  let Rn := Rn_sw - (Rn_lw * Rs) in
  let G := 0 in
  slope ← _vapor_pressure_slope T_mean;
  let gamma := _psychrometric_constant P z in
  let Cn := 900 in
  let Cd := 0.34 in
  q ← div Cn (T_mean + 273);
  let numerator := 0.408 * slope * (Rn - G) + gamma * q * u2 * Vpd in
  let denominator := slope + gamma * (1 + Cd * u2) in
  let ET0 := if Reqb denominator 0 then NaN
             else Fin (numerator / denominator) in
  mret (ET0, {| Ra := Ra; Rn := Rn; slope := slope; gamma := gamma;
                Vpd := Vpd |}).

(** Steps 1 to 4 of the [try] block: validation, the extraction of the
    variables and the computation. *)
Definition penman_monteith (measurements : gmap string pyval)
  : exc (pyfloat * components) :=
  _ ← _validate_measurements measurements;
  T_max ← num measurements "T2M_MAX";
  T_min ← num measurements "T2M_MIN";
  T_mean ← num measurements "T2M_MEAN";
  RH_mean ← num measurements "RH2M";
  u2 ← num measurements "WS2M";
  Rs ← num measurements "ALLSKY_SFC_SW_DWN";
  z ← num measurements "elevation_m";
  lat ← num measurements "latitude";
  date_str ← str measurements "date";
  combined_equation T_max T_min T_mean RH_mean u2 Rs z lat date_str.

(** [ET0 < 0 or ET0 > 15 or np.isnan(ET0)] *)
Definition suspicious (ET0 : pyfloat) : bool :=
  match ET0 with
  | Fin x => Rltb x 0 || Rltb 15 x
  | NaN => true
  end.

(** Step 5 and the returned dictionary. *)
Definition assess (method : string) (raw : pyfloat * components)
  : et0_result :=
  let '(ET0, c) := raw in
  let quality := if suspicious ET0 then "low" else "high" in
  let ET0 := match ET0 with Fin x => x | NaN => 0 end in
  {| et0_mm_day := py_round (Rmax 0 ET0) 2;
     quality := quality;
     method := method;
     comps := Some {| Ra := py_round (Ra c) 2; Rn := py_round (Rn c) 2;
                      slope := py_round (slope c) 4;
                      gamma := py_round (gamma c) 4;
                      Vpd := py_round (Vpd c) 2 |};
     error := None |}.

(** [calculate_et0]: the [try] block and its [except Exception]. *)
Definition calculate_et0 (measurements : gmap string pyval)
  (method : string) : et0_result :=
  match penman_monteith measurements with
  | Ok raw => assess method raw
  | Raise e =>
      {| et0_mm_day := 0; quality := "low"; method := method;
         comps := None; error := Some (exn_str e) |}
  end.

(** ** [detect_anomalies] *)

Record anomaly : Type := {
  is_anomaly : bool;
  z_score : option R;
  deviation_percent : option R
}.

Definition detect_anomalies (et0 : R)
  (historical_normal : option (gmap string R)) : anomaly :=
  match historical_normal with
  | None =>
      {| is_anomaly := false; z_score := None; deviation_percent := None |}
  | Some normal =>
      if Nat.eqb (size normal) 0 then
        {| is_anomaly := false; z_score := None;
           deviation_percent := None |}
      else
        let mean := default 0 (normal !! "mean") in
        let std := default 1 (normal !! "std_dev") in
        if Reqb std 0 || Reqb mean 0 then
          {| is_anomaly := false; z_score := Some 0;
             deviation_percent := Some 0 |}
        else
          let z := (et0 - mean) / std in
          let deviation := (et0 - mean) / mean * 100 in
          {| is_anomaly := Rltb 2.5 (Rabs z);
             z_score := Some (py_round z 2);
             deviation_percent := Some (py_round deviation 1) |}
  end.

(** ** [_summarize_series] *)

Record series_entry : Type := {
  e_date : string;
  e_et0_mm_day : R;
  e_quality : string;
  e_anomaly : anomaly
}.

Record summary : Type := {
  total_days : Z;
  et0_total_mm : R;
  et0_mean_mm_day : R;
  et0_max_mm_day : R;
  et0_min_mm_day : R;
  anomaly_count : Z
}.

(** [sum(values)] *)
Definition sum (values : list R) : R := fold_left Rplus values 0.

(** [max(values)] and [min(values)] of a list with head [v]. *)
Definition max_of (v : R) (values : list R) : R := fold_left Rmax values v.
Definition min_of (v : R) (values : list R) : R := fold_left Rmin values v.

(** [_summarize_series]; [None] is the empty dictionary. *)
Definition _summarize_series (et0_series : list series_entry)
  : option summary :=
  match map e_et0_mm_day et0_series with
  | [] => None
  | v :: vs =>
      let values := v :: vs in
      Some {| total_days := Z.of_nat (length et0_series);
              et0_total_mm := py_round (sum values) 1;
              et0_mean_mm_day :=
                py_round (sum values / IZR (Z.of_nat (length values))) 2;
              et0_max_mm_day := py_round (max_of v vs) 2;
              et0_min_mm_day := py_round (min_of v vs) 2;
              anomaly_count :=
                Z.of_nat (length (filter
                                    (fun d => is_anomaly (e_anomaly d) = true)
                                    et0_series)) |}
  end.

End ETo.

(* ================================================================== *)
(** * Reference definitions and sample inputs                           *)
(* ================================================================== *)

Module Reference.
Import Calendar Availability.

(** The bound of a source for a given "today": the absolute start and
    [today + end_date_offset] for a historical source,
    [today + start_date_offset] and [today + end_date_offset] for a
    forecast or realtime source. *)
Definition resolved_window (today : Z) (limits : api_limits)
  : option (Z * Z) :=
  if String.eqb (l_type limits) "historical"
  then match l_start_date limits with
       | Some start => Some (start, today + l_end_date_offset limits)
       | None => None
       end
  else match l_start_date_offset limits with
       | Some off => Some (today + off, today + l_end_date_offset limits)
       | None => None
       end.

(** The three source types of the catalog. *)
Definition known_type (limits : api_limits) : bool :=
  String.eqb (l_type limits) "historical"
  || String.eqb (l_type limits) "forecast"
  || String.eqb (l_type limits) "realtime".

(** The frame a source contributes to a request: the frame its fetch
    yields, when there is one and it is not empty.  The test is the one
    of the code ([weather_df is None or weather_df.empty]), made before
    the missing-value code is replaced and the rows without a value are
    dropped: the frame may hold no value at all. *)
Definition fetched_frame (w : Download.world) (lat lon : R)
  (current_date data_inicial data_final : Z) (source : string)
  : option Download.DataFrame :=
  match Download.fetch_source w source lat lon data_inicial data_final
          (Download.adjusted_end current_date data_final source) [] with
  | Download.Fetched _ (Some df) =>
      if Download.df_empty df then None else Some df
  | _ => None
  end.

(** The source a warning reports as skipped, if it reports one. *)
Definition skipped_source (wn : Download.warning) : option string :=
  match wn with
  | Download.WNoData s | Download.WHealthCheck s
  | Download.WOutOfCoverage s _ | Download.WDownloadError s _
  | Download.WNothingObtained s => Some s
  | _ => None
  end.

(** The two warnings of a truncated NASA POWER request. *)
Definition is_truncation (wn : Download.warning) : bool :=
  match wn with
  | Download.WNasaNoFuture | Download.WNasaTruncatedTo _ => true
  | _ => false
  end.

(** A frame without the missing-value code. *)
Definition no_sentinel (df : Download.DataFrame) : Prop :=
  Forall (fun r => Forall (fun p : string * option R =>
                             p.2 <> Some (-999)%R) (Download.r_cells r)) df.

(** The historical normal of the documented example of
    [detect_anomalies]. *)
Definition example_normal : gmap string R :=
  <["mean" := 3.8%R]> (<["std_dev" := 0.6%R]> ∅).

(** [sum(values)] as a sum from the right. *)
Definition total (values : list R) : R := fold_right Rplus 0%R values.

(** The numeric entries of a measurements dictionary are numbers, as
    its annotation [Dict[str, float]] says; only the date is a string. *)
Definition well_typed (m : gmap string ETo.pyval) : Prop :=
  forall k s, m !! k = Some (ETo.VStr s) -> k = "date".

(** The checks of [_validate_measurements] that precede the comparison
    of the two temperatures: every required variable is present and
    latitude, longitude, elevation, humidity and wind are in range. *)
Definition earlier_checks_pass (m : gmap string ETo.pyval) : Prop :=
  Forall (fun var => m !! var <> None) ETo.required_vars
  /\ exists latitude longitude elevation_m RH2M WS2M : R,
      m !! "latitude" = Some (ETo.VFloat latitude)
      /\ m !! "longitude" = Some (ETo.VFloat longitude)
      /\ m !! "elevation_m" = Some (ETo.VFloat elevation_m)
      /\ m !! "RH2M" = Some (ETo.VFloat RH2M)
      /\ m !! "WS2M" = Some (ETo.VFloat WS2M)
      /\ (-90 <= latitude <= 90)%R /\ (-180 <= longitude <= 180)%R
      /\ (-500 <= elevation_m <= 9000)%R
      /\ (0 <= RH2M <= 100)%R /\ (0 <= WS2M)%R.

(** The messages of [_validate_measurements], each with the condition
    of the dictionary it reports. *)
Inductive reports (m : gmap string ETo.pyval) : string -> Prop :=
| reports_missing (missing : list string) :
    missing <> [] ->
    Forall (fun var => In var ETo.required_vars /\ m !! var = None) missing ->
    reports m ("Variáveis obrigatórias ausentes: " +:+ join ", " missing)
| reports_latitude (x : R) :
    m !! "latitude" = Some (ETo.VFloat x) -> ~ (-90 <= x <= 90)%R ->
    reports m "Latitude deve estar entre -90 e 90"
| reports_longitude (x : R) :
    m !! "longitude" = Some (ETo.VFloat x) -> ~ (-180 <= x <= 180)%R ->
    reports m "Longitude deve estar entre -180 e 180"
| reports_elevation (x : R) :
    m !! "elevation_m" = Some (ETo.VFloat x) -> ~ (-500 <= x <= 9000)%R ->
    reports m "Elevação deve estar entre -500 e 9000 metros"
| reports_humidity (x : R) :
    m !! "RH2M" = Some (ETo.VFloat x) -> ~ (0 <= x <= 100)%R ->
    reports m "Umidade relativa deve estar entre 0 e 100%"
| reports_wind (x : R) :
    m !! "WS2M" = Some (ETo.VFloat x) -> (x < 0)%R ->
    reports m "Velocidade do vento não pode ser negativa"
| reports_temperatures (tmax tmin : R) :
    m !! "T2M_MAX" = Some (ETo.VFloat tmax) ->
    m !! "T2M_MIN" = Some (ETo.VFloat tmin) -> (tmax < tmin)%R ->
    reports m "T2M_MAX não pode ser menor que T2M_MIN".

(** A measurements dictionary with the eleven required entries. *)
Definition measurements_of
  (T_max T_min T_mean RH u2 precipitation Rs z lat lon : R) (date : string)
  : gmap string ETo.pyval :=
  <["T2M_MAX" := ETo.VFloat T_max]>
    (<["T2M_MIN" := ETo.VFloat T_min]>
       (<["T2M_MEAN" := ETo.VFloat T_mean]>
          (<["RH2M" := ETo.VFloat RH]>
             (<["WS2M" := ETo.VFloat u2]>
                (<["PRECTOTCORR" := ETo.VFloat precipitation]>
                   (<["ALLSKY_SFC_SW_DWN" := ETo.VFloat Rs]>
                      (<["elevation_m" := ETo.VFloat z]>
                         (<["latitude" := ETo.VFloat lat]>
                            (<["longitude" := ETo.VFloat lon]>
                               (<["date" := ETo.VStr date]> ∅)))))))))).

(** The documented example of [calculate_et0]: Brasília, 2024-09-15. *)
Definition sample_measurements : gmap string ETo.pyval :=
  measurements_of 28.5 18.2 23.4 65 2.5 5.2 22.5 1000 (-15.7975) (-48)
    "2024-09-15".

(** The same day with the two temperatures exchanged. *)
Definition inverted_measurements : gmap string ETo.pyval :=
  measurements_of 18.2 28.5 23.4 65 2.5 5.2 22.5 1000 (-15.7975) (-48)
    "2024-09-15".

(** A midsummer day one degree from the North Pole. *)
Definition polar_measurements : gmap string ETo.pyval :=
  measurements_of 5 (-2) 1 80 3 0 20 10 89 15 "2024-06-21".

(** A sample clock. *)
Definition today0 : Z := ymd2ord 2024 6 15.

(** A record as an adapter returns it. *)
Definition sample_record (t : Z) : Download.row :=
  {| Download.r_date := t;
     Download.r_cells :=
       [ ("temp_max", Some 28.5%R); ("temp_min", Some 18.2%R);
         ("temp_mean", Some 23.4%R); ("humidity", Some 65%R);
         ("humidity_mean", Some 65%R); ("wind_speed", Some 2.5%R);
         ("wind_speed_max", Some 4%R); ("wind_speed_mean", Some 2.5%R);
         ("solar_radiation", Some 22.5%R); ("precipitation", Some 5.2%R);
         ("precipitation_sum", Some 5.2%R) ] |}.

(** A sample world: the clock reads 2024-06-15, dates are given in ISO
    form, the source manager reports [avail], every health check passes
    and every adapter returns one record for the first and one for the
    last day it is asked for. *)
Definition sample_world (avail : list (string * bool)) : Download.world :=
  {| Download.now_date := today0;
     Download.to_datetime :=
       fun s => match parse_date s with
                | Ok d => Some (midnight d)
                | Raise _ => None
                end;
     Download.available_sources_for_location := fun _ _ => avail;
     Download.health_check_sync := fun _ => Ok true;
     Download.get_data_sync :=
       fun _ _ _ a b => Ok [sample_record a; sample_record b] |}.

(** The same world with adapters that return no record. *)
Definition silent_world (avail : list (string * bool)) : Download.world :=
  {| Download.now_date := today0;
     Download.to_datetime := Download.to_datetime (sample_world avail);
     Download.available_sources_for_location := fun _ _ => avail;
     Download.health_check_sync := fun _ => Ok true;
     Download.get_data_sync := fun _ _ _ _ _ => Ok [] |}.

End Reference.

(* ================================================================== *)
(** * Further code of the same files, their callers and callees       *)
(* ================================================================== *)

Module Format.
Import Calendar.

(** The decimal digit [d] as a character. *)
Definition digit_char (d : Z) : ascii := ascii_of_nat (Z.to_nat (48 + d)).

(** [date.isoformat()], which is also [str(date)]: the pattern
    ["%04d-%02d-%02d"]. *)
Definition isoformat (ymd : Z * Z * Z) : string :=
  let '(y, m, d) := ymd in
  string_of_list_ascii
    [ digit_char (y / 1000); digit_char (y / 100 mod 10);
      digit_char (y / 10 mod 10); digit_char (y mod 10); "-"%char;
      digit_char (m / 10); digit_char (m mod 10); "-"%char;
      digit_char (d / 10); digit_char (d mod 10) ].

End Format.

Module Pipeline.
Import ETo.
Local Open Scope R_scope.

(** The entries of the list [_generate_recomendations] returns; each
    constructor is one message of the code and carries the value the
    message formats. *)
Inductive recomendation : Type :=
| RecHigh
    (* "ET0 alta: Aumentar irrigação (+ 150% ETo normal)" *)
| RecLow
    (* "ET0 baixa: Reduzir irrigação (- 50% ETo normal)" *)
| RecNormal (mean_et0 : R)
    (* "ET0 normal: ~{mean_et0:.1f} mm/dia" *)
| RecAnomalies (count : Z)
    (* "Anomalias em {count} dias - revisar dados climáticos" *)
| RecIrrigation (total_irrigation : R).
    (* "Irrigação estimada: {total_irrigation:.1f} mm para o período" *)


End Pipeline.

Module Rules.
Import Calendar.

(** The dates a download accepts, by request type: a historical
    request of at most 90 days, a current request of at least 7 days,
    or a forecast request within [today - 25, today + 5]. *)
Definition accepted_dates (today s e : Z) : Prop :=
  (e <= today /\ s <= today - 30 /\ e - s + 1 <= 90)
  \/ (e <= today /\ today - 30 < s /\ 7 <= e - s + 1)
  \/ (today < e /\ e <= today + 5 /\ today - 25 <= s).

(** The messages of the date checks that can be reached with two
    dates given without a time of day. *)
Definition date_messages : list string :=
  [ "A data final deve ser posterior à data inicial";
    "Dados históricos: período entre 1 e 90 dias";
    "Dados atuais: período entre 7 e 30 dias";
    "Dados forecast: período máximo até hoje + 5 dias";
    "Dados forecast: data inicial deve ser >= hoje - 25 dias" ].

End Rules.

Module Frames.
Import Download.

(** The six providers: the valid source names without the pseudo-source
    ["data fusion"]. *)
Definition provider_names : list string :=
  [ "openmeteo_archive"; "openmeteo_forecast"; "nasa_power";
    "nws_forecast"; "nws_stations"; "met_norway" ].

(** A frame as the download cleans it: no cell holds the missing-value
    code and every row has at least one value. *)
Definition clean_frame (df : DataFrame) : Prop :=
  Reference.no_sentinel df
  /\ Forall (fun r => exists name x, cell r name = Some x) df.

(** The first row of a frame with a given date. *)
Definition first_of_date (d : Z) (df : DataFrame) : option row :=
  find (fun r => r_date r =? d) df.

End Frames.

Module Catalog.
Import Calendar Availability.

(** The availability of each source of the catalog as a decision on
    the dates, the mode and the location. *)
Definition historical_ok (today s e : Z) : bool :=
  (ymd2ord 1990 1 1 <=? s) && (e <=? today - 2).

Definition rolling_ok (today s e lo hi : Z) : bool :=
  (today + lo <=? s) && (e <=? today + hi).

Definition expected_available (today s e : Z) (in_usa : bool)
  (data_type name : string) : bool :=
  if String.eqb data_type "historical" then
    (String.eqb name "nasa_power" || String.eqb name "openmeteo_archive")
    && historical_ok today s e
  else
    if String.eqb name "nasa_power" || String.eqb name "openmeteo_archive"
    then historical_ok today s e
    else if String.eqb name "openmeteo_forecast"
    then rolling_ok today s e (-30) 5
    else if String.eqb name "met_norway" then rolling_ok today s e 0 5
    else if String.eqb name "nws_forecast"
    then in_usa && rolling_ok today s e 0 5
    else if String.eqb name "nws_stations"
    then in_usa && rolling_ok today s e (-1) 0
    else false.

End Catalog.

Module Modes.
Import Calendar Availability.

(** The message [validate_period_for_mode] returns; each constructor
    is one message of the code and carries the numbers it formats. *)
Inductive period_message : Type :=
| PeriodBelowMinimum (period_days : Z)
    (* "Período mínimo: 7 dias (atual: {period_days})" *)
| PeriodAboveWeb (max_days period_days : Z)
    (* "Período máximo para interface web: {max_days} dias (atual:
       {period_days}). Use download por email para períodos maiores." *)
| PeriodAboveEmail (max_days period_days : Z)
    (* "Período máximo para histórico por email: {max_days} dias
       (atual: {period_days})" *)
| PeriodAboveMaximum (max_days period_days : Z)
    (* "Período máximo: {max_days} dias (atual: {period_days})" *)
| PeriodValid (period_days : Z).
    (* "Período válido: {period_days} dias" *)

(** [ClimateSourceAvailability.validate_period_for_mode] *)
Definition validate_period_for_mode (start_date end_date : date_arg)
  (mode data_type : string) : exc (bool * period_message) :=
  start_date ← as_date start_date;
  end_date ← as_date end_date;
  let period_days := (end_date - start_date) + 1 in
  if period_days <? 7
  then mret (false, PeriodBelowMinimum period_days)
  else if String.eqb mode "web" then
    let max_days := 30 in
    if max_days <? period_days
    then mret (false, PeriodAboveWeb max_days period_days)
    else mret (true, PeriodValid period_days)
  else if String.eqb mode "email" && String.eqb data_type "historical" then
    let max_days := 90 in
    if max_days <? period_days
    then mret (false, PeriodAboveEmail max_days period_days)
    else mret (true, PeriodValid period_days)
  else
    let max_days := 30 in
    if max_days <? period_days
    then mret (false, PeriodAboveMaximum max_days period_days)
    else mret (true, PeriodValid period_days).

(** The longest period of a mode: 90 days for historical data by
    e-mail, 30 days otherwise. *)
Definition mode_limit (mode data_type : string) : Z :=
  if String.eqb mode "email" && String.eqb data_type "historical"
  then 90 else 30.

End Modes.

Module MetNorway.
Import ETo.
Local Open Scope R_scope.


(** [METNorwayClient.is_in_nordic_region]: the [NORDIC_BBOX] test. *)
Definition is_in_nordic_region (lat lon : R) : bool :=
  (Rleb 4.0 lon && Rleb lon 31.0) && (Rleb 54.0 lat && Rleb lat 71.5).

Definition NORDIC_VARIABLES : list string :=
  [ "air_temperature_max"; "air_temperature_min"; "air_temperature_mean";
    "precipitation_sum"; "relative_humidity_mean" ].

Definition GLOBAL_VARIABLES : list string :=
  [ "air_temperature_max"; "air_temperature_min"; "air_temperature_mean";
    "relative_humidity_mean" ].

(** [METNorwayClient.get_recommended_variables] *)
Definition get_recommended_variables (lat lon : R) : list string :=
  if is_in_nordic_region lat lon then NORDIC_VARIABLES
  else GLOBAL_VARIABLES.

Local Close Scope R_scope.

(** [METNorwayClient._calculate_ttl]; times are counted in
    microseconds, the resolution of [datetime], and [now] is the clock
    read in the time zone of [expires]. *)
Definition _calculate_ttl (now : Z) (expires : option Z) : Z :=
  match expires with
  | None => 3600
  | Some expires =>
      let ttl_seconds := Z.quot (expires - now) 1000000 in
      if ttl_seconds <=? 0 then 60
      else if 86400 <? ttl_seconds then 86400
      else ttl_seconds
  end.

End MetNorway.

Module Service.
Import Download ETo Pipeline.

(** What [process_location] returns: the dictionary with the series,
    its summary and the recommendations, or the dictionary whose only
    key is ["error"]. *)
Inductive location_result : Type :=
| LocationError (error : string)
| LocationSeries (et0_series : list series_entry)
    (summary : option summary)
    (recomendations : option (list recomendation)).

(** [EToProcessingService.process_location], down to the check of the
    downloaded frame.  [continue_with] stands for the rest of the [try]
    block (preprocessing, fusion, the calculation per day, storage)
    under the same [except Exception], which turns whatever it raises
    into the error dictionary. *)
Definition process_location (w : world)
  (continue_with : DataFrame -> list warning -> option R -> bool ->
                   location_result)
  (latitude longitude : R) (start_date end_date : string)
  (elevation : option R) (include_recomendations : bool)
  (database : string) : location_result :=
  match download_weather_data w (SourceStr database) start_date end_date
          longitude latitude with
  | Raise e => LocationError (exn_str e)
  | Ok (weather_data, download_warnings) =>
      if df_empty weather_data
      then LocationError "Falha ao obter dados meteorológicos"
      else continue_with weather_data download_warnings elevation
             include_recomendations
  end.

End Service.

Module Routes.
Import Calendar ETo Service.

(** [EToCalculationRequest] *)
Record EToCalculationRequest : Type := {
  lat : R;
  lng : R;
  start_date : string;
  end_date : string;
  sources : option string;
  period_type : option string;
  elevation : option R;
  estado : option string;
  cidade : option string
}.

(** What the [try] block of the endpoint can raise, and the [detail]
    of the [HTTPException]s; each constructor of [detail] is one
    message of the code with the values it formats. *)
Inductive raised : Type :=
| RExn (e : exn)
| RHTTPException (status_code : Z) (d : detail)
with detail : Type :=
| HistoricalPeriod (period_days : Z)
    (* "Histórico: período deve ser 1-90 dias (atual: {period_days})" *)
| HistoricalPast
    (* "Histórico: período deve ser no passado" *)
| DashboardPeriod (period_days : Z)
    (* "Dashboard: período deve ser 7-30 dias (atual: {period_days})" *)
| ForecastStart
    (* "Forecast: data inicial deve ser >= hoje" *)
| ForecastEnd
    (* "Forecast: data final deve ser <= hoje + 5 dias" *)
| DateFormat (ve : string)
    (* "Formato de data inválido: {ve}" *)
| CalculationFailed (e : raised).
    (* "ETo calculation failed: {e}" *)

(** The result of a [try] block. *)
Inductive attempt (A : Type) : Type :=
| Done (a : A)
| Fails (r : raised).
Global Arguments Done {A} a.
Global Arguments Fails {A} r.

Definition attempt_bind {A B} (c : attempt A) (f : A -> attempt B)
  : attempt B :=
  match c with
  | Done a => f a
  | Fails r => Fails r
  end.

Definition of_exc {A} (c : exc A) : attempt A :=
  match c with
  | Ok a => Done a
  | Raise e => Fails (RExn e)
  end.

(** The dictionary the endpoint returns (without its time stamp).
    [statistics] is [None] for the empty dictionary, as in
    [_summarize_series]; [data], [statistics] and [warnings] are read
    from the result of [process_location] with [result.get], whose
    defaults stand in when the result is the error dictionary (which
    has none of the keys; no result has the key ["warnings"]). *)
Record response : Type := {
  status : string;
  data : list series_entry;
  statistics : option summary;
  source : string;
  database_used : string;
  warnings : list string;
  location : R * R * option R;
  period : string * string
}.

Inductive outcome : Type :=
| Responds (r : response)
| HTTPError (status_code : Z) (d : detail).

(** [not s] for an optional string. *)
Definition falsy (s : option string) : bool :=
  match s with
  | None | Some EmptyString => true
  | Some _ => false
  end.

(** [request.sources == "auto" or not request.sources] *)
Definition is_auto (s : option string) : bool :=
  match s with
  | Some s' => String.eqb s' "auto" || falsy s
  | None => true
  end.

(** Step 0 of the [try] block: the rules of the period type.  It
    returns [request.sources] as the historical branch may have
    replaced it. *)
Definition check_period (today start end_ : Z) (request : EToCalculationRequest)
  : attempt (option string) :=
  let period_days := end_ - start + 1 in
  let period_type :=
    match period_type request with
    | Some p => if falsy (Some p) then "dashboard" else p
    | None => "dashboard"
    end in
  if String.eqb period_type "historical" then
    if (period_days <? 1) || (90 <? period_days)
    then Fails (RHTTPException 400 (HistoricalPeriod period_days))
    else if today <=? end_
    then Fails (RHTTPException 400 HistoricalPast)
    else if is_auto (sources request)
    then Done (Some "openmeteo_archive,nasa_power")
    else Done (sources request)
  else if String.eqb period_type "dashboard" then
    if (period_days <? 7) || (30 <? period_days)
    then Fails (RHTTPException 400 (DashboardPeriod period_days))
    else Done (sources request)
  else if String.eqb period_type "forecast" then
    if start <? today
    then Fails (RHTTPException 400 ForecastStart)
    else if today + 5 <? end_
    then Fails (RHTTPException 400 ForecastEnd)
    else Done (sources request)
  else Done (sources request).

(** The [try] block of [calculate_eto].  [today] is the clock,
    [construct] the call [EToProcessingService(db_session=db)] and
    [locate] the call of its [process_location]. *)
Definition calculate_eto_body (today : Z) (construct : exc unit)
  (locate : R -> R -> string -> string -> option R -> bool -> string ->
            location_result)
  (request : EToCalculationRequest) : attempt response :=
  attempt_bind (of_exc (parse_date (start_date request))) (fun start =>
  attempt_bind (of_exc (parse_date (end_date request))) (fun end_ =>
  attempt_bind (check_period today start end_ request) (fun sources =>
  let selected_source :=
    match sources with
    | Some s => if is_auto sources then "data fusion" else s
    | None => "data fusion"
    end in
  let database := selected_source in
  attempt_bind (of_exc construct) (fun _ =>
  let result := locate (lat request) (lng request) (start_date request)
                  (end_date request) (elevation request) false database in
  Done {| status := "success";
          data := match result with
                  | LocationSeries et0_series _ _ => et0_series
                  | LocationError _ => []
                  end;
          statistics := match result with
                        | LocationSeries _ summary _ => summary
                        | LocationError _ => None
                        end;
          source := selected_source;
          database_used := database;
          warnings := [];
          location := (lat request, lng request, elevation request);
          period := (start_date request, end_date request) |})))).

(** [calculate_eto]: the [try] block and its two handlers. *)
Definition calculate_eto (today : Z) (construct : exc unit)
  (locate : R -> R -> string -> string -> option R -> bool -> string ->
            location_result)
  (request : EToCalculationRequest) : outcome :=
  match calculate_eto_body today construct locate request with
  | Done r => Responds r
  | Fails (RExn (ValueError ve)) => HTTPError 400 (DateFormat ve)
  | Fails e => HTTPError 500 (CalculationFailed e)
  end.

End Routes.

Module Samples.
Import Calendar Download Service Routes Reference.

(** A dashboard request of sixteen days that ends ten days after the
    sample clock. *)
Definition late_request : EToCalculationRequest :=
  {| lat := (-15.7975)%R; lng := (-48)%R;
     start_date := "2024-06-10"; end_date := "2024-06-25";
     sources := Some "openmeteo_forecast";
     period_type := Some "dashboard";
     elevation := None; estado := None; cidade := None |}.

(** A continuation that returns an empty series. *)
Definition empty_series (_ : DataFrame) (_ : list warning) (_ : option R)
  (_ : bool) : location_result :=
  LocationSeries [] None None.

(** A record whose NASA POWER variables all hold the missing-value
    code. *)
Definition blank_record (t : Z) : row :=
  {| r_date := t;
     r_cells :=
       [ ("temp_max", Some (-999)%R); ("temp_min", Some (-999)%R);
         ("temp_mean", Some (-999)%R); ("humidity", Some (-999)%R);
         ("wind_speed", Some (-999)%R);
         ("solar_radiation", Some (-999)%R);
         ("precipitation", Some (-999)%R) ] |}.

(** The sample world with adapters that return blank records. *)
Definition blank_world (avail : list (string * bool)) : world :=
  {| now_date := today0;
     to_datetime := to_datetime (sample_world avail);
     available_sources_for_location := fun _ _ => avail;
     health_check_sync := fun _ => Ok true;
     get_data_sync := fun _ _ _ a b => Ok [blank_record a; blank_record b] |}.

End Samples.

Module Harmonized.
Import PyStr Download.

(** The value harmonisation leaves in the column [name] of a row: for
    a target whose provider column exists in the frame, the value of
    that provider column; the row's own value otherwise. *)
Definition harmonized_cell (table : list (string * string))
  (cols : list string) (r : row) (name : string) : option R :=
  match find (fun p => String.eqb p.2 name && mem p.1 cols) table with
  | Some p => cell r p.1
  | None => cell r name
  end.

(** A harmonisation table maps provider names to distinct targets, and
    no target is itself a provider name of the table. *)
Definition well_formed (table : list (string * string)) : Prop :=
  NoDup (map snd table)
  /\ forall p q, In p table -> In q table -> p.1 <> q.2.

(** The relation between a row and its harmonised image. *)
Definition harmonised_row (table : list (string * string))
  (cols : list string) (r r' : row) : Prop :=
  r_date r' = r_date r
  /\ forall n, cell r' n = harmonized_cell table cols r n.

End Harmonized.

Module Adapters.
Import Download.

(** The world [w] with other provider adapters. *)
Definition with_adapters (w : world)
  (adapters : string -> R -> R -> Z -> Z -> exc (list row)) : world :=
  {| now_date := now_date w;
     to_datetime := to_datetime w;
     available_sources_for_location := available_sources_for_location w;
     health_check_sync := health_check_sync w;
     get_data_sync := adapters |}.

End Adapters.

Module DateChecks.
Import Calendar PyStr Download.

(** What [download_weather_data] does once the coordinates and the
    dates have passed their checks: the check of the requested source
    names and the choice of the sources to query, for a request of
    whole days [s] to [e]. *)
Definition choose_sources (w : world) (data_source : data_source_arg)
  (longitude latitude : R) (s e : Z) : exc request :=
  let request_type :=
    classify_request_type (now_date w) (PDate s) (PDate e) in
  let available_source_ids :=
    map fst (filter (fun p => p.2 = true)
               (available_sources_for_location w latitude longitude)) in
  _ ← validate_requested available_source_ids (requested_of data_source);
  sources ← select_sources request_type available_source_ids
              (requested_of data_source);
  mret {| rq_inicial := midnight s; rq_final := midnight e;
          rq_period_days := e - s + 1;
          rq_current_date := midnight (now_date w);
          rq_request_type := request_type; rq_sources := sources |}.

(** The outcome of the date checks on whole days [s] to [e] seen from
    [today]: the message they raise, or [None] when they pass. *)
Definition date_verdict (today s e : Z) : option string :=
  if e <? s
  then Some "A data final deve ser posterior à data inicial"
  else if today <? e then
    if today + 5 <? e
    then Some "Dados forecast: período máximo até hoje + 5 dias"
    else if s <? today - 25
         then Some "Dados forecast: data inicial deve ser >= hoje - 25 dias"
         else None
  else if s <=? today - 30 then
    if e - s + 1 <=? 90 then None
    else Some "Dados históricos: período entre 1 e 90 dias"
  else
    if 7 <=? e - s + 1 then None
    else Some "Dados atuais: período entre 7 e 30 dias".

End DateChecks.

(* ================================================================== *)
(** * Python floats as IEEE 754 doubles                                 *)
(* ================================================================== *)

Module Binary64.
Local Open Scope float_scope.

(** [x / y]: Python raises where IEEE 754 would give an infinity or a
    not-a-number. *)
Definition div (x y : float) : exc float :=
  if y =? 0 then Raise (ZeroDivisionError "float division by zero")
  else Ok (x / y).

(** [float(n)] of an integer: the nearest double, ties to even. *)
Definition of_int (n : Z) : float :=
  SF2Prim (binary_normalize prec emax n 0 false).

(** [max(0, x)]: the first argument is kept unless the second is greater. *)
Definition max0 (x : float) : float := if 0 <? x then x else 0.

(** The nearest integer to [a / d], ties to even, for a positive [d]. *)
Definition half_even (a d : Z) : Z :=
  let q := (a / d)%Z in
  let r := (a mod d)%Z in
  match (2 * r ?= d)%Z with
  | Lt => q
  | Gt => (q + 1)%Z
  | Eq => if Z.even q then q else (q + 1)%Z
  end.

(** [round(x, ndigits)] on a float, for [ndigits >= 0]: CPython prints
    the exact value of [x] with [ndigits] decimals, the last one
    correctly rounded with ties to even, and reads the decimal string
    back as the nearest double.  Infinities, not-a-numbers and zeros
    round to themselves; the sign is kept when the result is zero. *)
Definition py_round (x : float) (ndigits : Z) : float :=
  match Prim2SF x with
  | S754_finite s m e =>
      let p := (10 ^ ndigits)%Z in
      let n := if (0 <=? e)%Z then (Zpos m * p * 2 ^ e)%Z
               else half_even (Zpos m * p) (2 ^ (- e)) in
      match n with
      | Zpos n =>
          SF2Prim (SFdiv prec emax (S754_finite s n 0)
                     (S754_finite false (Z.to_pos p) 0))
      | _ => SF2Prim (S754_zero s)
      end
  | _ => x
  end.

(** [math.pi] *)
Definition math_pi : float := 0x1.921fb54442d18p+1.

(** [math.radians]: the product with the constant [pi / 180]. *)
Definition math_radians (x : float) : float := x * (math_pi / 180).

(** The functions of the C library the code calls through [math] and
    through the power operator.  Their values are those of the platform;
    they raise [OverflowError] ("math range error") when the result is
    out of range and [ValueError] ("math domain error") outside their
    domain. *)
Record libm : Type := {
  math_exp : float -> exc float;
  math_sin : float -> exc float;
  math_cos : float -> exc float;
  math_tan : float -> exc float;
  math_acos : float -> exc float;
  float_pow : float -> float -> exc float
}.

(** [sum(values)], from the integer [0], left to right with one rounding
    per addition (CPython up to version 3.11). *)
Definition sum (values : list float) : float := fold_left add values 0.


(** [max(values)] and [min(values)] of a list with head [v]: an item
    replaces the current one when it compares greater (smaller). *)
Definition max_of (v : float) (values : list float) : float :=
  fold_left (fun m x => if m <? x then x else m) values v.
Definition min_of (v : float) (values : list float) : float :=
  fold_left (fun m x => if x <? m then x else m) values v.

End Binary64.

(* ================================================================== *)
(** * [EToCalculationService] in double arithmetic                      *)
(* ================================================================== *)

Module ETo64.
Import Calendar Binary64.
Local Open Scope float_scope.

(** A value of the measurements dictionary: a float, or a string (the
    date). *)
Inductive pyval : Type :=
| VFloat (x : float)
| VStr (s : string).

(** [measurements[k]] used as a number. *)
Definition num (measurements : gmap string pyval) (k : string)
  : exc float :=
  match measurements !! k with
  | Some (VFloat x) => Ok x
  | Some (VStr _) => Raise (TypeError "unsupported operand type: 'str'")
  | None => Raise (KeyError k)
  end.

(** [measurements[k]] used as a string. *)
Definition str (measurements : gmap string pyval) (k : string)
  : exc string :=
  match measurements !! k with
  | Some (VStr s) => Ok s
  | Some (VFloat _) =>
      Raise (TypeError "strptime() argument 1 must be str, not float")
  | None => Raise (KeyError k)
  end.

(** The entries the code computes with, and the types the annotation
    and the documentation of [calculate_et0] give the entries: a string
    for the date, numbers elsewhere.  (The code binds the entries to
    names before it computes with them; an entry of another type makes
    the first operation on it raise a [TypeError].) *)
Definition numeric_vars : list string :=
  [ "T2M_MAX"; "T2M_MIN"; "T2M_MEAN"; "RH2M"; "WS2M"; "ALLSKY_SFC_SW_DWN";
    "latitude"; "longitude"; "elevation_m" ].

Definition well_typed (measurements : gmap string pyval) : bool :=
  forallb (fun var => match measurements !! var with
                      | Some (VStr _) => false
                      | _ => true
                      end) numeric_vars
  && match measurements !! "date" with
     | Some (VFloat _) => false
     | _ => true
     end.

(** [_validate_measurements]: a comparison with a not-a-number is
    false, so that the chained ranges of the latitude, the longitude and
    the humidity reject it and the other three tests let it pass. *)
Definition _validate_measurements (measurements : gmap string pyval)
  : exc bool :=
  let missing_vars :=
    filter (fun var => measurements !! var = None) ETo.required_vars in
  _ ← ETo.check (bool_decide (missing_vars = []))
        ("Variáveis obrigatórias ausentes: " +:+ join ", " missing_vars);
  latitude ← num measurements "latitude";
  _ ← ETo.check ((-90 <=? latitude) && (latitude <=? 90))
        "Latitude deve estar entre -90 e 90";
  longitude ← num measurements "longitude";
  _ ← ETo.check ((-180 <=? longitude) && (longitude <=? 180))
        "Longitude deve estar entre -180 e 180";
  elevation_m ← num measurements "elevation_m";
  _ ← ETo.check (negb ((elevation_m <? -500) || (9000 <? elevation_m)))
        "Elevação deve estar entre -500 e 9000 metros";
  RH2M ← num measurements "RH2M";
  _ ← ETo.check ((0 <=? RH2M) && (RH2M <=? 100))
        "Umidade relativa deve estar entre 0 e 100%";
  WS2M ← num measurements "WS2M";
  _ ← ETo.check (negb (WS2M <? 0))
        "Velocidade do vento não pode ser negativa";
  T2M_MAX ← num measurements "T2M_MAX";
  T2M_MIN ← num measurements "T2M_MIN";
  _ ← ETo.check (negb (T2M_MAX <? T2M_MIN))
        "T2M_MAX não pode ser menor que T2M_MIN";
  mret true.

Section Terms.
Variable lm : libm.

(** [_saturation_vapor_pressure] *)
Definition _saturation_vapor_pressure (T : float) : exc float :=
  q ← div (17.27 * T) (T + 237.3);
  e ← math_exp lm q;
  mret (0.6108 * e).

(** [_vapor_pressure_slope] *)
Definition _vapor_pressure_slope (T : float) : exc float :=
  exp_term ← div (17.27 * T) (T + 237.3);
  e ← math_exp lm exp_term;
  sq ← float_pow lm (T + 237.3) 2;
  div (4098 * 0.6108 * e) sq.

(** [_psychrometric_constant] *)
Definition _psychrometric_constant (P z : float) : float :=
  0.000665 * P / 2.45.

(** [_solar_declination] *)
Definition _solar_declination (N : Z) : exc float :=
  let b := 2 * math_pi * of_int (N - 1) / 365 in
  s ← math_sin lm (b - 1.39);
  mret (0.409 * s).

(** [_extraterrestrial_radiation] *)
Definition _extraterrestrial_radiation (lat : float) (N : Z) (delta : float)
  : exc float :=
  let phi := math_radians lat in
  c ← math_cos lm (2 * math_pi * of_int N / 365);
  let dr := 1 + 0.033 * c in
  tan_phi ← math_tan lm phi;
  tan_delta ← math_tan lm delta;
  omega_s ← math_acos lm (- tan_phi * tan_delta);
  sin_phi ← math_sin lm phi;
  sin_delta ← math_sin lm delta;
  cos_phi ← math_cos lm phi;
  cos_delta ← math_cos lm delta;
  sin_omega_s ← math_sin lm omega_s;
  let Ra := (24 * 60 / math_pi) * 0.0820 * dr
            * (omega_s * sin_phi * sin_delta
               + cos_phi * cos_delta * sin_omega_s) in
  mret (max0 Ra).

(** ** [calculate_et0] *)

Record components : Type := {
  Ra : float; Rn : float; slope : float; gamma : float; Vpd : float
}.

Record et0_result : Type := {
  et0_mm_day : float;
  quality : string;
  method : string;
  comps : option components;
  error : option string
}.

Definition ALBEDO : float := 0.23.

(** Steps 3 and 4 of the [try] block, from the extracted variables: the
    raw [ET0] and the unrounded components.  [np.nan] is the
    not-a-number of the doubles. *)
Definition combined_equation (T_max T_min T_mean RH_mean u2 Rs z lat : float)
  (date_str : string) : exc (float * components) :=
  pw ← float_pow lm ((293 - 0.0065 * z) / 293) 5.26;
  let P := 101.3 * pw in
  es_T_max ← _saturation_vapor_pressure T_max;
  es_T_min ← _saturation_vapor_pressure T_min;
  let es := (es_T_max + es_T_min) / 2 in
  let ea := (RH_mean / 100.0) * es in
  let Vpd := es - ea in
  N ← ETo._day_of_year date_str;
  delta ← _solar_declination N;
  Ra ← _extraterrestrial_radiation lat N delta;
  let Rn_sw := (1 - ALBEDO) * Rs in
  let Rn_lw := 0.23 in
  let Rn := Rn_sw - (Rn_lw * Rs) in
  let G := 0 in
  slope ← _vapor_pressure_slope T_mean;
  let gamma := _psychrometric_constant P z in
  let Cn := 900 in
  let Cd := 0.34 in
  q ← div Cn (T_mean + 273);
  let numerator := 0.408 * slope * (Rn - G) + gamma * q * u2 * Vpd in
  let denominator := slope + gamma * (1 + Cd * u2) in
  let ET0 := if denominator =? 0 then nan else numerator / denominator in
  mret (ET0, {| Ra := Ra; Rn := Rn; slope := slope; gamma := gamma;
                Vpd := Vpd |}).

(** Steps 1 to 4 of the [try] block: validation, the extraction of the
    variables and the computation. *)
Definition penman_monteith (measurements : gmap string pyval)
  : exc (float * components) :=
  _ ← _validate_measurements measurements;
  T_max ← num measurements "T2M_MAX";
  T_min ← num measurements "T2M_MIN";
  T_mean ← num measurements "T2M_MEAN";
  RH_mean ← num measurements "RH2M";
  u2 ← num measurements "WS2M";
  Rs ← num measurements "ALLSKY_SFC_SW_DWN";
  z ← num measurements "elevation_m";
  lat ← num measurements "latitude";
  date_str ← str measurements "date";
  combined_equation T_max T_min T_mean RH_mean u2 Rs z lat date_str.

(** [ET0 < 0 or ET0 > 15 or np.isnan(ET0)] *)
Definition suspicious (ET0 : float) : bool :=
  (ET0 <? 0) || (15 <? ET0) || is_nan ET0.

(** Step 5 and the returned dictionary. *)
Definition assess (method : string) (raw : float * components)
  : et0_result :=
  let '(ET0, c) := raw in
  let quality := if suspicious ET0 then "low" else "high" in
  let ET0 := if suspicious ET0 && is_nan ET0 then 0 else ET0 in
  {| et0_mm_day := py_round (max0 ET0) 2;
     quality := quality;
     method := method;
     comps := Some {| Ra := py_round (Ra c) 2; Rn := py_round (Rn c) 2;
                      slope := py_round (slope c) 4;
                      gamma := py_round (gamma c) 4;
                      Vpd := py_round (Vpd c) 2 |};
     error := None |}.

(** [calculate_et0]: the [try] block and its [except Exception]. *)
Definition calculate_et0 (measurements : gmap string pyval)
  (method : string) : et0_result :=
  match penman_monteith measurements with
  | Ok raw => assess method raw
  | Raise e =>
      {| et0_mm_day := 0; quality := "low"; method := method;
         comps := None; error := Some (exn_str e) |}
  end.

End Terms.

(** ** [detect_anomalies] *)

Record anomaly : Type := {
  is_anomaly : bool;
  z_score : option float;
  deviation_percent : option float
}.

Definition detect_anomalies (et0 : float)
  (historical_normal : option (gmap string float)) : exc anomaly :=
  match historical_normal with
  | None =>
      mret {| is_anomaly := false; z_score := None;
              deviation_percent := None |}
  | Some normal =>
      if Nat.eqb (size normal) 0 then
        mret {| is_anomaly := false; z_score := None;
                deviation_percent := None |}
      else
        let mean := default 0 (normal !! "mean") in
        let std := default 1 (normal !! "std_dev") in
        if (std =? 0) || (mean =? 0) then
          mret {| is_anomaly := false; z_score := Some 0;
                  deviation_percent := Some 0 |}
        else
          z_score ← div (et0 - mean) std;
          let is_anomaly := 2.5 <? abs z_score in
          q ← div (et0 - mean) mean;
          let deviation_percent := q * 100 in
          mret {| is_anomaly := is_anomaly;
                  z_score := Some (py_round z_score 2);
                  deviation_percent := Some (py_round deviation_percent 1) |}
  end.

(** ** [_summarize_series] *)

Record series_entry : Type := {
  e_date : string;
  e_et0_mm_day : float;
  e_quality : string;
  e_anomaly : anomaly
}.

Record summary : Type := {
  total_days : Z;
  et0_total_mm : float;
  et0_mean_mm_day : float;
  et0_max_mm_day : float;
  et0_min_mm_day : float;
  anomaly_count : Z
}.

(** [_summarize_series]; [None] is the empty dictionary.  The division
    is by the length of a list that is not empty. *)
Definition _summarize_series (et0_series : list series_entry)
  : option summary :=
  match map e_et0_mm_day et0_series with
  | [] => None
  | v :: vs =>
      let values := v :: vs in
      Some {| total_days := Z.of_nat (length et0_series);
              et0_total_mm := py_round (sum values) 1;
              et0_mean_mm_day :=
                py_round (sum values / of_int (Z.of_nat (length values))) 2;
              et0_max_mm_day := py_round (max_of v vs) 2;
              et0_min_mm_day := py_round (min_of v vs) 2;
              anomaly_count :=
                Z.of_nat (length (filter
                                    (fun d => is_anomaly (e_anomaly d) = true)
                                    et0_series)) |}
  end.

End ETo64.

Module Samples64.
Import Binary64 ETo64.
Local Open Scope float_scope.

(** The entry of a table at the first key equal to [x], and a domain
    error off the table. *)
Fixpoint lookup (entries : list (float * exc float)) (x : float)
  : exc float :=
  match entries with
  | [] => Raise (ValueError "math domain error")
  | (k, v) :: rest => if k =? x then v else lookup rest x
  end.

(** A function of the C library given by a table; a not-a-number goes
    through, as it does in the library. *)
Definition table (entries : list (float * exc float)) (x : float)
  : exc float :=
  if is_nan x then Ok x else lookup entries x.

(** The same for the power operator. *)
Fixpoint lookup2 (entries : list (float * float * exc float)) (x y : float)
  : exc float :=
  match entries with
  | [] => Raise (ValueError "math domain error")
  | (k1, k2, v) :: rest =>
      if (k1 =? x) && (k2 =? y) then v else lookup2 rest x y
  end.

(** What CPython 3.11 on Linux x86-64 gets from the C library (glibc) at
    the arguments the examples of this file evaluate: the documented
    example of [calculate_et0], the same day at other mean temperatures,
    and a day near the pole. *)
Definition sample_libm : libm :=
  {| math_exp := table
       [ (0x1.da0c404292519p+0, Ok 0x1.97bdbb881e204p+2);
         (0x1.3aedd93a7029bp+0, Ok 0x1.b60059f8ab4a9p+1);
         (0x1.8cd5187f8bdc3p+0, Ok 0x1.2d927fd386275p+2);
         (0x1.6cedeee24fa9cp-2, Ok 0x1.6d9ae8fd36f9ap+0);
         (-0x1.2ca0eed4f0232p-3, Ok 0x1.ba19484ce0370p-1);
         (0x1.7fc71c71c71e4p+10, Raise (OverflowError "math range error"));
         (0x1.1451eb851eb85p+4, Ok 0x1.e2d2116a94430p+24);
         (0x1.0821212121214p+7, Ok 0x1.716a156c7660ep+190) ];
     math_sin := table
       [ (0x1.868fdbecea2c8p+1, Ok 0x1.717a6c333d5b0p-4);
         (-0x1.1a55ebd77e379p-2, Ok (-0x1.16c5a081c6dcdp-2));
         (0x1.2e3bb198818c7p-5, Ok 0x1.2e2a24800d09dp-5);
         (0x1.8f734fe4aef16p+0, Ok 0x1.fff8da5662dd6p-1);
         (0x1.9222cc7cbd5a1p+0, Ok 0x1.fffffff67291fp-1) ];
     math_cos := table
       [ (0x1.1d57ba231c7a0p+2, Ok (-0x1.0137f7d5dc9f2p-2));
         (-0x1.1a55ebd77e379p-2, Ok 0x1.eca964d83a769p-1);
         (0x1.2e3bb198818c7p-5, Ok 0x1.ffa6ce5dd960fp-1);
         (0x1.7d30fe97ad748p+1, Ok (-0x1.f92b3a84379e5p-1)) ];
     math_tan := table
       [ (-0x1.1a55ebd77e379p-2, Ok (-0x1.21b6ebc6a1d19p-2));
         (0x1.2e3bb198818c7p-5, Ok 0x1.2e5ed14b44762p-5);
         (0x1.8da7e39bae2a3p+0, Ok 0x1.ca51d76749a49p+5);
         (0x1.a2d0e558712cap-2, Ok 0x1.bbd86efbbc542p-2) ];
     math_acos := table
       [ (0x1.5631182a6a632p-7, Ok 0x1.8f734fe4aef16p+0);
         (-0x1.8d4f8dbfaac6ap+4, Raise (ValueError "math domain error")) ];
     float_pow := fun x y =>
       if is_nan x then Ok x
       else lookup2
         [ (0x1.f4a4426719568p-1, 5.26, Ok 0x1.c702cb2658f63p-1);
           (0x1.04b3333333333p+8, 2, Ok 0x1.097c7d70a3d70p+16);
           (0x1.ffe2ec2f1c69dp-1, 5.26, Ok 0x1.ff67200667566p-1);
           (-0x1.1d99999999998p+5, 2, Ok 0x1.3e9f5c28f5c25p+10);
           (0x1.4e718d7d7625ap+664, 2,
            Raise (OverflowError "(34, 'Numerical result out of range')")) ]
         x y |}.

Definition measurements_of
  (T_max T_min T_mean RH u2 precipitation Rs z lat lon : float)
  (date : string) : gmap string pyval :=
  list_to_map
    [ ("T2M_MAX", VFloat T_max); ("T2M_MIN", VFloat T_min);
      ("T2M_MEAN", VFloat T_mean); ("RH2M", VFloat RH);
      ("WS2M", VFloat u2); ("PRECTOTCORR", VFloat precipitation);
      ("ALLSKY_SFC_SW_DWN", VFloat Rs); ("elevation_m", VFloat z);
      ("latitude", VFloat lat); ("longitude", VFloat lon);
      ("date", VStr date) ].

(** The documented example of [calculate_et0]. *)
Definition sample_measurements : gmap string pyval :=
  <["PS" := VFloat 101.3]>
    (measurements_of 28.5 18.2 23.4 65.0 2.5 5.2 22.5 1000 (-15.7975) (-48)
       "2024-09-15").

(** A day of polar light: latitude 89 degrees on 2024-06-21. *)
Definition polar_measurements : gmap string pyval :=
  measurements_of 5 (-2) 1 80 3 0 20 10 89 15 "2024-06-21".

(** The documented example of [detect_anomalies]. *)
Definition example_normal : gmap string float :=
  <["mean" := 3.8]> (<["std_dev" := 0.6]> ∅).

(** A normal at two and a half standard deviations of [0.35]. *)
Definition borderline_normal : gmap string float :=
  <["mean" := 1.1]> (<["std_dev" := 0.3]> ∅).

(** A day of a series with the value [x]. *)
Definition day (x : float) : series_entry :=
  {| e_date := "2024-09-15"; e_et0_mm_day := x; e_quality := "high";
     e_anomaly := {| is_anomaly := false; z_score := None;
                     deviation_percent := None |} |}.


End Samples64.

(* ================================================================== *)
(** * Theorems                                                          *)
(* ================================================================== *)

(** ** Comparisons and rounding *)

Section Numbers.
Local Open Scope R_scope.
Import ETo.

Lemma Rleb_true (x y : R) : x <= y -> Rleb x y = true.
Proof. intros H. unfold Rleb. destruct (Rle_dec x y); [reflexivity | lra]. Qed.

Lemma Rleb_false (x y : R) : y < x -> Rleb x y = false.
Proof. intros H. unfold Rleb. destruct (Rle_dec x y); [lra | reflexivity]. Qed.

Lemma Rltb_true (x y : R) : x < y -> Rltb x y = true.
Proof. intros H. unfold Rltb. destruct (Rlt_dec x y); [reflexivity | lra]. Qed.

Lemma Rltb_false (x y : R) : y <= x -> Rltb x y = false.
Proof. intros H. unfold Rltb. destruct (Rlt_dec x y); [lra | reflexivity]. Qed.

Lemma Reqb_true (x y : R) : x = y -> Reqb x y = true.
Proof. intros H. unfold Reqb. destruct (Req_dec_T x y); [reflexivity | lra]. Qed.

Lemma Reqb_false (x y : R) : x <> y -> Reqb x y = false.
Proof.
  intros H. unfold Reqb. destruct (Req_dec_T x y); [contradiction | reflexivity].
Qed.

Lemma Rleb_iff (x y : R) : Rleb x y = true <-> x <= y.
Proof.
  unfold Rleb. destruct (Rle_dec x y); split; intros; try easy; lra.
Qed.


Lemma Reqb_iff (x y : R) : Reqb x y = true <-> x = y.
Proof.
  unfold Reqb. destruct (Req_dec_T x y); split; intros; try easy.
Qed.

(** The integer part brackets its argument. *)
Lemma Int_part_bounds (x : R) :
  IZR (Int_part x) <= x < IZR (Int_part x) + 1.
Proof. destruct (base_Int_part x). lra. Qed.


(** Rounding moves a number by at most one half. *)
Lemma round_half_even_near (x : R) :
  Rabs (IZR (round_half_even x) - x) <= 1 / 2.
Proof.
  unfold round_half_even.
  destruct (Int_part_bounds x) as [Hlo Hhi].
  destruct (Rlt_dec _ _) as [H1 | H1].
  - apply Rabs_le. lra.
  - destruct (Rlt_dec _ _) as [H2 | H2].
    + rewrite plus_IZR. apply Rabs_le. lra.
    + destruct (Z.even _); [| rewrite plus_IZR]; apply Rabs_le; lra.
Qed.

(** A number strictly closer to [n] than one half rounds to [n]. *)
Lemma round_half_even_unique (x : R) (n : Z) :
  IZR n - 1 / 2 < x < IZR n + 1 / 2 -> round_half_even x = n.
Proof.
  intros [Hlo Hhi].
  pose proof (round_half_even_near x) as Hnear.
  assert (- (1 / 2) <= IZR (round_half_even x) - x <= 1 / 2) as Hb
    by (unfold Rabs in Hnear; destruct (Rcase_abs _) in Hnear; lra).
  assert (IZR (round_half_even x) < IZR (n + 1)) as H1
    by (rewrite plus_IZR; lra).
  assert (IZR (n - 1) < IZR (round_half_even x)) as H2
    by (rewrite minus_IZR; lra).
  apply lt_IZR in H1, H2. lia.
Qed.









(** The value of [round] from a bracket of its argument. *)
Lemma py_round_eq (x : R) (d : nat) (n : Z) :
  IZR n - 1 / 2 < x * 10 ^ d < IZR n + 1 / 2 ->
  py_round x d = IZR n / 10 ^ d.
Proof.
  intros H. unfold py_round. now rewrite (round_half_even_unique _ n).
Qed.

End Numbers.

Example strptime_example :
  Calendar.strptime_ymd "2024-09-15" = Some (2024, 9, 15).
Proof. reflexivity. Qed.

Example tm_yday_example : Calendar.tm_yday (2024, 9, 15) = 259.
Proof. reflexivity. Qed.

Example ymd2ord_example : Calendar.ymd2ord 1990 1 1 = 726468.
Proof. reflexivity. Qed.

(* ================================================================== *)
(** ** Request classification                                           *)
(* ================================================================== *)

Section Classification.
Import Download.

(** C2.  [classify_request_type] is total: for every pair of dates and
    every "today" it returns exactly one of ["historical"],
    ["current"] and ["forecast"]; it returns ["forecast"] exactly when
    the end date is after today, otherwise ["historical"] exactly when
    the start date is at most today minus 30 days, and otherwise
    ["current"]. *)
Theorem classify_request_type_partition
  (today : Z) (data_inicial data_final : pydatetime) :
  let r := classify_request_type today data_inicial data_final in
  let start_date := to_date data_inicial in
  let end_date := to_date data_final in
  (r = "forecast" \/ r = "historical" \/ r = "current")
  /\ (r = "forecast" <-> today < end_date)
  /\ (r = "historical" <->
        ~ today < end_date /\ start_date <= today - 30)
  /\ (r = "current" <->
        ~ today < end_date /\ ~ start_date <= today - 30).
Proof.
  cbv zeta. unfold classify_request_type.
  destruct (Z.ltb_spec today (to_date data_final));
    [| destruct (Z.leb_spec (to_date data_inicial) (today - 30))].
  all: repeat split; intros; try tauto; try discriminate; try lia.
  all: intuition (try discriminate; try lia).
Qed.

End Classification.

Example classify_examples :
  let today := Calendar.ymd2ord 2024 6 15 in
  Download.classify_request_type today
    (Download.PDate (today - 40)) (Download.PDate (today - 35)) = "historical"
  /\ Download.classify_request_type today
       (Download.PDate (today - 10)) (Download.PDate today) = "current"
  /\ Download.classify_request_type today
       (Download.PTimestamp (Calendar.midnight today))
       (Download.PTimestamp (Calendar.midnight (today + 3))) = "forecast".
Proof. repeat split. Qed.

(* ================================================================== *)
(** ** Source availability                                              *)
(* ================================================================== *)

Section AvailabilityWindow.
Import Calendar Availability Reference.

Lemma check_window_available (api_start api_end s e : Z)
  (st : bool * list reason_item) :
  (check_window api_start api_end s e st).1 = true ->
  st.1 = true /\ api_start <= s /\ e <= api_end.
Proof.
  unfold check_window.
  destruct (Z.ltb_spec s api_start), (Z.ltb_spec api_end e);
    simpl; intros Hst; try discriminate.
  repeat split; [assumption | lia | lia].
Qed.

Lemma check_window_complete (api_start api_end s e : Z)
  (st : bool * list reason_item) :
  st.1 = true -> api_start <= s -> e <= api_end ->
  (check_window api_start api_end s e st).1 = true.
Proof.
  intros Hst Hs He. unfold check_window.
  destruct (Z.ltb_spec s api_start), (Z.ltb_spec api_end e);
    simpl; try lia. assumption.
Qed.

(** One source: available implies inside its resolved window. *)
Lemma evaluate_api_window (today s e : Z) (in_usa in_nordic : bool)
  (data_type api_name : string) (limits : api_limits) (v : verdict) :
  known_type limits = true ->
  evaluate_api today s e in_usa in_nordic data_type api_name limits = Ok v ->
  available v = true ->
  exists lo hi,
    resolved_window today limits = Some (lo, hi) /\ lo <= s /\ e <= hi.
Proof.
  unfold known_type, evaluate_api, resolved_window.
  destruct limits as [ty sd so eo cov reg]; simpl.
  set (st1 := if String.eqb cov "usa" && negb in_usa
              then (false, [NotOutsideUSA]) else (true, [])).
  set (st2 := if String.eqb data_type "historical" then _ else _).
  intros Hty.
  destruct (String.eqb ty "historical") eqn:Hh; simpl.
  - (* historical *)
    destruct (st2.1) eqn:Hav; simpl.
    + destruct sd as [start |]; simpl; [| discriminate].
      destruct (check_window start (today + eo) s e st2) as [b rs] eqn:Hcw.
      simpl. destruct b; intros Hv Ha; inversion Hv; subst; simpl in Ha;
        try discriminate.
      pose proof (check_window_available start (today + eo) s e st2) as Hw.
      rewrite Hcw in Hw. destruct (Hw eq_refl) as (_ & ? & ?).
      eauto.
    + destruct st2 as [b rs]; simpl in *; subst b.
      intros Hv Ha; inversion Hv; subst; discriminate.
  - (* forecast or realtime *)
    simpl in Hty. rewrite Hty.
    destruct (st2.1) eqn:Hav; simpl.
    + destruct so as [off |]; simpl; [| discriminate].
      destruct (check_window (today + off) (today + eo) s e st2)
        as [b rs] eqn:Hcw.
      simpl. destruct b; intros Hv Ha; inversion Hv; subst; simpl in Ha;
        try discriminate.
      pose proof (check_window_available (today + off) (today + eo) s e st2)
        as Hw.
      rewrite Hcw in Hw. destruct (Hw eq_refl) as (_ & ? & ?).
      eauto.
    + destruct st2 as [b rs]; simpl in *; subst b.
      intros Hv Ha; inversion Hv; subst; discriminate.
Qed.

Lemma evaluate_all_window (today s e : Z) (in_usa in_nordic : bool)
  (data_type : string) (catalog : list (string * api_limits))
  (res : list (string * verdict)) (name : string) (v : verdict) :
  Forall (fun p => known_type p.2 = true) catalog ->
  evaluate_all today s e in_usa in_nordic data_type catalog = Ok res ->
  assoc name res = Some v ->
  available v = true ->
  exists limits lo hi,
    assoc name catalog = Some limits
    /\ resolved_window today limits = Some (lo, hi) /\ lo <= s /\ e <= hi.
Proof.
  intros Hknown. revert res.
  induction Hknown as [| [k limits] rest Hk Hrest IH]; intros res Hres Hv Ha.
  - inversion Hres; subst. discriminate.
  - simpl in Hres.
    destruct (evaluate_api today s e in_usa in_nordic data_type k limits)
      as [v0 |] eqn:Hone; simpl in Hres; [| discriminate].
    destruct (evaluate_all today s e in_usa in_nordic data_type rest)
      as [vs |] eqn:Hall; simpl in Hres; [| discriminate].
    inversion Hres; subst res. simpl in Hv |- *.
    destruct (String.eqb k name).
    + inversion Hv; subst v0.
      destruct (evaluate_api_window _ _ _ _ _ _ _ _ _ Hk Hone Ha)
        as (lo & hi & ? & ? & ?).
      exists limits, lo, hi. auto.
    + apply (IH vs); auto.
Qed.

Lemma API_LIMITS_known :
  Forall (fun p => known_type p.2 = true) API_LIMITS.
Proof. repeat constructor. Qed.

Lemma API_LIMITS_historical_start (name : string) (limits : api_limits) :
  assoc name API_LIMITS = Some limits ->
  l_type limits = "historical" ->
  l_start_date limits = Some (ymd2ord 1990 1 1).
Proof.
  unfold API_LIMITS. cbn [assoc].
  repeat (destruct (String.eqb _ name);
          [intros Hl; inversion Hl; subst limits; cbn;
           first [reflexivity | discriminate] |]).
  discriminate.
Qed.

(** C3.  Whenever [get_available_sources] marks a source of the
    catalog as available, the requested window lies inside the bound
    of that source resolved for "today": from 1990-01-01 to today plus
    the end offset for a historical source, from today plus the start
    offset to today plus the end offset for a forecast or realtime
    source. *)
Theorem available_implies_within_window
  (today : Z) (start_date end_date : date_arg) (lat lon : R)
  (data_type : string) (res : list (string * verdict))
  (name : string) (v : verdict) :
  get_available_sources today start_date end_date lat lon data_type
    = Ok res ->
  assoc name res = Some v ->
  available v = true ->
  exists s e limits lo hi,
    as_date start_date = Ok s /\ as_date end_date = Ok e
    /\ assoc name API_LIMITS = Some limits
    /\ resolved_window today limits = Some (lo, hi)
    /\ lo <= s /\ e <= hi
    /\ (l_type limits = "historical" ->
          lo = ymd2ord 1990 1 1 /\ hi = today + l_end_date_offset limits)
    /\ (l_type limits <> "historical" ->
          exists off, l_start_date_offset limits = Some off
                      /\ lo = today + off
                      /\ hi = today + l_end_date_offset limits).
Proof.
  unfold get_available_sources. intros Hres Hv Ha.
  destruct (as_date start_date) as [s |] eqn:Hs; simpl in Hres;
    [| discriminate].
  destruct (as_date end_date) as [e |] eqn:He; simpl in Hres;
    [| discriminate].
  destruct (evaluate_all_window _ _ _ _ _ _ _ _ _ _ API_LIMITS_known
              Hres Hv Ha) as (limits & lo & hi & Hl & Hw & Hlo & Hhi).
  exists s, e, limits, lo, hi.
  do 6 (split; [first [reflexivity | assumption] |]).
  unfold resolved_window in Hw. split.
  - intros Hty. rewrite Hty in Hw. simpl in Hw.
    rewrite (API_LIMITS_historical_start _ _ Hl Hty) in Hw.
    inversion Hw; auto.
  - intros Hty. apply String.eqb_neq in Hty. rewrite Hty in Hw.
    destruct (l_start_date_offset limits) as [off |]; [| discriminate].
    inversion Hw; subst. eauto.
Qed.

Lemma not_in_usa_sample : is_in_usa (-15.7975) (-48) = false.
Proof.
  unfold is_in_usa. rewrite (Rleb_false 24 (-15.7975)) by lra.
  now rewrite !andb_false_r.
Qed.

Lemma not_in_nordic_sample : is_in_nordic (-15.7975) (-48) = false.
Proof.
  unfold is_in_nordic. rewrite (Rleb_false 4 (-48)) by lra. reflexivity.
Qed.

(** The sample request: ten days of June 2024 seen from 2024-06-15,
    at Brasília, in historical mode, served by NASA POWER. *)
Lemma available_implies_within_window_witness :
  exists s e limits lo hi,
    as_date (DateStr "2024-06-01") = Ok s
    /\ as_date (DateStr "2024-06-10") = Ok e
    /\ assoc "nasa_power" API_LIMITS = Some limits
    /\ resolved_window today0 limits = Some (lo, hi)
    /\ lo <= s /\ e <= hi
    /\ (l_type limits = "historical" ->
          lo = ymd2ord 1990 1 1 /\ hi = today0 + l_end_date_offset limits)
    /\ (l_type limits <> "historical" ->
          exists off, l_start_date_offset limits = Some off
                      /\ lo = today0 + off
                      /\ hi = today0 + l_end_date_offset limits).
Proof.
  eapply (available_implies_within_window today0 (DateStr "2024-06-01")
            (DateStr "2024-06-10") (-15.7975) (-48) "historical" _
            "nasa_power" _).
  - unfold get_available_sources.
    rewrite not_in_usa_sample, not_in_nordic_sample. reflexivity.
  - reflexivity.
  - reflexivity.
Defined.

End AvailabilityWindow.

(* ================================================================== *)
(** ** The download coordinator                                         *)
(* ================================================================== *)

(** Case analysis on what the adapters answer. *)
Ltac world_cases :=
  repeat match goal with
    | |- context [Download.health_check_sync ?w ?s] =>
        destruct (Download.health_check_sync w s) as [[] | ?]
    | |- context [Download.get_data_sync ?w ?s ?x ?y ?u ?v] =>
        destruct (Download.get_data_sync w s x y u v) as [[| ? ?] | []]
    end.

Section DownloadFlow.
Import Calendar PyStr Download Reference.

Lemma mem_In (x : string) (items : list string) :
  mem x items = true <-> In x items.
Proof.
  unfold mem. rewrite existsb_exists. split.
  - intros (y & Hy & Heq). apply String.eqb_eq in Heq. now subst.
  - intros H. exists x. split; [assumption | apply String.eqb_refl].
Qed.

Lemma validate_requested_ok (avail requested : list string) :
  validate_requested avail requested = Ok () ->
  forall req, In req requested ->
    mem req valid_sources = true
    /\ (req <> "data fusion" -> mem req avail = true).
Proof.
  induction requested as [| r rest IH]; intros Hok req Hin; [destruct Hin |].
  cbn [validate_requested] in Hok.
  destruct (mem r valid_sources) eqn:Hvalid; simpl in Hok; [| discriminate].
  destruct (String.eqb r "data fusion") eqn:Hfusion; simpl in Hok.
  - destruct Hin as [<- | Hin]; [| now apply IH].
    split; [assumption |]. apply String.eqb_eq in Hfusion. congruence.
  - destruct (mem r avail) eqn:Havail; simpl in Hok; [| discriminate].
    destruct Hin as [<- | Hin]; [| now apply IH]. auto.
Qed.

(** What a successful [prepare] has established. *)
Lemma prepare_inv (w : world) (data_source : data_source_arg)
  (data_inicial data_final : string) (longitude latitude : R)
  (rq : request) :
  prepare w data_source data_inicial data_final longitude latitude = Ok rq ->
  let avail := map fst (filter (fun p => p.2 = true)
                          (available_sources_for_location w latitude
                             longitude)) in
  to_datetime w data_inicial = Some (rq_inicial rq)
  /\ to_datetime w data_final = Some (rq_final rq)
  /\ rq_current_date rq = midnight (now_date w)
  /\ rq_period_days rq = timedelta_days (rq_final rq - rq_inicial rq) + 1
  /\ rq_request_type rq =
       classify_request_type (now_date w) (PTimestamp (rq_inicial rq))
         (PTimestamp (rq_final rq))
  /\ validate_period (rq_current_date rq) (rq_inicial rq) (rq_final rq)
       (rq_period_days rq) (rq_request_type rq) = Ok ()
  /\ validate_requested avail (requested_of data_source) = Ok ()
  /\ select_sources (rq_request_type rq) avail (requested_of data_source)
     = Ok (rq_sources rq).
Proof.
  unfold prepare. intros H.
  destruct (negb (Rleb (-90) latitude && Rleb latitude 90));
    simpl in H; [discriminate |].
  destruct (negb (Rleb (-180) longitude && Rleb longitude 180));
    simpl in H; [discriminate |].
  destruct (to_datetime w data_inicial) as [a |]; simpl in H;
    [| discriminate].
  destruct (to_datetime w data_final) as [b |]; simpl in H; [| discriminate].
  destruct (b <? a); simpl in H; [discriminate |].
  destruct (timedelta_days (b - a) + 1 <? 1); simpl in H; [discriminate |].
  destruct (validate_period _ _ _ _ _) as [[] |] eqn:Hperiod; simpl in H;
    [| discriminate].
  destruct (validate_requested _ _) as [[] |] eqn:Hreq; simpl in H;
    [| discriminate].
  destruct (select_sources _ _ _) as [sources |] eqn:Hsel; simpl in H;
    [| discriminate].
  inversion H; subst rq; simpl. auto 10.
Qed.

(** The loop aborts as soon as the date check of a source raises. *)
Lemma process_sources_raises (w : world) (lat lon : R)
  (current_date data_inicial data_final period_days : Z) (src : string)
  (sources : list string) :
  In src sources ->
  (forall warnings,
      exists e, validate_source current_date data_inicial data_final src
                  warnings = Raise e) ->
  forall st, exists e,
      process_sources w lat lon current_date data_inicial data_final
        period_days sources st = Raise e.
Proof.
  intros Hin Hraise.
  induction sources as [| s rest IH]; intros st; [destruct Hin |].
  cbn [process_sources].
  destruct (process_source w lat lon current_date data_inicial data_final
              period_days s st) as [st' |] eqn:Hstep; simpl.
  - destruct Hin as [-> | Hin]; [| now apply IH].
    unfold process_source in Hstep. destruct st as [warnings frames].
    destruct (Hraise warnings) as [e He]. rewrite He in Hstep. discriminate.
  - eauto.
Qed.

(** The warnings a fetch is given are kept in front of its own. *)
Lemma fetch_source_warnings (w : world) (source : string) (lat lon : R)
  (a b adj : Z) (warnings : list warning) :
  fetch_source w source lat lon a b adj warnings =
  match fetch_source w source lat lon a b adj [] with
  | Skipped extra => Skipped (warnings ++ extra)
  | Fetched extra df => Fetched (warnings ++ extra) df
  end.
Proof.
  unfold fetch_source, fetch_checked, download_error.
  repeat (destruct (String.eqb source _);
          [ world_cases; cbn [app]; rewrite ?app_nil_r; reflexivity | ]).
  now rewrite app_nil_r.
Qed.

(** A fetch that skips its source leaves a warning that names it. *)
Lemma fetch_source_skipped (w : world) (source : string) (lat lon : R)
  (a b adj : Z) (extra : list warning) :
  fetch_source w source lat lon a b adj [] = Skipped extra ->
  exists wn, In wn extra /\ skipped_source wn = Some source.
Proof.
  unfold fetch_source, fetch_checked, download_error.
  repeat (destruct (String.eqb source _);
          [ world_cases; cbn [app]; intros H; inversion H; subst;
            eexists; (split; [now left | reflexivity]) | ]).
  discriminate.
Qed.

(** A successful date check keeps the warnings it is given in front. *)
Lemma validate_source_prefix (current_date a b : Z) (source : string)
  (warnings ws : list warning) :
  validate_source current_date a b source warnings = Ok ws ->
  exists extra, ws = warnings ++ extra
                /\ forall wn, In wn extra -> skipped_source wn = None.
Proof.
  unfold validate_source.
  repeat (destruct (String.eqb source _));
    repeat (destruct (_ <? _)); intros H; inversion H; subst.
  all: first [ exists []; split; [now rewrite app_nil_r | intros ? []]
             | eexists; split; [reflexivity |];
               intros ? [<- | []]; reflexivity ].
Qed.

(** Whether the date check raises does not depend on the warnings. *)
Lemma validate_source_raise (current_date a b : Z) (source : string)
  (warnings warnings' : list warning) (e : exn) :
  validate_source current_date a b source warnings = Raise e ->
  validate_source current_date a b source warnings' = Raise e.
Proof.
  unfold validate_source.
  repeat (destruct (String.eqb source _));
    repeat (destruct (_ <? _)); intros H; inversion H; reflexivity.
Qed.

(** The frame check keeps the warnings it is given in front, and none
    of its own warnings reports a skipped source. *)
Lemma inspect_frame_prefix (source : string) (period_days : Z)
  (df : DataFrame) (warnings : list warning) :
  exists extra,
    (inspect_frame source period_days df warnings).1 = warnings ++ extra
    /\ (forall wn, In wn extra -> skipped_source wn = None)
    /\ (inspect_frame source period_days df warnings).2
       = dropna_all (replace_sentinel df).
Proof.
  unfold inspect_frame. cbn [fst snd].
  set (df' := dropna_all (replace_sentinel df)).
  set (ws1 := match days_returned df' with Some _ => _ | None => _ end).
  assert (exists extra, ws1 = warnings ++ extra
                        /\ forall wn, In wn extra -> skipped_source wn = None)
    as (extra1 & -> & Hextra1).
  { subst ws1. destruct (days_returned df') as [d |].
    - destruct (d <? period_days).
      + eexists; split; [reflexivity |]. intros ? [<- | []]; reflexivity.
      + exists []; split; [now rewrite app_nil_r | intros ? []].
    - exists []; split; [now rewrite app_nil_r | intros ? []]. }
  revert extra1 Hextra1.
  induction (columns df') as [| col cols IH]; intros extra1 Hextra1; cbn.
  - exists extra1. auto.
  - destruct (25 * Z.of_nat (length df') <? 100 * missing_count df' col).
    + rewrite <- app_assoc. apply IH.
      intros wn Hin. apply in_app_or in Hin as [Hin | [<- | []]]; auto.
    + now apply IH.
Qed.

(** One iteration of the loop, by cases on the date check and on the
    usable frame of the source. *)
Lemma process_source_cases (w : world) (lat lon : R)
  (current_date a b period_days : Z) (source : string)
  (warnings : list warning) (frames : list DataFrame) :
  match validate_source current_date a b source warnings with
  | Raise e =>
      process_source w lat lon current_date a b period_days source
        (warnings, frames) = Raise e
  | Ok _ =>
      exists extra,
        match fetched_frame w lat lon current_date a b source with
        | None =>
            process_source w lat lon current_date a b period_days source
              (warnings, frames) = Ok (warnings ++ extra, frames)
            /\ exists wn, In wn extra /\ skipped_source wn = Some source
        | Some df =>
            process_source w lat lon current_date a b period_days source
              (warnings, frames)
            = Ok (warnings ++ extra,
                  frames ++ [dropna_all (replace_sentinel df)])
        end
  end.
Proof.
  unfold process_source, fetched_frame.
  destruct (validate_source current_date a b source warnings) as [ws1 | e]
    eqn:Hval; [| reflexivity].
  destruct (validate_source_prefix _ _ _ _ _ _ Hval) as (extra1 & -> & _).
  cbn [mbind exc_bind].
  set (adj := adjusted_end current_date b source).
  set (ws2 := if (adj <? b) && String.eqb source "nasa_power" then _ else _).
  assert (exists extra2, ws2 = warnings ++ extra2) as [extra2 ->].
  { subst ws2. destruct ((adj <? b) && String.eqb source "nasa_power").
    - rewrite <- app_assoc. eauto.
    - eauto. }
  rewrite (fetch_source_warnings w source lat lon a b adj
             (warnings ++ extra2)).
  destruct (fetch_source w source lat lon a b adj [])
    as [extra3 | extra3 [df |]] eqn:Hfetch.
  - exists (extra2 ++ extra3). rewrite <- app_assoc. split; [reflexivity |].
    destruct (fetch_source_skipped _ _ _ _ _ _ _ _ Hfetch) as (wn & Hin & Hwn).
    exists wn. split; [| assumption]. apply in_or_app. now right.
  - destruct (df_empty df).
    + exists (extra2 ++ extra3 ++ [WNothingObtained source]).
      rewrite <- !app_assoc. split; [reflexivity |].
      exists (WNothingObtained source). split; [| reflexivity].
      apply in_or_app. right. apply in_or_app. right. now left.
    + destruct (inspect_frame_prefix source period_days df
                  ((warnings ++ extra2) ++ extra3))
        as (extra4 & Hws & _ & Hdf).
      destruct (inspect_frame _ _ _ _) as [ws4 df4]. simpl in Hws, Hdf.
      subst ws4 df4.
      exists (extra2 ++ extra3 ++ extra4). now rewrite <- !app_assoc.
  - exists (extra2 ++ extra3 ++ [WNothingObtained source]).
    rewrite <- !app_assoc. split; [reflexivity |].
    exists (WNothingObtained source). split; [| reflexivity].
    apply in_or_app. right. apply in_or_app. right. now left.
Qed.

(** A loop that completes: the warnings grow, every source without a
    usable frame has left a warning that names it, and frames were added
    exactly when some source had a usable one. *)
Lemma process_sources_ok_inv (w : world) (lat lon : R)
  (current_date a b period_days : Z) (sources : list string) :
  forall warnings frames warnings' frames',
    process_sources w lat lon current_date a b period_days sources
      (warnings, frames) = Ok (warnings', frames') ->
    exists extra new,
      warnings' = warnings ++ extra /\ frames' = frames ++ new
      /\ (forall src, In src sources ->
            fetched_frame w lat lon current_date a b src = None ->
            exists wn, In wn extra /\ skipped_source wn = Some src)
      /\ (new = [] <->
            forall src, In src sources ->
              fetched_frame w lat lon current_date a b src = None).
Proof.
  induction sources as [| s rest IH]; intros warnings frames warnings' frames' H.
  - inversion H; subst. exists [], []. rewrite !app_nil_r.
    split; [reflexivity |]. split; [reflexivity |].
    split; [intros ? [] |]. split; [intros _ ? [] | reflexivity].
  - cbn [process_sources] in H.
    pose proof (process_source_cases w lat lon current_date a b period_days s
                  warnings frames) as Hcase.
    destruct (validate_source current_date a b s warnings) as [ws1 | e].
    2: { rewrite Hcase in H. discriminate. }
    destruct Hcase as [extra1 Hcase].
    destruct (fetched_frame w lat lon current_date a b s) as [df |] eqn:Hus.
    + rewrite Hcase in H. cbn [mbind exc_bind] in H.
      destruct (IH _ _ _ _ H) as (extra & new & -> & -> & Hwarn & Hnew).
      exists (extra1 ++ extra), (dropna_all (replace_sentinel df) :: new).
      rewrite <- !app_assoc.
      split; [reflexivity |]. split; [reflexivity |]. split; [| split].
      * intros src [<- | Hin] Hnone; [congruence |].
        destruct (Hwarn src Hin Hnone) as (wn & ? & ?).
        exists wn. split; [apply in_or_app; now right | assumption].
      * discriminate.
      * intros Hall. specialize (Hall s (or_introl eq_refl)). congruence.
    + destruct Hcase as (Hcase & wn1 & Hin1 & Hwn1).
      rewrite Hcase in H. cbn [mbind exc_bind] in H.
      destruct (IH _ _ _ _ H) as (extra & new & -> & -> & Hwarn & Hnew).
      exists (extra1 ++ extra), new.
      rewrite <- !app_assoc.
      split; [reflexivity |]. split; [reflexivity |]. split; [| split].
      * intros src [<- | Hin] Hnone.
        -- exists wn1. split; [apply in_or_app; now left | assumption].
        -- destruct (Hwarn src Hin Hnone) as (wn & ? & ?).
           exists wn. split; [apply in_or_app; now right | assumption].
      * intros Hn src [<- | Hin]; [assumption |]. now apply Hnew.
      * intros Hall. apply Hnew. intros src Hin. apply Hall. now right.
Qed.

(** A loop that raises: the date check of one of its sources raised. *)
Lemma process_sources_raise_inv (w : world) (lat lon : R)
  (current_date a b period_days : Z) (sources : list string) (e : exn) :
  forall st,
    process_sources w lat lon current_date a b period_days sources st
    = Raise e ->
    exists src, In src sources
                /\ validate_source current_date a b src [] = Raise e.
Proof.
  induction sources as [| s rest IH]; intros [warnings frames] H;
    [discriminate |].
  cbn [process_sources] in H.
  pose proof (process_source_cases w lat lon current_date a b period_days s
                warnings frames) as Hcase.
  destruct (validate_source current_date a b s warnings) as [ws1 | e1]
    eqn:Hval.
  - destruct Hcase as [extra1 Hcase].
    destruct (fetched_frame w lat lon current_date a b s);
      [| destruct Hcase as [Hcase _]];
      rewrite Hcase in H; cbn [mbind exc_bind] in H;
      destruct (IH _ H) as (src & ? & ?); exists src; auto with datatypes.
  - rewrite Hcase in H. inversion H; subst e1.
    exists s. split; [now left |].
    now apply (validate_source_raise _ _ _ _ warnings).
Qed.

(** A loop all of whose date checks pass completes. *)
Lemma process_sources_total (w : world) (lat lon : R)
  (current_date a b period_days : Z) (sources : list string) :
  (forall src, In src sources ->
     is_ok (validate_source current_date a b src []) = true) ->
  forall st, exists st',
      process_sources w lat lon current_date a b period_days sources st
      = Ok st'.
Proof.
  intros Hok st.
  destruct (process_sources w lat lon current_date a b period_days sources st)
    as [st' | e] eqn:H; [eauto |].
  destruct (process_sources_raise_inv _ _ _ _ _ _ _ _ _ _ H)
    as (src & Hin & Hraise).
  specialize (Hok src Hin). rewrite Hraise in Hok. discriminate.
Qed.

End DownloadFlow.

(* ================================================================== *)
(** ** The window of the Open-Meteo forecast source                     *)
(* ================================================================== *)

Section OpenMeteoForecast.
Import Calendar PyStr Availability Download Reference.

Lemma evaluate_api_total (today s e : Z) (in_usa in_nordic : bool)
  (data_type api_name : string) (limits : api_limits) :
  resolved_window today limits <> None ->
  exists v,
    evaluate_api today s e in_usa in_nordic data_type api_name limits = Ok v.
Proof.
  unfold resolved_window, evaluate_api.
  destruct limits as [ty sd so eo cov reg]; simpl.
  set (st2 := if String.eqb data_type "historical" then _ else _).
  destruct (String.eqb ty "historical"); simpl.
  - destruct sd; [| congruence]. intros _.
    destruct (st2.1); simpl;
      repeat (match goal with
              | |- context [if ?b then _ else _] => destruct b
              end; simpl); eauto.
  - destruct so; [| congruence]. intros _.
    rewrite andb_false_r.
    destruct (st2.1 && _); simpl;
      repeat (match goal with
              | |- context [if ?b then _ else _] => destruct b
              end; simpl); eauto.
Qed.

Lemma evaluate_all_total (today s e : Z) (in_usa in_nordic : bool)
  (data_type : string) (catalog : list (string * api_limits)) :
  Forall (fun p => resolved_window today p.2 <> None) catalog ->
  exists res,
    evaluate_all today s e in_usa in_nordic data_type catalog = Ok res.
Proof.
  induction 1 as [| [k limits] rest Hk _ IH]; [now exists [] |].
  cbn [evaluate_all].
  destruct (evaluate_api_total today s e in_usa in_nordic data_type k limits
              Hk) as [v ->].
  destruct IH as [vs ->]. simpl. eauto.
Qed.

Lemma evaluate_all_assoc (today s e : Z) (in_usa in_nordic : bool)
  (data_type : string) (catalog : list (string * api_limits))
  (res : list (string * verdict)) (name : string) (limits : api_limits) :
  evaluate_all today s e in_usa in_nordic data_type catalog = Ok res ->
  assoc name catalog = Some limits ->
  exists v,
    assoc name res = Some v
    /\ evaluate_api today s e in_usa in_nordic data_type name limits = Ok v.
Proof.
  revert res. induction catalog as [| [k l] rest IH]; intros res Hres Hl;
    [discriminate |].
  cbn [evaluate_all] in Hres.
  destruct (evaluate_api today s e in_usa in_nordic data_type k l)
    as [v0 |] eqn:Hone; simpl in Hres; [| discriminate].
  destruct (evaluate_all today s e in_usa in_nordic data_type rest)
    as [vs |] eqn:Hall; simpl in Hres; [| discriminate].
  inversion Hres; subst res. cbn [assoc] in Hl |- *.
  destruct (String.eqb k name) eqn:Hk.
  - apply String.eqb_eq in Hk. subst k. inversion Hl; subst l. eauto.
  - now apply IH.
Qed.

Lemma API_LIMITS_resolved (today : Z) :
  Forall (fun p => resolved_window today p.2 <> None) API_LIMITS.
Proof. repeat constructor; discriminate. Qed.

(** The date check of the Open-Meteo forecast source in the download
    loop raises exactly outside [today - 25 d, today + 5 d]. *)
Lemma validate_source_openmeteo_forecast
  (current_date data_inicial data_final : Z) (warnings : list warning) :
  (data_inicial < current_date - days 25 \/ current_date + days 5 < data_final
   -> exists e, validate_source current_date data_inicial data_final
                  "openmeteo_forecast" warnings = Raise e)
  /\ (current_date - days 25 <= data_inicial
      /\ data_final <= current_date + days 5
      -> validate_source current_date data_inicial data_final
           "openmeteo_forecast" warnings = Ok warnings).
Proof.
  unfold validate_source. cbn.
  destruct (Z.ltb_spec data_inicial (current_date - days 25)),
    (Z.ltb_spec (current_date + days 5) data_final);
    split; intros; eauto; try lia.
Qed.

(** The request of thirty days back: starting 28 days before the
    clock's 2024-06-15 and ending on it. *)
Lemma openmeteo_forecast_available_before_25_days :
  exists res v,
    get_available_sources today0 (DateObj (today0 - 28)) (DateObj today0)
      (-15.7975) (-48) "forecast" = Ok res
    /\ assoc "openmeteo_forecast" res = Some v
    /\ available v = true
    /\ ~ (today0 - 25 <= today0 - 28 /\ today0 <= today0 + 5).
Proof.
  eexists _, _. split; [| split; [| split]].
  - unfold get_available_sources.
    rewrite not_in_usa_sample, not_in_nordic_sample. reflexivity.
  - reflexivity.
  - reflexivity.
  - unfold today0. lia.
Qed.

(** C4, as the code has it.  [get_available_sources] marks
    [openmeteo_forecast] available only when the requested window lies
    within [today - 30 days, today + 5 days], and in forecast mode it
    marks it available for every such window; [download_weather_data]
    rejects every request that queries [openmeteo_forecast] with a start
    before today minus 25 days or an end after today plus 5 days. *)
Theorem openmeteo_forecast_windows :
  (forall (today : Z) (start_date end_date : date_arg) (lat lon : R)
          (data_type : string) res v,
      get_available_sources today start_date end_date lat lon data_type
        = Ok res ->
      assoc "openmeteo_forecast" res = Some v ->
      available v = true ->
      exists s e,
        as_date start_date = Ok s /\ as_date end_date = Ok e
        /\ today - 30 <= s /\ e <= today + 5)
  /\ (forall (today s e : Z) (lat lon : R),
         today - 30 <= s -> e <= today + 5 ->
         exists res v,
           get_available_sources today (DateObj s) (DateObj e) lat lon
             "forecast" = Ok res
           /\ assoc "openmeteo_forecast" res = Some v
           /\ available v = true)
  /\ (forall (w : world) (data_source : data_source_arg)
             (data_inicial data_final : string) (longitude latitude : R)
             (a b : Z),
         to_datetime w data_inicial = Some a ->
         to_datetime w data_final = Some b ->
         In "openmeteo_forecast" (requested_of data_source) ->
         ~ In "data fusion" (requested_of data_source) ->
         a < midnight (now_date w) - days 25
         \/ midnight (now_date w) + days 5 < b ->
         exists e,
           download_weather_data w data_source data_inicial data_final
             longitude latitude = Raise e).
Proof.
  split; [| split].
  - intros today start_date end_date lat lon data_type res v Hres Hv Ha.
    unfold get_available_sources in Hres.
    destruct (as_date start_date) as [s |]; simpl in Hres; [| discriminate].
    destruct (as_date end_date) as [e |]; simpl in Hres; [| discriminate].
    destruct (evaluate_all_window _ _ _ _ _ _ _ _ _ _ API_LIMITS_known
                Hres Hv Ha) as (limits & lo & hi & Hl & Hw & Hlo & Hhi).
    inversion Hl; subst limits. inversion Hw; subst lo hi.
    exists s, e. repeat split; auto; lia.
  - intros today s e lat lon Hs He.
    unfold get_available_sources. simpl.
    destruct (evaluate_all_total today s e (is_in_usa lat lon)
                (is_in_nordic lat lon) "forecast" API_LIMITS
                (API_LIMITS_resolved today)) as [res Hres].
    destruct (evaluate_all_assoc _ _ _ _ _ _ _ _ "openmeteo_forecast"
                (rolling_limits "forecast" (-30) 5 "global" false)
                Hres eq_refl) as (v & Hv & Hone).
    exists res, v. repeat split; auto.
    unfold evaluate_api in Hone. cbn in Hone.
    pose proof (check_window_complete (today + -30) (today + 5) s e
                  (true, []) eq_refl ltac:(lia) ltac:(lia)) as Hcw.
    destruct (check_window _ _ _ _ _) as [ok rs]. simpl in Hcw. subst ok.
    cbn in Hone. inversion Hone. reflexivity.
  - intros w data_source data_inicial data_final longitude latitude a b
      Ha Hb Hin Hfusion Hout.
    unfold download_weather_data.
    destruct (prepare w data_source data_inicial data_final longitude
                latitude) as [rq | e] eqn:Hprep; simpl; [| eauto].
    destruct (prepare_inv _ _ _ _ _ _ _ Hprep)
      as (Ha' & Hb' & Hcur & _ & _ & _ & Hreq & Hsel).
    rewrite Ha in Ha'. rewrite Hb in Hb'.
    inversion Ha'; inversion Hb'; subst a b.
    assert (In "openmeteo_forecast" (rq_sources rq)) as Hsrc.
    { unfold select_sources in Hsel.
      destruct (mem "data fusion" (requested_of data_source)) eqn:Hm.
      - apply mem_In in Hm. contradiction.
      - inversion Hsel. apply list_elem_of_In, list_elem_of_filter.
        split; [| now apply list_elem_of_In].
        apply (validate_requested_ok _ _ Hreq); [assumption | discriminate]. }
    unfold collect.
    destruct (process_sources_raises w latitude longitude
                (rq_current_date rq) (rq_inicial rq) (rq_final rq)
                (rq_period_days rq) "openmeteo_forecast" (rq_sources rq) Hsrc)
      with (st := ([] : list warning, [] : list DataFrame)) as [e He].
    + intros warnings.
      apply validate_source_openmeteo_forecast. rewrite Hcur. exact Hout.
    + rewrite He. simpl. eauto.
Qed.

(** The three parts at sample requests seen from 2024-06-15: a window
    marked available lies within thirty days back, a window within
    thirty days back is marked available, and a download of
    [openmeteo_forecast] from 2024-05-01 is rejected. *)
Lemma openmeteo_forecast_windows_witness :
  (exists s e,
      as_date (DateObj (today0 - 28)) = Ok s /\ as_date (DateObj today0) = Ok e
      /\ today0 - 30 <= s /\ e <= today0 + 5)
  /\ (exists res v,
         get_available_sources today0 (DateObj (today0 - 30))
           (DateObj (today0 + 5)) (-15.7975) (-48) "forecast" = Ok res
         /\ assoc "openmeteo_forecast" res = Some v
         /\ available v = true)
  /\ (exists e,
         download_weather_data (sample_world [("openmeteo_forecast", true)])
           (SourceStr "openmeteo_forecast") "2024-05-01" "2024-06-10"
           (-48) (-15.7975) = Raise e).
Proof.
  destruct openmeteo_forecast_windows as (Hwithin & Havail & Hreject).
  split; [| split].
  - eapply (Hwithin today0 (DateObj (today0 - 28)) (DateObj today0)
              (-15.7975)%R (-48)%R "forecast").
    + unfold get_available_sources.
      rewrite not_in_usa_sample, not_in_nordic_sample. reflexivity.
    + reflexivity.
    + reflexivity.
  - apply (Havail today0 (today0 - 30) (today0 + 5)); lia.
  - eapply (Hreject (sample_world [("openmeteo_forecast", true)])
              (SourceStr "openmeteo_forecast") "2024-05-01" "2024-06-10").
    + reflexivity.
    + reflexivity.
    + left. reflexivity.
    + intros [H | []]. discriminate.
    + left. vm_compute. reflexivity.
Defined.

End OpenMeteoForecast.

(* ================================================================== *)
(** ** When the coordinator fails                                       *)
(* ================================================================== *)

Section Coordinator.
Import Calendar PyStr Availability Download Reference.

(** The sample request for the archive and MET Norway, ten days of
    June 2024 seen from 2024-06-15. *)
Lemma prepare_archive_and_met :
  prepare (sample_world [("openmeteo_archive", true); ("met_norway", true)])
    (SourceList ["openmeteo_archive"; "met_norway"])
    "2024-06-01" "2024-06-10" (-48) (-15.7975)
  = Ok {| rq_inicial := midnight (ymd2ord 2024 6 1);
          rq_final := midnight (ymd2ord 2024 6 10);
          rq_period_days := 10;
          rq_current_date := midnight today0;
          rq_request_type := "current";
          rq_sources := ["openmeteo_archive"; "met_norway"] |}.
Proof.
  unfold prepare. rewrite !Rleb_true by lra. reflexivity.
Qed.

(** The archive has usable rows for the request, MET Norway's window
    starts today, and the whole request is aborted. *)
Lemma download_aborts_although_archive_has_rows :
  let w := sample_world [("openmeteo_archive", true); ("met_norway", true)] in
  download_weather_data w (SourceList ["openmeteo_archive"; "met_norway"])
    "2024-06-01" "2024-06-10" (-48) (-15.7975)
  = Raise (ValueError
             "MET Norway: data inicial deve ser >= hoje (sem histórico)")
  /\ fetched_frame w (-15.7975) (-48) (midnight today0)
       (midnight (ymd2ord 2024 6 1)) (midnight (ymd2ord 2024 6 10))
       "openmeteo_archive" <> None.
Proof.
  cbv zeta. split.
  - unfold download_weather_data. rewrite prepare_archive_and_met.
    cbn [mbind exc_bind]. unfold collect.
    cbn [rq_inicial rq_final rq_period_days rq_current_date rq_sources
         process_sources].
    match goal with
    | |- context [process_source ?w ?la ?lo ?c ?a ?b ?p ?s (?ws, ?fs)] =>
        pose proof (process_source_cases w la lo c a b p s ws fs) as Hcase
    end.
    replace (validate_source (midnight today0) (midnight (ymd2ord 2024 6 1))
               (midnight (ymd2ord 2024 6 10)) "openmeteo_archive" [])
      with (Ok ([] : list warning)) in Hcase by reflexivity.
    destruct Hcase as [extra Hcase].
    destruct (fetched_frame _ _ _ _ _ _ _);
      [| destruct Hcase as [Hcase _]]; rewrite Hcase; reflexivity.
  - unfold fetched_frame.
    replace (fetch_source _ _ _ _ _ _ _ _)
      with (Fetched [] (Some (harmonize archive_harmonization
                                [sample_record (midnight (ymd2ord 2024 6 1));
                                 sample_record
                                   (midnight (ymd2ord 2024 6 10))])))
      by reflexivity.
    replace (df_empty _) with false by reflexivity.
    discriminate.
Qed.

(** Cleaning a frame without the missing-value code changes nothing. *)
Lemma replace_sentinel_id (df : DataFrame) :
  no_sentinel df -> replace_sentinel df = df.
Proof.
  unfold replace_sentinel.
  induction 1 as [| [d cells] rest Hr _ IH]; [reflexivity |].
  cbn [map]. rewrite IH. f_equal. f_equal. cbn [r_cells] in *.
  induction Hr as [| [k c] cs Hc _ IHc]; [reflexivity |].
  cbn [map]. rewrite IHc. f_equal. cbn [fst snd] in *. f_equal.
  destruct c as [x |]; [| reflexivity].
  rewrite Reqb_false; [reflexivity | congruence].
Qed.

Lemma sample_frame_no_sentinel (table : list (string * string)) (a b : Z) :
  no_sentinel (rename table [sample_record a; sample_record b]).
Proof.
  unfold no_sentinel, rename. cbn [map r_cells].
  repeat constructor.
  all: apply Forall_map, Forall_forall; intros [k src] _; cbn [fst snd].
  all: unfold cell; cbn [r_cells sample_record Availability.assoc].
  all: repeat (destruct (String.eqb _ src);
               [intros H; inversion H; lra |]).
  all: discriminate.
Qed.

(** The sample request for NASA POWER that ends yesterday. *)
Lemma prepare_nasa_yesterday :
  prepare (sample_world [("nasa_power", true)]) (SourceStr "nasa_power")
    "2024-06-01" "2024-06-14" (-48) (-15.7975)
  = Ok {| rq_inicial := midnight (ymd2ord 2024 6 1);
          rq_final := midnight (today0 - 1);
          rq_period_days := 14;
          rq_current_date := midnight today0;
          rq_request_type := "current";
          rq_sources := ["nasa_power"] |}.
Proof.
  unfold prepare. rewrite !Rleb_true by lra. reflexivity.
Qed.

(** A NASA POWER request that ends yesterday, one day after the window
    end of today minus two days: the range is fetched up to yesterday
    and no warning is appended. *)
Lemma nasa_power_yesterday_not_truncated :
  exists df,
    download_weather_data (sample_world [("nasa_power", true)])
      (SourceStr "nasa_power") "2024-06-01" "2024-06-14" (-48) (-15.7975)
    = Ok (df, [])
    /\ map r_date df = [midnight (ymd2ord 2024 6 1); midnight (today0 - 1)]
    /\ today0 - 2 < today0 - 1.
Proof.
  eexists. split; [| split].
  - unfold download_weather_data. rewrite prepare_nasa_yesterday.
    cbn [mbind exc_bind]. unfold collect.
    cbn [rq_inicial rq_final rq_period_days rq_current_date rq_sources
         process_sources].
    unfold process_source.
    replace (validate_source _ _ _ _ _) with (Ok ([] : list warning))
      by reflexivity.
    cbn [mbind exc_bind].
    replace (adjusted_end _ _ _) with (midnight (today0 - 1)) by reflexivity.
    replace (_ <? _) with false by reflexivity. cbn [andb].
    replace (fetch_source _ _ _ _ _ _ _ _)
      with (Fetched [] (Some (rename nasa_columns
                                [sample_record (midnight (ymd2ord 2024 6 1));
                                 sample_record (midnight (today0 - 1))])))
      by reflexivity.
    replace (df_empty _) with false by reflexivity.
    unfold inspect_frame.
    rewrite replace_sentinel_id by apply sample_frame_no_sentinel.
    reflexivity.
  - reflexivity.
  - lia.
Qed.

(** A fetch appends no truncation warning. *)
Lemma fetch_source_no_truncation (w : world) (source : string) (lat lon : R)
  (a b adj : Z) (r : fetched) :
  fetch_source w source lat lon a b adj [] = r ->
  forall wn,
    In wn (match r with Skipped ws | Fetched ws _ => ws end) ->
    is_truncation wn = false.
Proof.
  intros <-. unfold fetch_source, fetch_checked, download_error.
  repeat (destruct (String.eqb source _);
          [ world_cases; cbn [app]; intros wn Hin;
            repeat (destruct Hin as [<- | Hin]; [reflexivity |]);
            destruct Hin | ]).
  intros wn [].
Qed.

(** The frame check appends no truncation warning. *)
Lemma inspect_frame_no_truncation (source : string) (period_days : Z)
  (df : DataFrame) (warnings extra : list warning) :
  (inspect_frame source period_days df warnings).1 = warnings ++ extra ->
  forall wn, In wn extra -> is_truncation wn = false.
Proof.
  unfold inspect_frame. cbn [fst snd].
  set (df' := dropna_all (replace_sentinel df)).
  set (ws1 := match days_returned df' with Some _ => _ | None => _ end).
  assert (exists extra1, ws1 = warnings ++ extra1
                         /\ forall wn, In wn extra1 -> is_truncation wn = false)
    as (extra1 & -> & Hextra1).
  { subst ws1. destruct (days_returned df') as [d |].
    - destruct (d <? period_days).
      + eexists; split; [reflexivity |]. intros ? [<- | []]; reflexivity.
      + exists []; split; [now rewrite app_nil_r | intros ? []].
    - exists []; split; [now rewrite app_nil_r | intros ? []]. }
  revert extra1 Hextra1.
  induction (columns df') as [| col cols IH]; intros extra1 Hextra1; cbn.
  - intros Heq. apply app_inv_head in Heq. now subst.
  - destruct (25 * Z.of_nat (length df') <? 100 * missing_count df' col).
    + rewrite <- app_assoc. apply IH.
      intros wn Hin. apply in_app_or in Hin as [Hin | [<- | []]]; auto.
    + now apply IH.
Qed.

(** The loop iteration of a NASA POWER request that starts on or after
    1990-01-01 never fails.  When the end date is later than today, the
    adapter is asked for the range up to today and the two truncation
    warnings are appended; when it is today or earlier, the range is
    fetched as requested and no truncation warning is appended.  In
    both cases the outcome depends on the adapter only through its
    answer for that range. *)
Lemma nasa_power_iteration
  (w : world) (lat lon : R) (current_date a b period_days : Z)
  (warnings : list warning) (frames : list DataFrame) :
  midnight (ymd2ord 1990 1 1) <= a ->
  let adj := adjusted_end current_date b "nasa_power" in
  exists extra frames',
    process_source w lat lon current_date a b period_days "nasa_power"
      (warnings, frames) = Ok (warnings ++ extra, frames')
    /\ (current_date < b ->
          adj = current_date
          /\ In WNasaNoFuture extra
          /\ In (WNasaTruncatedTo current_date) extra)
    /\ (b <= current_date ->
          adj = b /\ forall wn, In wn extra -> is_truncation wn = false)
    /\ (forall w',
          get_data_sync w' "nasa_power" lat lon a adj
          = get_data_sync w "nasa_power" lat lon a adj ->
          process_source w' lat lon current_date a b period_days "nasa_power"
            (warnings, frames)
          = process_source w lat lon current_date a b period_days
              "nasa_power" (warnings, frames)).
Proof.
  intros Hstart adj.
  assert (forall w',
            get_data_sync w' "nasa_power" lat lon a adj
            = get_data_sync w "nasa_power" lat lon a adj ->
            process_source w' lat lon current_date a b period_days
              "nasa_power" (warnings, frames)
            = process_source w lat lon current_date a b period_days
                "nasa_power" (warnings, frames)) as Hdep.
  { intros w' Hsame. unfold process_source, fetch_source.
    cbn [String.eqb Ascii.eqb Bool.eqb]. fold adj. now rewrite Hsame. }
  enough (exists extra frames',
             process_source w lat lon current_date a b period_days
               "nasa_power" (warnings, frames) = Ok (warnings ++ extra, frames')
             /\ (current_date < b ->
                   adj = current_date
                   /\ In WNasaNoFuture extra
                   /\ In (WNasaTruncatedTo current_date) extra)
             /\ (b <= current_date ->
                   adj = b
                   /\ forall wn, In wn extra -> is_truncation wn = false))
    as (extra & frames' & H1 & H2 & H3)
    by (exists extra, frames'; auto).
  clear Hdep. subst adj.
  unfold process_source, validate_source, adjusted_end.
  cbn [String.eqb Ascii.eqb Bool.eqb].
  destruct (Z.ltb_spec a (midnight (ymd2ord 1990 1 1))); [lia |].
  destruct (Z.ltb_spec current_date b) as [Hlt | Hge];
    cbn [mbind exc_bind mret exc_ret].
  - rewrite Z.min_r by lia.
    destruct (Z.ltb_spec current_date b); [| lia]. cbn [andb].
    rewrite fetch_source_warnings.
    destruct (fetch_source w "nasa_power" lat lon a b current_date [])
      as [extra | extra [df |]].
    + exists ([WNasaNoFuture; WNasaTruncatedTo current_date] ++ extra), frames.
      split; [now rewrite <- !app_assoc |].
      split; [intros _; cbn; auto | lia].
    + destruct (df_empty df).
      * exists ([WNasaNoFuture; WNasaTruncatedTo current_date] ++ extra
                ++ [WNothingObtained "nasa_power"]), frames.
        split; [now rewrite <- !app_assoc |].
        split; [intros _; cbn; auto | lia].
      * destruct (inspect_frame_prefix "nasa_power" period_days df
                    (((warnings ++ [WNasaNoFuture])
                      ++ [WNasaTruncatedTo current_date]) ++ extra))
          as (extra4 & Hws & _ & Hdf).
        destruct (inspect_frame _ _ _ _) as [ws4 df4]. simpl in Hws, Hdf.
        subst ws4 df4.
        exists ([WNasaNoFuture; WNasaTruncatedTo current_date] ++ extra
                ++ extra4), (frames ++ [dropna_all (replace_sentinel df)]).
        split; [now rewrite <- !app_assoc |].
        split; [intros _; cbn; auto | lia].
    + exists ([WNasaNoFuture; WNasaTruncatedTo current_date] ++ extra
              ++ [WNothingObtained "nasa_power"]), frames.
      split; [now rewrite <- !app_assoc |].
      split; [intros _; cbn; auto | lia].
  - rewrite Z.min_l by lia.
    destruct (Z.ltb_spec b b); [lia |]. cbn [andb].
    rewrite fetch_source_warnings.
    destruct (fetch_source w "nasa_power" lat lon a b b [])
      as [extra | extra [df |]] eqn:Hfetch.
    + exists extra, frames. split; [reflexivity |]. split; [lia |].
      intros _. split; [reflexivity |].
      now apply (fetch_source_no_truncation _ _ _ _ _ _ _ _ Hfetch).
    + pose proof (fetch_source_no_truncation _ _ _ _ _ _ _ _ Hfetch) as Hno.
      destruct (df_empty df).
      * exists (extra ++ [WNothingObtained "nasa_power"]), frames.
        split; [now rewrite <- !app_assoc |]. split; [lia |].
        intros _. split; [reflexivity |].
        intros wn Hin. apply in_app_or in Hin as [Hin | [<- | []]]; auto.
      * destruct (inspect_frame_prefix "nasa_power" period_days df
                    (warnings ++ extra)) as (extra4 & Hws & Hskip & Hdf).
        pose proof (inspect_frame_no_truncation "nasa_power" period_days df
                      (warnings ++ extra) extra4 Hws) as Hno4.
        destruct (inspect_frame _ _ _ _) as [ws4 df4]. simpl in Hws, Hdf.
        subst ws4 df4.
        exists (extra ++ extra4), (frames ++ [dropna_all (replace_sentinel df)]).
        split; [now rewrite <- !app_assoc |]. split; [lia |].
        intros _. split; [reflexivity |].
        intros wn Hin. apply in_app_or in Hin as [Hin | Hin]; auto.
    + pose proof (fetch_source_no_truncation _ _ _ _ _ _ _ _ Hfetch) as Hno.
      exists (extra ++ [WNothingObtained "nasa_power"]), frames.
      split; [now rewrite <- !app_assoc |]. split; [lia |].
      intros _. split; [reflexivity |].
      intros wn Hin. apply in_app_or in Hin as [Hin | [<- | []]]; auto.
Qed.

(** The sample request for NASA POWER that ends three days ahead. *)
Lemma prepare_nasa_ahead :
  prepare (sample_world [("nasa_power", true)]) (SourceStr "nasa_power")
    "2024-06-10" "2024-06-18" (-48) (-15.7975)
  = Ok {| rq_inicial := midnight (ymd2ord 2024 6 10);
          rq_final := midnight (today0 + 3);
          rq_period_days := 9;
          rq_current_date := midnight today0;
          rq_request_type := "forecast";
          rq_sources := ["nasa_power"] |}.
Proof.
  unfold prepare. rewrite !Rleb_true by lra. reflexivity.
Qed.

(** The whole function on a NASA POWER request that ends three days
    ahead: the range is fetched up to today, with the two truncation
    warnings and the notice of the days that are missing. *)
Example nasa_power_future_end_truncated :
  exists df,
    download_weather_data (sample_world [("nasa_power", true)])
      (SourceStr "nasa_power") "2024-06-10" "2024-06-18" (-48) (-15.7975)
    = Ok (df, [WNasaNoFuture; WNasaTruncatedTo (midnight today0);
               WFewerDays "nasa_power" 6 9])
    /\ map r_date df = [midnight (ymd2ord 2024 6 10); midnight today0].
Proof.
  eexists. split.
  - unfold download_weather_data. rewrite prepare_nasa_ahead.
    cbn [mbind exc_bind]. unfold collect.
    cbn [rq_inicial rq_final rq_period_days rq_current_date rq_sources
         process_sources].
    unfold process_source.
    replace (validate_source _ _ _ _ _) with (Ok [WNasaNoFuture])
      by reflexivity.
    cbn [mbind exc_bind].
    replace (adjusted_end _ _ _) with (midnight today0) by reflexivity.
    replace (_ <? _) with true by reflexivity. cbn [andb app].
    replace (fetch_source _ _ _ _ _ _ _ _)
      with (Fetched [WNasaNoFuture; WNasaTruncatedTo (midnight today0)]
              (Some (rename nasa_columns
                       [sample_record (midnight (ymd2ord 2024 6 10));
                        sample_record (midnight today0)])))
      by reflexivity.
    replace (df_empty _) with false by reflexivity.
    unfold inspect_frame.
    rewrite replace_sentinel_id by apply sample_frame_no_sentinel.
    reflexivity.
  - reflexivity.
Qed.

Lemma all_none_or_some {A : Type} (f : string -> option A)
  (items : list string) :
  (forall x, In x items -> f x = None)
  \/ (exists x, In x items /\ f x <> None).
Proof.
  induction items as [| x rest [IH | (y & Hin & Hy)]].
  - left. intros ? [].
  - destruct (f x) eqn:Hx.
    + right. exists x. split; [now left | congruence].
    + left. intros y [<- | Hin]; auto.
  - right. exists y. split; [now right | assumption].
Qed.

(** The frames a completed loop has added: the frame of each source
    whose fetch gave one with a row, cleaned, in the order of the
    sources. *)
Lemma process_sources_new_frames (w : world) (lat lon : R)
  (current_date a b period_days : Z) (sources : list string) :
  forall warnings frames warnings' frames',
    process_sources w lat lon current_date a b period_days sources
      (warnings, frames) = Ok (warnings', frames') ->
    frames'
    = frames
      ++ map (fun df => dropna_all (replace_sentinel df))
           (omap (fetched_frame w lat lon current_date a b) sources).
Proof.
  induction sources as [| s rest IH];
    intros warnings frames warnings' frames' H.
  - inversion H. cbn. now rewrite app_nil_r.
  - cbn [process_sources] in H.
    pose proof (process_source_cases w lat lon current_date a b period_days s
                  warnings frames) as Hcase.
    destruct (validate_source current_date a b s warnings) as [ws1 | e].
    2: { rewrite Hcase in H. discriminate. }
    destruct Hcase as [extra1 Hcase]. cbn [omap list_omap].
    destruct (fetched_frame w lat lon current_date a b s) as [df |].
    + rewrite Hcase in H. cbn [mbind exc_bind] in H.
      apply IH in H. rewrite H. cbn [map]. now rewrite <- app_assoc.
    + destruct Hcase as [Hcase _]. rewrite Hcase in H.
      cbn [mbind exc_bind] in H. now apply IH in H.
Qed.

(** C9, as the code has it.  [download_weather_data] raises in three
    cases only: a check of the request fails (coordinates, dates,
    period, source names and their availability at the coordinates);
    the date check of a queried source fails; or no queried source
    yields a frame with a row.  When every date check passes, it
    succeeds exactly when some queried source yields a frame with a
    row.  That test is made on the frame as fetched: the frame
    returned consolidates those frames after their cleaning (the
    missing-value code replaced, the rows without a value dropped) and
    may have no row.  In a successful run every queried source without
    such a frame has left a warning that names it. *)
Theorem download_failure_causes
  (w : world) (data_source : data_source_arg)
  (data_inicial data_final : string) (longitude latitude : R) :
  let result := download_weather_data w data_source data_inicial data_final
                  longitude latitude in
  let prepared := prepare w data_source data_inicial data_final
                    longitude latitude in
  let fetched rq := fetched_frame w latitude longitude (rq_current_date rq)
                      (rq_inicial rq) (rq_final rq) in
  let checked rq src := validate_source (rq_current_date rq) (rq_inicial rq)
                          (rq_final rq) src [] in
  (forall e, result = Raise e ->
     prepared = Raise e
     \/ exists rq,
         prepared = Ok rq
         /\ ((exists src, In src (rq_sources rq) /\ checked rq src = Raise e)
             \/ (e = ValueError "Nenhuma fonte forneceu dados válidos"
                 /\ forall src, In src (rq_sources rq) ->
                      fetched rq src = None)))
  /\ (forall rq, prepared = Ok rq ->
        (forall src, In src (rq_sources rq) ->
           is_ok (checked rq src) = true) ->
        ((exists src, In src (rq_sources rq) /\ fetched rq src <> None)
         <-> exists data warnings, result = Ok (data, warnings)))
  /\ (forall rq data warnings,
        prepared = Ok rq -> result = Ok (data, warnings) ->
        consolidate
          (map (fun df => dropna_all (replace_sentinel df))
             (omap (fetched rq) (rq_sources rq))) = Ok data
        /\ forall src, In src (rq_sources rq) -> fetched rq src = None ->
             exists wn, In wn warnings /\ skipped_source wn = Some src).
Proof.
  cbv zeta. unfold download_weather_data.
  destruct (prepare w data_source data_inicial data_final longitude latitude)
    as [rq | e0]; cbn [mbind exc_bind].
  2: { split; [| split].
       - intros e H. left. inversion H. reflexivity.
       - intros rq H. discriminate.
       - intros rq data warnings H. discriminate. }
  unfold collect.
  destruct (process_sources w latitude longitude (rq_current_date rq)
              (rq_inicial rq) (rq_final rq) (rq_period_days rq)
              (rq_sources rq) ([], [])) as [[warnings frames] | e0] eqn:Hloop;
    cbn [mbind exc_bind].
  - pose proof (process_sources_new_frames _ _ _ _ _ _ _ _ _ _ _ _ Hloop)
      as Hframes.
    destruct (process_sources_ok_inv _ _ _ _ _ _ _ _ _ _ _ _ Hloop)
      as (extra & new & -> & -> & Hwarn & Hnew).
    cbn [app] in *.
    assert ((exists src, In src (rq_sources rq)
                         /\ fetched_frame w latitude longitude
                              (rq_current_date rq) (rq_inicial rq)
                              (rq_final rq) src <> None)
            <-> new <> []) as Hsome.
    { rewrite Hnew. split.
      - intros (src & Hin & Hus) Hall. apply Hus. now apply Hall.
      - intros Hnot.
        destruct (all_none_or_some
                    (fetched_frame w latitude longitude (rq_current_date rq)
                       (rq_inicial rq) (rq_final rq)) (rq_sources rq))
          as [Hall | Hex]; [contradiction | exact Hex]. }
    split; [| split].
    + intros e H. right. exists rq. split; [reflexivity |]. right.
      destruct new as [| df1 [| df2 rest]]; cbn in H; try discriminate.
      inversion H. split; [reflexivity |]. now apply Hnew.
    + intros rq' Hrq _. inversion Hrq; subst rq'. rewrite Hsome.
      destruct new as [| df1 [| df2 rest]]; cbn; split; intros H;
        try congruence; eauto.
      destruct H as (? & ? & ?). discriminate.
    + intros rq' data warnings Hrq H. inversion Hrq; subst rq'.
      rewrite <- Hframes.
      destruct (consolidate new) as [weather_data |] eqn:Hdata;
        cbn [mbind exc_bind mret exc_ret] in H; [| discriminate].
      inversion H; subst. split; [reflexivity |].
      intros src Hin Hus. now apply Hwarn.
  - split; [| split].
    + intros e H. inversion H; subst e0. right. exists rq.
      split; [reflexivity |]. left.
      now apply (process_sources_raise_inv _ _ _ _ _ _ _ _ _ _ Hloop).
    + intros rq' Hrq Hok. inversion Hrq; subst rq'.
      destruct (process_sources_total w latitude longitude _ _ _
                  (rq_period_days rq) _ Hok ([], [])) as [st' Hst].
      congruence.
    + intros rq' data warnings _ H. discriminate.
Qed.

Lemma prepare_archive_and_nasa :
  prepare (sample_world [("openmeteo_archive", true); ("nasa_power", true)])
    (SourceList ["openmeteo_archive"; "nasa_power"])
    "2024-06-01" "2024-06-10" (-48) (-15.7975)
  = Ok {| rq_inicial := midnight (ymd2ord 2024 6 1);
          rq_final := midnight (ymd2ord 2024 6 10);
          rq_period_days := 10;
          rq_current_date := midnight today0;
          rq_request_type := "current";
          rq_sources := ["openmeteo_archive"; "nasa_power"] |}.
Proof.
  unfold prepare. rewrite !Rleb_true by lra. reflexivity.
Qed.

Lemma prepare_silent_nasa :
  prepare (silent_world [("nasa_power", true)]) (SourceStr "nasa_power")
    "2024-06-01" "2024-06-10" (-48) (-15.7975)
  = Ok {| rq_inicial := midnight (ymd2ord 2024 6 1);
          rq_final := midnight (ymd2ord 2024 6 10);
          rq_period_days := 10;
          rq_current_date := midnight today0;
          rq_request_type := "current";
          rq_sources := ["nasa_power"] |}.
Proof.
  unfold prepare. rewrite !Rleb_true by lra. reflexivity.
Qed.

Lemma sample_archive_usable (avail : list (string * bool)) :
  fetched_frame (sample_world avail) (-15.7975) (-48) (midnight today0)
    (midnight (ymd2ord 2024 6 1)) (midnight (ymd2ord 2024 6 10))
    "openmeteo_archive" <> None.
Proof.
  unfold fetched_frame.
  replace (fetch_source _ _ _ _ _ _ _ _)
    with (Fetched [] (Some (harmonize archive_harmonization
                              [sample_record (midnight (ymd2ord 2024 6 1));
                               sample_record (midnight (ymd2ord 2024 6 10))])))
    by reflexivity.
  replace (df_empty _) with false by reflexivity.
  discriminate.
Qed.

(** Two runs seen from 2024-06-15: the archive and NASA POWER answer and
    the request succeeds; NASA POWER alone returns nothing and the
    request fails for want of any usable frame. *)
Lemma download_failure_causes_witness :
  (exists data warnings,
      download_weather_data
        (sample_world [("openmeteo_archive", true); ("nasa_power", true)])
        (SourceList ["openmeteo_archive"; "nasa_power"])
        "2024-06-01" "2024-06-10" (-48) (-15.7975) = Ok (data, warnings))
  /\ (let w := silent_world [("nasa_power", true)] in
      let e := ValueError "Nenhuma fonte forneceu dados válidos" in
      prepare w (SourceStr "nasa_power") "2024-06-01" "2024-06-10"
        (-48) (-15.7975) = Raise e
      \/ exists rq,
          prepare w (SourceStr "nasa_power") "2024-06-01" "2024-06-10"
            (-48) (-15.7975) = Ok rq
          /\ ((exists src,
                  In src (rq_sources rq)
                  /\ validate_source (rq_current_date rq) (rq_inicial rq)
                       (rq_final rq) src [] = Raise e)
              \/ (e = ValueError "Nenhuma fonte forneceu dados válidos"
                  /\ forall src, In src (rq_sources rq) ->
                       fetched_frame w (-15.7975) (-48) (rq_current_date rq)
                         (rq_inicial rq) (rq_final rq) src = None))).
Proof.
  split.
  - destruct (download_failure_causes
                (sample_world [("openmeteo_archive", true);
                               ("nasa_power", true)])
                (SourceList ["openmeteo_archive"; "nasa_power"])
                "2024-06-01" "2024-06-10" (-48) (-15.7975))
      as (_ & Hsucceeds & _).
    apply (Hsucceeds _ prepare_archive_and_nasa).
    + intros src [<- | [<- | []]]; reflexivity.
    + exists "openmeteo_archive". split; [now left |].
      apply sample_archive_usable.
  - destruct (download_failure_causes
                (silent_world [("nasa_power", true)])
                (SourceStr "nasa_power")
                "2024-06-01" "2024-06-10" (-48) (-15.7975))
      as (Hraises & _ & _).
    apply Hraises.
    unfold download_weather_data. rewrite prepare_silent_nasa. reflexivity.
Defined.

End Coordinator.

(* ================================================================== *)
(** ** A download from NASA POWER alone                                 *)
(* ================================================================== *)

Section NasaPower.
Import Calendar PyStr Availability Download Reference Adapters.

(** A request for one source by its name queries that source. *)
Lemma prepare_single_source (w : world) (source : string)
  (data_inicial data_final : string) (longitude latitude : R) (rq : request) :
  source <> "data fusion" ->
  prepare w (SourceStr source) data_inicial data_final longitude latitude
    = Ok rq ->
  requested_of (SourceStr source) = [source] ->
  rq_sources rq = [source].
Proof.
  intros Hne Hrq Hreq.
  apply prepare_inv in Hrq as (_ & _ & _ & _ & _ & _ & Hval & Hsel).
  rewrite Hreq in Hval, Hsel.
  pose proof (validate_requested_ok _ _ Hval source (or_introl eq_refl))
    as [_ Havail].
  unfold select_sources in Hsel.
  assert (mem "data fusion" [source] = false) as Hmem.
  { apply not_true_iff_false. intros H. apply mem_In in H as [H | []].
    now apply Hne. }
  rewrite Hmem in Hsel.
  rewrite filter_cons, decide_True in Hsel by (apply Havail; assumption).
  rewrite filter_nil in Hsel. now inversion Hsel.
Qed.

(** The checks of the request do not call the adapters. *)
Lemma prepare_with_adapters (w : world)
  (adapters : string -> R -> R -> Z -> Z -> exc (list row))
  (data_source : data_source_arg) (data_inicial data_final : string)
  (longitude latitude : R) :
  prepare (with_adapters w adapters) data_source data_inicial data_final
    longitude latitude
  = prepare w data_source data_inicial data_final longitude latitude.
Proof. reflexivity. Qed.

(** C5, as the code has it.  A download from NASA POWER alone that
    passes the checks of the request (coordinates, dates, period rules,
    availability) and starts on or after 1990-01-01 does not fail on
    its end date.  The adapter is asked for the range that ends at the
    earlier of the end date and today; the download raises only when
    that fetch gives no frame with a row, with the message "Nenhuma
    fonte forneceu dados válidos", and otherwise returns the frame,
    cleaned.  When the end date is later than today the returned
    warnings hold the two truncation warnings; when it is today or
    earlier (also yesterday, later than today minus two days) they hold
    no truncation warning.  The outcome depends on the adapter only
    through its answer for that range. *)
Theorem nasa_power_truncates_at_today
  (w : world) (data_inicial data_final : string) (longitude latitude : R)
  (rq : request) :
  prepare w (SourceStr "nasa_power") data_inicial data_final longitude
    latitude = Ok rq ->
  midnight (ymd2ord 1990 1 1) <= rq_inicial rq ->
  let current_date := rq_current_date rq in
  let a := rq_inicial rq in
  let b := rq_final rq in
  let adj := adjusted_end current_date b "nasa_power" in
  let download w :=
    download_weather_data w (SourceStr "nasa_power") data_inicial
      data_final longitude latitude in
  adj = Z.min b current_date
  /\ match fetched_frame w latitude longitude current_date a b "nasa_power"
     with
     | None =>
         download w
         = Raise (ValueError "Nenhuma fonte forneceu dados válidos")
     | Some df =>
         exists warnings,
           download w = Ok (dropna_all (replace_sentinel df), warnings)
           /\ (current_date < b ->
                 In WNasaNoFuture warnings
                 /\ In (WNasaTruncatedTo current_date) warnings)
           /\ (b <= current_date ->
                 forall wn, In wn warnings -> is_truncation wn = false)
     end
  /\ (forall adapters,
        adapters "nasa_power" latitude longitude a adj
        = get_data_sync w "nasa_power" latitude longitude a adj ->
        download (with_adapters w adapters) = download w).
Proof.
  intros Hrq Hstart current_date a b adj download.
  assert (rq_sources rq = ["nasa_power"]) as Hsources
    by (eapply prepare_single_source; [discriminate | exact Hrq | reflexivity]).
  assert (forall w',
             prepare w' (SourceStr "nasa_power") data_inicial data_final
               longitude latitude = Ok rq ->
             download w'
             = ('(ws, fs) ← process_source w' latitude longitude current_date
                              a b (rq_period_days rq) "nasa_power" ([], []);
                weather_data ← consolidate fs;
                mret (weather_data, ws))) as Hdown.
  { intros w' Hrq'.
    unfold download, download_weather_data, collect, current_date, a, b.
    rewrite Hrq'. cbn [mbind exc_bind]. rewrite Hsources.
    cbn [process_sources].
    destruct (process_source w' latitude longitude (rq_current_date rq)
                (rq_inicial rq) (rq_final rq) (rq_period_days rq)
                "nasa_power" ([], [])) as [[ws fs] |]; reflexivity. }
  destruct (nasa_power_iteration w latitude longitude current_date a b
              (rq_period_days rq) [] [] Hstart)
    as (extra & frames' & Hstep & Hlater & Hearlier & Hdep).
  split; [reflexivity |]. split.
  - rewrite (Hdown w Hrq).
    pose proof (process_source_cases w latitude longitude current_date a b
                  (rq_period_days rq) "nasa_power" [] []) as Hcase.
    destruct (validate_source current_date a b "nasa_power" [])
      as [ws0 | e0]; [| rewrite Hcase in Hstep; discriminate].
    destruct Hcase as [extra' Hcase].
    destruct (fetched_frame w latitude longitude current_date a b
                "nasa_power") as [df |].
    + rewrite Hcase in Hstep. inversion Hstep as [[Hextra Hframes]].
      rewrite Hcase. cbn [mbind exc_bind mret exc_ret app consolidate].
      exists extra'. split; [reflexivity |].
      cbn [app] in Hextra. subst extra'. split.
      * intros Hlt. now destruct (Hlater Hlt) as (_ & ? & ?).
      * intros Hle. now destruct (Hearlier Hle) as (_ & ?).
    + destruct Hcase as [Hcase _]. rewrite Hcase. reflexivity.
  - intros adapters Hsame.
    rewrite (Hdown w Hrq), (Hdown (with_adapters w adapters)) by exact Hrq.
    now rewrite (Hdep (with_adapters w adapters) Hsame).
Qed.

(** The sample request for NASA POWER that ends three days ahead, seen
    from 2024-06-15. *)
Lemma nasa_power_truncates_at_today_witness :
  let w := sample_world [("nasa_power", true)] in
  let rq := {| rq_inicial := midnight (ymd2ord 2024 6 10);
               rq_final := midnight (today0 + 3);
               rq_period_days := 9;
               rq_current_date := midnight today0;
               rq_request_type := "forecast";
               rq_sources := ["nasa_power"] |} in
  let current_date := rq_current_date rq in
  let a := rq_inicial rq in
  let b := rq_final rq in
  let adj := adjusted_end current_date b "nasa_power" in
  let download w :=
    download_weather_data w (SourceStr "nasa_power") "2024-06-10"
      "2024-06-18" (-48) (-15.7975) in
  prepare w (SourceStr "nasa_power") "2024-06-10" "2024-06-18" (-48)
    (-15.7975) = Ok rq
  /\ midnight (ymd2ord 1990 1 1) <= rq_inicial rq
  /\ adj = Z.min b current_date
  /\ match fetched_frame w (-15.7975) (-48) current_date a b "nasa_power"
     with
     | None =>
         download w
         = Raise (ValueError "Nenhuma fonte forneceu dados válidos")
     | Some df =>
         exists warnings,
           download w = Ok (dropna_all (replace_sentinel df), warnings)
           /\ (current_date < b ->
                 In WNasaNoFuture warnings
                 /\ In (WNasaTruncatedTo current_date) warnings)
           /\ (b <= current_date ->
                 forall wn, In wn warnings -> is_truncation wn = false)
     end
  /\ (forall adapters,
        adapters "nasa_power" (-15.7975)%R (-48)%R a adj
        = get_data_sync w "nasa_power" (-15.7975)%R (-48)%R a adj ->
        download (with_adapters w adapters) = download w).
Proof.
  cbv zeta. split; [exact prepare_nasa_ahead |].
  split; [apply Z.leb_le; reflexivity |].
  apply (nasa_power_truncates_at_today (sample_world [("nasa_power", true)])
           "2024-06-10" "2024-06-18" (-48) (-15.7975) _ prepare_nasa_ahead).
  apply Z.leb_le. reflexivity.
Defined.

End NasaPower.

(* ================================================================== *)
(** ** Anomaly detection                                                *)
(* ================================================================== *)

Section Anomalies.
Import ETo Reference.
Local Open Scope R_scope.


(** The verdict for a missing historical normal carries no numbers. *)
Lemma missing_normal_is_not_zeroed :
  detect_anomalies 4.2 None
  <> {| is_anomaly := false; z_score := Some 0;
        deviation_percent := Some 0 |}.
Proof. discriminate. Qed.

End Anomalies.

(* ================================================================== *)
(** ** The summary of a series                                          *)
(* ================================================================== *)

Section Summary.
Import ETo Reference.
Local Open Scope R_scope.



Lemma max_of_bounds (v : R) (values : list R) :
  v <= max_of v values /\ Forall (fun x => x <= max_of v values) values.
Proof.
  unfold max_of. revert v.
  induction values as [| x rest IH]; intros v; cbn.
  - split; [lra | constructor].
  - destruct (IH (Rmax v x)) as [Hv Hrest].
    pose proof (Rmax_l v x). pose proof (Rmax_r v x).
    split; [lra |]. constructor; [lra | assumption].
Qed.

Lemma min_of_bounds (v : R) (values : list R) :
  min_of v values <= v /\ Forall (fun x => min_of v values <= x) values.
Proof.
  unfold min_of. revert v.
  induction values as [| x rest IH]; intros v; cbn.
  - split; [lra | constructor].
  - destruct (IH (Rmin v x)) as [Hv Hrest].
    pose proof (Rmin_l v x). pose proof (Rmin_r v x).
    split; [lra |]. constructor; [lra | assumption].
Qed.


Lemma filter_length_le {A : Type} (P : A -> Prop) `{forall x, Decision (P x)}
  (items : list A) :
  (length (filter P items) <= length items)%nat.
Proof. apply length_filter. Qed.

(** The empty series and a two-day series. *)
Example summarize_empty : _summarize_series [] = None.
Proof. reflexivity. Qed.

End Summary.

(* ================================================================== *)
(** ** Validation of the measurements                                   *)
(* ================================================================== *)

Section Validation.
Import ETo Reference.
Local Open Scope R_scope.

Lemma filter_nil_Forall {A : Type} (P : A -> Prop)
  `{forall x, Decision (P x)} (items : list A) :
  filter P items = [] <-> Forall (fun x => ~ P x) items.
Proof.
  induction items as [| x rest IH].
  - split; [constructor | reflexivity].
  - rewrite filter_cons. destruct (decide (P x)) as [Hx | Hx].
    + split; [discriminate |]. intros Hall. inversion Hall. contradiction.
    + rewrite IH. split; [now constructor | intros Hall; now inversion Hall].
Qed.

Lemma filter_sublist_props {A : Type} (P : A -> Prop)
  `{forall x, Decision (P x)} (items : list A) :
  Forall (fun x => In x items /\ P x) (filter P items).
Proof.
  apply Forall_forall. intros x Hin.
  apply list_elem_of_filter in Hin as [HP Hin].
  split; [now apply list_elem_of_In | assumption].
Qed.

(** [num] on a well-typed dictionary, for a key that is present. *)
Lemma num_present (m : gmap string pyval) (k : string) :
  well_typed m -> k <> "date" -> m !! k <> None ->
  exists x, m !! k = Some (VFloat x) /\ num m k = Ok x.
Proof.
  intros Hty Hk Hin. unfold num.
  destruct (m !! k) as [[x | s] |] eqn:Hm.
  - eauto.
  - exfalso. apply Hk. now apply (Hty k s).
  - contradiction.
Qed.

Ltac present m k Hty Hall :=
  let x := fresh "x" in
  let Hm := fresh "Hm" in
  let Hn := fresh "Hn" in
  destruct (num_present m k Hty ltac:(discriminate)) as (x & Hm & Hn);
  [ rewrite Forall_forall in Hall; apply Hall;
    apply list_elem_of_In; cbn; tauto
  | rewrite Hn; cbn [mbind exc_bind] ].

(** C7.  On a dictionary whose numeric entries are numbers and whose
    [T2M_MAX] is below its [T2M_MIN], [_validate_measurements] raises a
    [ValueError] whose message reports a condition the dictionary
    violates; when the earlier checks pass, the message is the one of
    the two temperatures.  The [try] block of [calculate_et0] stops at
    that error, before any term of the computation, and the function
    returns the degraded result that carries the message. *)
Theorem inverted_temperatures_rejected
  (m : gmap string pyval) (tmax tmin : R) (method : string) :
  well_typed m ->
  m !! "T2M_MAX" = Some (VFloat tmax) ->
  m !! "T2M_MIN" = Some (VFloat tmin) ->
  tmax < tmin ->
  exists msg,
    _validate_measurements m = Raise (ValueError msg)
    /\ reports m msg
    /\ (earlier_checks_pass m ->
          msg = "T2M_MAX não pode ser menor que T2M_MIN")
    /\ penman_monteith m = Raise (ValueError msg)
    /\ calculate_et0 m method
       = {| et0_mm_day := 0; quality := "low"; method := method;
            comps := None; error := Some msg |}.
Proof.
  intros Hty Hmax Hmin Hlt.
  enough (exists msg,
             _validate_measurements m = Raise (ValueError msg)
             /\ reports m msg
             /\ (earlier_checks_pass m ->
                   msg = "T2M_MAX não pode ser menor que T2M_MIN"))
    as (msg & Hval & Hrep & Hmsg).
  { exists msg. unfold calculate_et0, penman_monteith. rewrite Hval.
    cbn [mbind exc_bind exn_str]. auto. }
  unfold _validate_measurements.
  set (missing := filter (fun var => m !! var = None) required_vars).
  destruct (decide (missing = [])) as [Hnone | Hsome].
  2: { rewrite bool_decide_eq_false_2 by assumption.
       cbn [check mbind exc_bind]. eexists. split; [reflexivity |].
       split.
       - apply reports_missing; [assumption |]. apply filter_sublist_props.
       - intros [Hall _]. exfalso. apply Hsome.
         apply filter_nil_Forall.
         eapply Forall_impl; [exact Hall |]. auto. }
  rewrite bool_decide_eq_true_2 by assumption. cbn [check mbind exc_bind].
  assert (Forall (fun var => m !! var <> None) required_vars) as Hall
    by (now apply filter_nil_Forall in Hnone).
  present m "latitude" Hty Hall.
  destruct (Rleb (-90) x && Rleb x 90) eqn:Hlat; cbn [check mbind exc_bind].
  2: { eexists. split; [reflexivity |]. split.
       - apply (reports_latitude m x Hm). intros [? ?].
         rewrite !Rleb_true in Hlat by assumption. discriminate.
       - intros (_ & la & lo & z & rh & ws & H1 & _ & _ & _ & _ & H6 & _).
         rewrite Hm in H1. inversion H1; subst la.
         rewrite !Rleb_true in Hlat by lra. discriminate. }
  present m "longitude" Hty Hall.
  destruct (Rleb (-180) x0 && Rleb x0 180) eqn:Hlon;
    cbn [check mbind exc_bind].
  2: { eexists. split; [reflexivity |]. split.
       - apply (reports_longitude m x0 Hm0). intros [? ?].
         rewrite !Rleb_true in Hlon by assumption. discriminate.
       - intros (_ & la & lo & z & rh & ws & _ & H2 & _ & _ & _ & _ & H7 & _).
         rewrite Hm0 in H2. inversion H2; subst lo.
         rewrite !Rleb_true in Hlon by lra. discriminate. }
  present m "elevation_m" Hty Hall.
  destruct (negb (Rltb x1 (-500) || Rltb 9000 x1)) eqn:Hel;
    cbn [check mbind exc_bind].
  2: { eexists. split; [reflexivity |]. split.
       - apply (reports_elevation m x1 Hm1). intros [? ?].
         rewrite !Rltb_false in Hel by assumption. discriminate.
       - intros (_ & la & lo & z & rh & ws & _ & _ & H3 & _ & _ & _ & _ & H8
                 & _).
         rewrite Hm1 in H3. inversion H3; subst z.
         rewrite !Rltb_false in Hel by lra. discriminate. }
  present m "RH2M" Hty Hall.
  destruct (Rleb 0 x2 && Rleb x2 100) eqn:Hrh; cbn [check mbind exc_bind].
  2: { eexists. split; [reflexivity |]. split.
       - apply (reports_humidity m x2 Hm2). intros [? ?].
         rewrite !Rleb_true in Hrh by assumption. discriminate.
       - intros (_ & la & lo & z & rh & ws & _ & _ & _ & H4 & _ & _ & _ & _
                 & H9 & _).
         rewrite Hm2 in H4. inversion H4; subst rh.
         rewrite !Rleb_true in Hrh by lra. discriminate. }
  present m "WS2M" Hty Hall.
  destruct (negb (Rltb x3 0)) eqn:Hws; cbn [check mbind exc_bind].
  2: { eexists. split; [reflexivity |]. split.
       - apply (reports_wind m x3 Hm3).
         destruct (Rlt_dec x3 0); [assumption |].
         rewrite Rltb_false in Hws by lra. discriminate.
       - intros (_ & la & lo & z & rh & ws & _ & _ & _ & _ & H5 & _ & _ & _
                 & _ & H10).
         rewrite Hm3 in H5. inversion H5; subst ws.
         rewrite Rltb_false in Hws by lra. discriminate. }
  unfold num. rewrite Hmax, Hmin. cbn [mbind exc_bind].
  rewrite Rltb_true by assumption. cbn [negb check mbind exc_bind].
  eexists. split; [reflexivity |]. split; [| reflexivity].
  now apply (reports_temperatures m tmax tmin).
Qed.

Lemma measurements_of_well_typed
  (T_max T_min T_mean RH u2 precipitation Rs z lat lon : R) (date : string) :
  well_typed (measurements_of T_max T_min T_mean RH u2 precipitation Rs z lat
                lon date).
Proof.
  intros k s. unfold measurements_of.
  repeat (rewrite lookup_insert;
          destruct (decide (_ = k)) as [<- | _];
          [intros H; first [reflexivity | discriminate] |]).
  rewrite lookup_empty. discriminate.
Qed.

(** The sample dictionary with its temperatures exchanged. *)
Lemma inverted_temperatures_rejected_witness :
  exists msg,
    _validate_measurements inverted_measurements = Raise (ValueError msg)
    /\ reports inverted_measurements msg
    /\ (earlier_checks_pass inverted_measurements ->
          msg = "T2M_MAX não pode ser menor que T2M_MIN")
    /\ penman_monteith inverted_measurements = Raise (ValueError msg)
    /\ calculate_et0 inverted_measurements "pm"
       = {| et0_mm_day := 0; quality := "low"; method := "pm";
            comps := None; error := Some msg |}.
Proof.
  apply (inverted_temperatures_rejected inverted_measurements 18.2 28.5 "pm").
  - apply measurements_of_well_typed.
  - reflexivity.
  - reflexivity.
  - lra.
Defined.

End Validation.

(* ================================================================== *)
(** ** The Penman-Monteith computation                                  *)
(* ================================================================== *)

Section PenmanMonteith.
Import ETo Reference.
Local Open Scope R_scope.

(** The slope of the vapour pressure curve is positive. *)
Lemma slope_pos (T s : R) : _vapor_pressure_slope T = Ok s -> 0 < s.
Proof.
  unfold _vapor_pressure_slope, div.
  destruct (Reqb (T + 237.3) 0) eqn:H1; cbn [mbind exc_bind];
    [discriminate |].
  destruct (Reqb ((T + 237.3) ^ 2) 0) eqn:H2; [discriminate |].
  intros H. inversion H.
  assert ((T + 237.3) ^ 2 <> 0) as Hne
    by (intros Heq; apply Reqb_true in Heq; congruence).
  assert (0 < (T + 237.3) ^ 2) as Hsq.
  { assert (0 <= (T + 237.3) ^ 2) as [Hlt | Heq] by apply pow2_ge_0;
      [assumption | exfalso; apply Hne; now symmetry]. }
  apply Rdiv_lt_0_compat; [| assumption].
  pose proof (exp_pos (17.27 * T / (T + 237.3))). nra.
Qed.

(** The psychrometric constant is positive. *)
Lemma gamma_pos (z : R) :
  0 < _psychrometric_constant
        (101.3 * Rpower ((293 - 0.0065 * z) / 293) 5.26) z.
Proof.
  unfold _psychrometric_constant, Rpower.
  pose proof (exp_pos (5.26 * ln ((293 - 0.0065 * z) / 293))). lra.
Qed.

(** The denominator of the combined equation is positive when the wind
    is not negative. *)
Lemma denominator_pos (s g u2 : R) :
  0 < s -> 0 < g -> 0 <= u2 -> 0 < s + g * (1 + 0.34 * u2).
Proof. intros. nra. Qed.





Lemma num_insert_ne (m : gmap string pyval) (k k' : string) (v : pyval) :
  k <> k' -> num (<[k := v]> m) k' = num m k'.
Proof. intros H. unfold num. now rewrite lookup_insert_ne. Qed.

Lemma str_insert_ne (m : gmap string pyval) (k k' : string) (v : pyval) :
  k <> k' -> str (<[k := v]> m) k' = str m k'.
Proof. intros H. unfold str. now rewrite lookup_insert_ne. Qed.





(** *** Bounds on the trigonometric terms *)

Lemma PI_bounds : 3 < PI <= 4.
Proof. pose proof PI2_3_2. pose proof PI_4. lra. Qed.

(** The tangent stays within one in absolute value up to 45 degrees. *)
Lemma tan_bound_PI4 (x : R) : - (PI / 4) <= x <= PI / 4 -> -1 <= tan x <= 1.
Proof.
  intros [Hlo Hhi]. pose proof PI_bounds.
  split.
  - replace (-1) with (tan (- (PI / 4))) by (rewrite tan_neg, tan_PI4; lra).
    apply tan_incr_1; lra.
  - rewrite <- tan_PI4. apply tan_incr_1; lra.
Qed.

(** The solar declination stays within 0.409 radians. *)
Lemma solar_declination_bound (N : Z) :
  -0.409 <= _solar_declination N <= 0.409.
Proof.
  unfold _solar_declination.
  pose proof (SIN_bound (2 * PI * (IZR N - 1) / 365 - 1.39)). lra.
Qed.

(** Up to 45 degrees of latitude the argument of the arc cosine is in
    its domain. *)
Lemma sunset_angle_defined (lat : R) (N : Z) :
  -45 <= lat <= 45 ->
  -1 <= - tan (lat * (PI / 180)) * tan (_solar_declination N) <= 1.
Proof.
  intros Hlat. pose proof PI_bounds.
  pose proof (solar_declination_bound N).
  assert (-1 <= tan (lat * (PI / 180)) <= 1) by (apply tan_bound_PI4; nra).
  assert (-1 <= tan (_solar_declination N) <= 1)
    by (apply tan_bound_PI4; lra).
  nra.
Qed.

(** The sine is at least one half between 30 and 150 degrees. *)
Lemma sin_ge_half (x : R) : PI / 6 <= x <= 5 * (PI / 6) -> 1 / 2 <= sin x.
Proof.
  intros [Hlo Hhi]. pose proof PI_bounds. rewrite <- sin_PI6.
  destruct (Rle_dec x (PI / 2)).
  - apply sin_incr_1; lra.
  - rewrite <- (sin_PI_x x). apply sin_incr_1; lra.
Qed.

(** On 2024-06-21 the declination is at least 0.2 radians. *)
Lemma solstice_declination :
  0.2045 <= _solar_declination 173 <= 0.409.
Proof.
  pose proof (solar_declination_bound 173) as [_ Hhi].
  split; [| assumption].
  unfold _solar_declination. pose proof PI_bounds.
  assert (1 / 2 <= sin (2 * PI * (173 - 1) / 365 - 1.39))
    by (apply sin_ge_half; lra).
  lra.
Qed.

(** The tangent of 89 degrees is at least 22.5. *)
Lemma tan_89_degrees : 22.5 <= tan (89 * (PI / 180)).
Proof.
  pose proof PI_bounds. unfold tan.
  assert (sin (89 * (PI / 180)) = cos (PI / 180)) as ->.
  { rewrite <- (cos_shift (89 * (PI / 180))). f_equal. lra. }
  assert (cos (89 * (PI / 180)) = sin (PI / 180)) as ->.
  { rewrite <- (sin_shift (89 * (PI / 180))). f_equal. lra. }
  assert (1 / 2 <= cos (PI / 180)).
  { rewrite <- cos_PI3. apply cos_decr_1; lra. }
  assert (0 < sin (PI / 180)) by (apply sin_gt_0; lra).
  assert (sin (PI / 180) < PI / 180) by (apply sin_lt_x; lra).
  apply Rmult_le_reg_r with (r := sin (PI / 180)); [assumption |].
  replace (cos (PI / 180) / sin (PI / 180) * sin (PI / 180))
    with (cos (PI / 180)) by (field; lra).
  nra.
Qed.

(** The tangent of an angle between 0.2045 and 0.409 radians is at
    least 0.19. *)
Lemma tan_small_angle (d : R) : 0.2045 <= d <= 0.409 -> 0.19 <= tan d.
Proof.
  intros [Hlo Hhi]. pose proof PI_bounds.
  pose proof (sin_bound d 0 ltac:(lra) ltac:(lra)) as [Hsin _].
  assert (sin_approx d (2 * 0 + 1) = d - d ^ 3 / 6) as Happrox.
  { unfold sin_approx, sin_term. simpl. field. }
  rewrite Happrox in Hsin.
  assert (0.19 <= sin d).
  { apply Rle_trans with (r2 := d - d ^ 3 / 6); [| assumption].
    simpl. nra. }
  assert (0 < cos d) by (apply cos_gt_0; lra).
  pose proof (COS_bound d) as [_ Hcos].
  unfold tan.
  apply Rmult_le_reg_r with (r := cos d); [assumption |].
  replace (sin d / cos d * cos d) with (sin d) by (field; lra).
  nra.
Qed.

(** One degree from the pole at the June solstice the sun does not set:
    the argument of the arc cosine is below -1. *)
Lemma polar_day :
  - tan (89 * (PI / 180)) * tan (_solar_declination 173) < -1.
Proof.
  pose proof tan_89_degrees.
  pose proof (tan_small_angle _ solstice_declination).
  nra.
Qed.

(** *** Evaluation on a complete dictionary *)

(** A complete dictionary whose values are in range is accepted. *)
Lemma validate_measurements_of
  (T_max T_min T_mean RH u2 precipitation Rs z lat lon : R) (date : string) :
  -90 <= lat <= 90 -> -180 <= lon <= 180 -> -500 <= z <= 9000 ->
  0 <= RH <= 100 -> 0 <= u2 -> T_min <= T_max ->
  _validate_measurements
    (measurements_of T_max T_min T_mean RH u2 precipitation Rs z lat lon date)
  = Ok true.
Proof.
  intros Hlat Hlon Hz Hrh Hu HT. unfold _validate_measurements.
  replace (filter _ required_vars) with ([] : list string) by reflexivity.
  replace (num _ "latitude") with (Ok lat) by reflexivity.
  replace (num _ "longitude") with (Ok lon) by reflexivity.
  replace (num _ "elevation_m") with (Ok z) by reflexivity.
  replace (num _ "RH2M") with (Ok RH) by reflexivity.
  replace (num _ "WS2M") with (Ok u2) by reflexivity.
  replace (num _ "T2M_MAX") with (Ok T_max) by reflexivity.
  replace (num _ "T2M_MIN") with (Ok T_min) by reflexivity.
  cbn [mbind exc_bind].
  rewrite !Rleb_true, !Rltb_false by lra. reflexivity.
Qed.

(** On such a dictionary the [try] block is the combined equation of
    its values. *)
Lemma penman_monteith_measurements_of
  (T_max T_min T_mean RH u2 precipitation Rs z lat lon : R) (date : string) :
  -90 <= lat <= 90 -> -180 <= lon <= 180 -> -500 <= z <= 9000 ->
  0 <= RH <= 100 -> 0 <= u2 -> T_min <= T_max ->
  penman_monteith
    (measurements_of T_max T_min T_mean RH u2 precipitation Rs z lat lon date)
  = combined_equation T_max T_min T_mean RH u2 Rs z lat date.
Proof.
  intros Hlat Hlon Hz Hrh Hu HT. unfold penman_monteith.
  rewrite validate_measurements_of by assumption. reflexivity.
Qed.

(** The combined equation completes when no temperature is at a pole of
    its formulas, the date parses and the latitude is at most 45
    degrees. *)
Lemma combined_equation_defined
  (T_max T_min T_mean RH u2 Rs z lat : R) (date : string) (N : Z) :
  T_max + 237.3 <> 0 -> T_min + 237.3 <> 0 -> T_mean + 237.3 <> 0 ->
  T_mean + 273 <> 0 -> 0 <= u2 -> _day_of_year date = Ok N ->
  -45 <= lat <= 45 ->
  exists x c,
    combined_equation T_max T_min T_mean RH u2 Rs z lat date = Ok (Fin x, c).
Proof.
  intros H1 H2 H3 H4 Hu HN Hlat.
  unfold combined_equation, _saturation_vapor_pressure, div.
  rewrite !Reqb_false by assumption. cbn [mbind exc_bind mret exc_ret]. rewrite HN.
  cbn [mbind exc_bind mret exc_ret]. unfold _extraterrestrial_radiation, math_acos.
  destruct (sunset_angle_defined lat N Hlat) as [Hlo Hhi].
  rewrite !Rleb_true by assumption. cbn [andb mbind exc_bind mret exc_ret].
  destruct (_vapor_pressure_slope T_mean) as [s |] eqn:Hs.
  2: { unfold _vapor_pressure_slope, div in Hs.
       rewrite (Reqb_false (T_mean + 237.3) 0) in Hs by assumption.
       cbn [mbind exc_bind] in Hs.
       rewrite Reqb_false in Hs; [discriminate |].
       apply pow_nonzero. assumption. }
  cbn [mbind exc_bind mret exc_ret].
  pose proof (denominator_pos s _ u2 (slope_pos _ _ Hs) (gamma_pos z) Hu).
  rewrite Reqb_false by lra. eauto.
Qed.

(** The documented example is accepted and its computation completes. *)
Lemma sample_measurements_computed :
  exists x c, penman_monteith sample_measurements = Ok (Fin x, c).
Proof.
  unfold sample_measurements.
  rewrite penman_monteith_measurements_of by lra.
  apply (combined_equation_defined _ _ _ _ _ _ _ _ _ 259);
    first [lra | reflexivity].
Qed.

(** The polar dictionary is accepted by validation, and the arc cosine
    of its sunset angle raises: there is no raw value, and the function
    returns the degraded result. *)
Lemma polar_day_has_no_raw_value :
  _validate_measurements polar_measurements = Ok true
  /\ penman_monteith polar_measurements
     = Raise (ValueError "math domain error")
  /\ calculate_et0 polar_measurements "pm"
     = {| et0_mm_day := 0; quality := "low"; method := "pm";
          comps := None; error := Some "math domain error" |}.
Proof.
  assert (penman_monteith polar_measurements
          = Raise (ValueError "math domain error")) as Hpm.
  { unfold polar_measurements.
    rewrite penman_monteith_measurements_of by lra.
    unfold combined_equation, _saturation_vapor_pressure, div.
    rewrite !Reqb_false by lra. cbn [mbind exc_bind mret exc_ret].
    replace (_day_of_year "2024-06-21") with (Ok 173%Z) by reflexivity.
    cbn [mbind exc_bind mret exc_ret]. unfold _extraterrestrial_radiation, math_acos.
    rewrite (Rleb_false (-1)) by apply polar_day. reflexivity. }
  split; [| split].
  - unfold polar_measurements. apply validate_measurements_of; lra.
  - exact Hpm.
  - unfold calculate_et0. rewrite Hpm. reflexivity.
Qed.

End PenmanMonteith.

(* ================================================================== *)
(** * The calculation in double arithmetic                             *)
(* ================================================================== *)

(* ================================================================== *)
(** ** The order of the doubles                                         *)
(* ================================================================== *)

Section FloatOrder.
Import Binary64.
Local Open Scope float_scope.

(** Decides the comparisons of the exponents and the mantissas. *)
Ltac order_cases :=
  repeat match goal with
    | |- context [Z.compare ?a ?b] => destruct (Z.compare_spec a b)
    | |- context [Pos.compare ?a ?b] => destruct (Pos.compare_spec a b)
    end;
  cbn; intros; first [reflexivity | discriminate | lia].

Ltac float_cases :=
  unfold SFltb, SFcompare;
  repeat match goal with s : bool |- _ => destruct s end;
  try (cbn; intros; first [reflexivity | discriminate]);
  rewrite ?Pos.compare_cont_spec; unfold Pos.switch_Eq; order_cases.

Lemma SFltb_asym (x y : spec_float) : SFltb x y = true -> SFltb y x = false.
Proof.
  destruct x as [sx | sx | | sx mx ex], y as [sy | sy | | sy my ey];
    float_cases.
Qed.



(** [<] on doubles is asymmetric, hence irreflexive. *)
Lemma ltb_asym (x y : float) : (x <? y) = true -> (y <? x) = false.
Proof. rewrite !ltb_spec. apply SFltb_asym. Qed.






End FloatOrder.

(* ================================================================== *)
(** ** Anomaly detection                                                *)
(* ================================================================== *)

Section Anomalies64.
Import Binary64 ETo64 Samples64.
Local Open Scope float_scope.

(** C8, as the code has it.  [detect_anomalies] never raises.  With a
    historical normal whose mean and standard deviation are both
    nonzero it computes, in double arithmetic, [z = (et0 - mean) /
    std_dev] and [(et0 - mean) / mean * 100], flags an anomaly exactly
    when the double [abs(z)] compares greater than [2.5], and returns
    [z] rounded to two decimals and the deviation rounded to one: the
    documented example gives [False], [0.67] and [10.5], and [0.35]
    against a mean of [1.1] with a deviation of [0.3] is flagged,
    because its quotient is the double next below [-2.5], although it
    is returned as [-2.5].  When the mean or the standard deviation is
    zero the verdict is non-anomalous with both numbers zero; when the
    normal is missing or empty it is non-anomalous with both numbers
    [None]. *)
Theorem detect_anomalies_reference (et0 : float)
  (historical_normal : option (gmap string float)) :
  (exists v, detect_anomalies et0 historical_normal = Ok v)
  /\ match historical_normal with
     | None =>
         detect_anomalies et0 historical_normal
         = Ok {| is_anomaly := false; z_score := None;
                 deviation_percent := None |}
     | Some normal =>
         let mean := default 0 (normal !! "mean") in
         let std := default 1 (normal !! "std_dev") in
         (normal = ∅ ->
            detect_anomalies et0 historical_normal
            = Ok {| is_anomaly := false; z_score := None;
                    deviation_percent := None |})
         /\ (normal <> ∅ -> (mean =? 0) = true \/ (std =? 0) = true ->
               detect_anomalies et0 historical_normal
               = Ok {| is_anomaly := false; z_score := Some 0;
                       deviation_percent := Some 0 |})
         /\ (normal <> ∅ -> (mean =? 0) = false -> (std =? 0) = false ->
               let z := (et0 - mean) / std in
               let deviation := (et0 - mean) / mean * 100 in
               detect_anomalies et0 historical_normal
               = Ok {| is_anomaly := 2.5 <? abs z;
                       z_score := Some (py_round z 2);
                       deviation_percent := Some (py_round deviation 1) |})
     end
  /\ detect_anomalies 4.2 (Some example_normal)
     = Ok {| is_anomaly := false; z_score := Some 0.67;
             deviation_percent := Some 10.5 |}
  /\ detect_anomalies 0.35 (Some borderline_normal)
     = Ok {| is_anomaly := true; z_score := Some (-2.5);
             deviation_percent := Some (-68.2) |}.
Proof.
  assert (forall normal : gmap string float,
             normal <> ∅ -> Nat.eqb (size normal) 0 = false) as Hsize.
  { intros normal Hne. apply Nat.eqb_neq. intros H.
    apply map_size_empty_iff in H. contradiction. }
  split; [| split; [| split; [vm_compute; reflexivity
                              | vm_compute; reflexivity]]].
  - destruct historical_normal as [normal |]; [| eexists; reflexivity].
    unfold detect_anomalies.
    destruct (Nat.eqb (size normal) 0); [eexists; reflexivity |].
    destruct (default 1 (normal !! "std_dev") =? 0) eqn:Hstd;
      cbn [orb]; [eexists; reflexivity |].
    destruct (default 0 (normal !! "mean") =? 0) eqn:Hmean;
      [eexists; reflexivity |].
    unfold div. rewrite Hstd, Hmean. cbn [mbind exc_bind mret exc_ret].
    eexists; reflexivity.
  - destruct historical_normal as [normal |]; [| reflexivity].
    cbv zeta. unfold detect_anomalies.
    split; [| split].
    + intros ->. reflexivity.
    + intros Hne Hzero. rewrite (Hsize _ Hne).
      destruct Hzero as [-> | ->]; [| reflexivity].
      now rewrite orb_true_r.
    + intros Hne Hmean Hstd. rewrite (Hsize _ Hne), Hmean, Hstd.
      cbn [orb]. unfold div. rewrite Hmean, Hstd. reflexivity.
Qed.

End Anomalies64.

(* ================================================================== *)
(** ** The summary of a series                                          *)
(* ================================================================== *)

Section Summary64.
Import Binary64 ETo64 Samples64.
Local Open Scope float_scope.



End Summary64.

(* ================================================================== *)
(** ** The Penman-Monteith calculation in double arithmetic             *)
(* ================================================================== *)

Section PenmanMonteith64.
Import Binary64 ETo64 Samples64.
Local Open Scope float_scope.

(** A solar radiation that is not a number passes the validation and
    makes the raw value a not-a-number: the result is zero, of low
    quality, without an error. *)
Example calculate_et0_not_a_number :
  _validate_measurements
    (<["ALLSKY_SFC_SW_DWN" := VFloat nan]> sample_measurements) = Ok true
  /\ (exists c,
        penman_monteith sample_libm
          (<["ALLSKY_SFC_SW_DWN" := VFloat nan]> sample_measurements)
        = Ok (nan, c))
  /\ calculate_et0 sample_libm
       (<["ALLSKY_SFC_SW_DWN" := VFloat nan]> sample_measurements) "pm"
     = {| et0_mm_day := 0; quality := "low"; method := "pm";
          comps := Some {| Ra := 35.26; Rn := nan; slope := 0.1735;
                           gamma := 0.0244; Vpd := 1.05 |};
          error := None |}.
Proof.
  split; [vm_compute; reflexivity |].
  split; [eexists; vm_compute; reflexivity | vm_compute; reflexivity].
Qed.


(** Validation returns [True] or raises. *)
Lemma validate_measurements_true (m : gmap string pyval) (b : bool) :
  _validate_measurements m = Ok b -> b = true.
Proof.
  unfold _validate_measurements, ETo.check. intros H.
  repeat match type of H with
    | context [num ?m ?k] =>
        destruct (num m k); cbn [mbind exc_bind mret exc_ret] in H;
        [| discriminate]
    | context [if ?c then _ else _] =>
        destruct c; cbn [mbind exc_bind mret exc_ret] in H; [| discriminate]
    end.
  now inversion H.
Qed.

(** The steps that raise, on the documented example with other mean
    temperatures and on the polar day: a division by zero at -273
    degrees, the overflow of [math.exp] at -240 degrees and of the power
    operator at 1e200 degrees, and the arc cosine out of its domain near
    the pole.  All four dictionaries pass the validation. *)
Example calculate_et0_degraded :
  let degraded msg :=
    {| et0_mm_day := 0; quality := "low"; method := "pm"; comps := None;
       error := Some msg |} in
  calculate_et0 sample_libm
    (<["T2M_MEAN" := VFloat (-273)]> sample_measurements) "pm"
  = degraded "float division by zero"
  /\ calculate_et0 sample_libm
       (<["T2M_MEAN" := VFloat (-240)]> sample_measurements) "pm"
     = degraded "math range error"
  /\ calculate_et0 sample_libm
       (<["T2M_MEAN" := VFloat 1e200]> sample_measurements) "pm"
     = degraded "(34, 'Numerical result out of range')"
  /\ calculate_et0 sample_libm polar_measurements "pm"
     = degraded "math domain error"
  /\ _validate_measurements
       (<["T2M_MEAN" := VFloat (-273)]> sample_measurements) = Ok true
  /\ _validate_measurements
       (<["T2M_MEAN" := VFloat (-240)]> sample_measurements) = Ok true
  /\ _validate_measurements
       (<["T2M_MEAN" := VFloat 1e200]> sample_measurements) = Ok true
  /\ _validate_measurements polar_measurements = Ok true.
Proof. cbv zeta. repeat split; vm_compute; reflexivity. Qed.

(** C1, as the code has it, in double arithmetic and for every C
    library, on a dictionary typed as annotated.  When the [try] block
    of [calculate_et0] completes with a raw value [ET0], the returned
    [et0_mm_day] is that value ([0] for a not-a-number) clamped to be
    at least zero and rounded to two decimals: it is zero when the raw
    value is negative or not a number; the quality is ["low"] exactly
    when the raw value compares below 0 or above 15 or is not a number,
    and ["high"] otherwise; the components are rounded and there is no
    error.  When a step of the block raises (the validation, a division
    by zero, a function of the C library out of its range or domain,
    the date), the function returns zero with quality ["low"], no
    component and the message of the exception. *)
Theorem calculate_et0_outcome (lm : libm) (m : gmap string pyval)
  (method : string) :
  well_typed m = true ->
  let r := calculate_et0 lm m method in
  match penman_monteith lm m with
  | Ok (ET0, c) =>
      _validate_measurements m = Ok true
      /\ et0_mm_day r = py_round (max0 (if is_nan ET0 then 0 else ET0)) 2
      /\ (is_nan ET0 = true -> et0_mm_day r = 0)
      /\ ((ET0 <? 0) = true -> et0_mm_day r = 0)
      /\ (quality r = "low" <->
            (ET0 <? 0) = true \/ (15 <? ET0) = true \/ is_nan ET0 = true)
      /\ (quality r = "high" <->
            (ET0 <? 0) = false /\ (15 <? ET0) = false /\ is_nan ET0 = false)
      /\ ETo64.method r = method
      /\ comps r = Some {| Ra := py_round (Ra c) 2; Rn := py_round (Rn c) 2;
                           slope := py_round (slope c) 4;
                           gamma := py_round (gamma c) 4;
                           Vpd := py_round (Vpd c) 2 |}
      /\ error r = None
  | Raise e =>
      r = {| et0_mm_day := 0; quality := "low"; method := method;
             comps := None; error := Some (exn_str e) |}
  end.
Proof.
  intros _. cbv zeta. unfold calculate_et0.
  destruct (penman_monteith lm m) as [[ET0 c] | e] eqn:Hpm; [| reflexivity].
  cbn [assess et0_mm_day quality error ETo64.method comps].
  assert ((if suspicious ET0 && is_nan ET0 then 0 else ET0)
          = (if is_nan ET0 then 0 else ET0)) as ->.
  { unfold suspicious. destruct (is_nan ET0); [| now rewrite andb_false_r].
    now rewrite orb_true_r. }
  split.
  { unfold penman_monteith in Hpm.
    destruct (_validate_measurements m) as [b |] eqn:Hval;
      [| discriminate].
    now rewrite (validate_measurements_true _ _ Hval). }
  split; [reflexivity |].
  split; [intros ->; reflexivity |].
  split.
  { intros Hneg. destruct (is_nan ET0); [reflexivity |].
    unfold max0. now rewrite (ltb_asym _ _ Hneg). }
  unfold suspicious.
  destruct (ET0 <? 0), (15 <? ET0), (is_nan ET0); cbn [orb];
    repeat split; intros; auto;
    repeat match goal with
      | H : _ \/ _ |- _ => destruct H
      | H : _ /\ _ |- _ => destruct H
      end; congruence.
Qed.

(** The documented example: the block completes, with a raw value
    between 0 and 15. *)
Lemma calculate_et0_outcome_witness :
  well_typed sample_measurements = true
  /\ calculate_et0 sample_libm sample_measurements "pm"
     = {| et0_mm_day := 4.82; quality := "high"; method := "pm";
          comps := Some {| Ra := 35.26; Rn := 12.15; slope := 0.1735;
                           gamma := 0.0244; Vpd := 1.05 |};
          error := None |}
  /\ let r := calculate_et0 sample_libm sample_measurements "pm" in
     match penman_monteith sample_libm sample_measurements with
     | Ok (ET0, c) =>
         _validate_measurements sample_measurements = Ok true
         /\ et0_mm_day r
            = py_round (max0 (if is_nan ET0 then 0 else ET0)) 2
         /\ (is_nan ET0 = true -> et0_mm_day r = 0)
         /\ ((ET0 <? 0) = true -> et0_mm_day r = 0)
         /\ (quality r = "low" <->
               (ET0 <? 0) = true \/ (15 <? ET0) = true
               \/ is_nan ET0 = true)
         /\ (quality r = "high" <->
               (ET0 <? 0) = false /\ (15 <? ET0) = false
               /\ is_nan ET0 = false)
         /\ ETo64.method r = "pm"
         /\ comps r
            = Some {| Ra := py_round (Ra c) 2; Rn := py_round (Rn c) 2;
                      slope := py_round (slope c) 4;
                      gamma := py_round (gamma c) 4;
                      Vpd := py_round (Vpd c) 2 |}
         /\ error r = None
     | Raise e =>
         r = {| et0_mm_day := 0; quality := "low"; method := "pm";
                comps := None; error := Some (exn_str e) |}
     end.
Proof.
  split; [reflexivity |].
  split; [vm_compute; reflexivity |].
  apply (calculate_et0_outcome sample_libm sample_measurements "pm").
  reflexivity.
Defined.

End PenmanMonteith64.

(* ================================================================== *)
(** * Further properties of the code                                   *)
(* ================================================================== *)

Section DayOfYear.
Import Calendar Format ETo.

Lemma digit_char_spec (k : Z) :
  0 <= k <= 9 ->
  is_digit (digit_char k) = true /\ digit (digit_char k) = k
  /\ Ascii.eqb (digit_char k) "-" = false
  /\ Ascii.eqb (digit_char k) " " = false.
Proof.
  intros H.
  assert (k = 0 \/ k = 1 \/ k = 2 \/ k = 3 \/ k = 4 \/ k = 5 \/ k = 6
          \/ k = 7 \/ k = 8 \/ k = 9) as Hk by lia.
  repeat (destruct Hk as [-> | Hk]; [repeat split |]).
  subst k. repeat split.
Qed.

Lemma parse_month_format (m : Z) :
  1 <= m <= 12 ->
  parse_month [digit_char (m / 10); digit_char (m mod 10)] = Some m.
Proof.
  intros H.
  assert (m = 1 \/ m = 2 \/ m = 3 \/ m = 4 \/ m = 5 \/ m = 6 \/ m = 7
          \/ m = 8 \/ m = 9 \/ m = 10 \/ m = 11 \/ m = 12) as Hm by lia.
  repeat (destruct Hm as [-> | Hm]; [reflexivity |]).
  subst m. reflexivity.
Qed.

Lemma days_in_month_le (y m : Z) : days_in_month y m <= 31.
Proof.
  unfold days_in_month. destruct (_ && _); [lia |].
  destruct m as [| p | p]; try lia.
  do 4 (destruct p as [p | p |]; try lia).
Qed.

Lemma parse_day_format (d : Z) :
  1 <= d <= 31 ->
  parse_day [digit_char (d / 10); digit_char (d mod 10)] = Some d.
Proof.
  intros H.
  assert (d = 1 \/ d = 2 \/ d = 3 \/ d = 4 \/ d = 5 \/ d = 6 \/ d = 7
          \/ d = 8 \/ d = 9 \/ d = 10 \/ d = 11 \/ d = 12 \/ d = 13
          \/ d = 14 \/ d = 15 \/ d = 16 \/ d = 17 \/ d = 18 \/ d = 19
          \/ d = 20 \/ d = 21 \/ d = 22 \/ d = 23 \/ d = 24 \/ d = 25
          \/ d = 26 \/ d = 27 \/ d = 28 \/ d = 29 \/ d = 30 \/ d = 31)
    as Hd by lia.
  repeat (destruct Hd as [-> | Hd]; [reflexivity |]).
  subst d. reflexivity.
Qed.

Lemma valid_ymd_bounds (y m d : Z) :
  valid_ymd y m d = true ->
  1 <= y <= 9999 /\ 1 <= m <= 12 /\ 1 <= d <= days_in_month y m.
Proof. unfold valid_ymd. lia. Qed.

Lemma tm_yday_bounds (y m d : Z) :
  valid_ymd y m d = true ->
  1 <= tm_yday (y, m, d) <= (if is_leap y then 366 else 365).
Proof.
  intros H. apply valid_ymd_bounds in H as (_ & Hm & Hd).
  unfold tm_yday, days_before_month. unfold days_in_month in Hd.
  assert (m = 1 \/ m = 2 \/ m = 3 \/ m = 4 \/ m = 5 \/ m = 6 \/ m = 7
          \/ m = 8 \/ m = 9 \/ m = 10 \/ m = 11 \/ m = 12) as Hcase by lia.
  destruct (is_leap y);
    repeat (destruct Hcase as [-> | Hcase]; [cbn in *; lia |]);
    subst m; cbn in *; lia.
Qed.

Lemma strptime_isoformat (y m d : Z) :
  valid_ymd y m d = true ->
  strptime_ymd (isoformat (y, m, d)) = Some (y, m, d).
Proof.
  intros H. pose proof (valid_ymd_bounds _ _ _ H) as (Hy & Hm & Hd).
  pose proof (days_in_month_le y m).
  unfold strptime_ymd, isoformat.
  rewrite list_ascii_of_string_of_list_ascii.
  destruct (digit_char_spec (y / 1000)) as (-> & -> & _);
    [Z.to_euclidean_division_equations; lia |].
  destruct (digit_char_spec (y / 100 mod 10)) as (-> & -> & _);
    [Z.to_euclidean_division_equations; lia |].
  destruct (digit_char_spec (y / 10 mod 10)) as (-> & -> & _);
    [Z.to_euclidean_division_equations; lia |].
  destruct (digit_char_spec (y mod 10)) as (-> & -> & _);
    [Z.to_euclidean_division_equations; lia |].
  cbn [andb Ascii.eqb]. 
  change (Ascii.eqb "-" "-") with true. cbn [andb].
  cbn [split_hyphen].
  destruct (digit_char_spec (m / 10)) as (_ & _ & -> & _);
    [Z.to_euclidean_division_equations; lia |].
  destruct (digit_char_spec (m mod 10)) as (_ & _ & -> & _);
    [Z.to_euclidean_division_equations; lia |].
  change (Ascii.eqb "-" "-") with true. cbn iota.
  rewrite parse_month_format, parse_day_format by lia.
  replace (1000 * (y / 1000) + 100 * (y / 100 mod 10)
           + 10 * (y / 10 mod 10) + y mod 10) with y
    by (Z.to_euclidean_division_equations; lia).
  rewrite H. reflexivity.
Qed.

(** X1. The date strings [process_location] builds with
    [str(idx.date())] are read back by [_day_of_year]: for every date
    that exists, [strptime] of its ISO form returns the date itself, so
    [_day_of_year] does not raise; the day it returns is the number of
    days since the first of January of that year, plus one, and lies
    between 1 and 365, or 366 in a leap year. *)
Theorem day_of_year_of_isoformat (y m d : Z) :
  valid_ymd y m d = true ->
  strptime_ymd (isoformat (y, m, d)) = Some (y, m, d)
  /\ _day_of_year (isoformat (y, m, d)) = Ok (tm_yday (y, m, d))
  /\ tm_yday (y, m, d) = ymd2ord y m d - ymd2ord y 1 1 + 1
  /\ 1 <= tm_yday (y, m, d) <= (if is_leap y then 366 else 365).
Proof.
  intros H. pose proof (strptime_isoformat y m d H) as Hparse.
  split; [assumption |]. split; [| split].
  - unfold _day_of_year. now rewrite Hparse.
  - unfold tm_yday, ymd2ord, days_before_month.
    change (2 <? 1) with false. cbn [andb]. lia.
  - now apply tm_yday_bounds.
Qed.

(** The documented example date. *)
Lemma day_of_year_of_isoformat_witness :
  valid_ymd 2024 9 15 = true
  /\ strptime_ymd (isoformat (2024, 9, 15)) = Some (2024, 9, 15)
  /\ _day_of_year (isoformat (2024, 9, 15)) = Ok (tm_yday (2024, 9, 15))
  /\ tm_yday (2024, 9, 15) = ymd2ord 2024 9 15 - ymd2ord 2024 1 1 + 1
  /\ 1 <= tm_yday (2024, 9, 15) <= (if is_leap 2024 then 366 else 365).
Proof.
  split; [reflexivity |].
  apply (day_of_year_of_isoformat 2024 9 15). reflexivity.
Defined.

(** The dates [strptime] returns exist. *)
Lemma strptime_ymd_valid (s : string) (y m d : Z) :
  strptime_ymd s = Some (y, m, d) -> valid_ymd y m d = true.
Proof.
  unfold strptime_ymd.
  destruct (list_ascii_of_string s) as [| y1 [| y2 [| y3 [| y4 [| sep rest]]]]];
    try discriminate.
  destruct (_ && _); [| discriminate].
  destruct (split_hyphen rest) as [[ms ds] |]; [| discriminate].
  destruct (parse_month ms) as [month |]; [| discriminate].
  destruct (parse_day ds) as [day |]; [| discriminate].
  destruct (valid_ymd _ month day) eqn:Hvalid; [| discriminate].
  intros H. inversion H; subst. exact Hvalid.
Qed.

(** X2. Whenever [_day_of_year] returns, the string was a date that
    exists and the result is the day's position in its year: between 1
    and 366, and at most 365 when the year is not a leap year. *)
Theorem day_of_year_range (date_str : string) (N : Z) :
  _day_of_year date_str = Ok N ->
  1 <= N <= 366
  /\ exists y m d,
      strptime_ymd date_str = Some (y, m, d)
      /\ N = ymd2ord y m d - ymd2ord y 1 1 + 1
      /\ (is_leap y = false -> N <= 365).
Proof.
  unfold _day_of_year.
  destruct (strptime_ymd date_str) as [[[y m] d] |] eqn:Hparse;
    [| discriminate].
  intros H. injection H as <-.
  pose proof (strptime_ymd_valid _ _ _ _ Hparse) as Hvalid.
  pose proof (tm_yday_bounds _ _ _ Hvalid) as Hb.
  change (tm_yday (y, m, d)) with (days_before_month y m + d) in Hb.
  split; [revert Hb; destruct (is_leap y); lia |].
  exists y, m, d. split; [reflexivity |]. split.
  - unfold ymd2ord, days_before_month at 3.
    change (2 <? 1) with false. cbn [andb]. lia.
  - intros Hleap. rewrite Hleap in Hb. lia.
Qed.

(** The last day of a leap year. *)
Lemma day_of_year_range_witness :
  _day_of_year "2024-12-31" = Ok 366
  /\ 1 <= 366 <= 366
  /\ exists y m d,
      strptime_ymd "2024-12-31" = Some (y, m, d)
      /\ 366 = ymd2ord y m d - ymd2ord y 1 1 + 1
      /\ (is_leap y = false -> 366 <= 365).
Proof.
  split; [reflexivity |].
  apply (day_of_year_range "2024-12-31" 366). reflexivity.
Defined.

End DayOfYear.

Section FAO56.
Import Calendar ETo Reference.
Local Open Scope R_scope.






Lemma filter_ext_In {A : Type} (P Q : A -> Prop)
  `{forall x, Decision (P x)} `{forall x, Decision (Q x)} (items : list A) :
  (forall x, In x items -> (P x <-> Q x)) ->
  filter P items = filter Q items.
Proof.
  induction items as [| x rest IH]; intros Hext; [reflexivity |].
  rewrite !filter_cons.
  rewrite IH by (intros y Hy; apply Hext; now right).
  destruct (decide (P x)) as [Hp | Hp], (decide (Q x)) as [Hq | Hq];
    try reflexivity; exfalso; apply (Hext x (or_introl eq_refl)) in Hp
    || (apply Hp, (Hext x (or_introl eq_refl))); tauto.
Qed.

(** Validation reads the presence of the required variables and the
    values of seven of them; any other entry may change. *)
Lemma validate_insert_unread (m : gmap string pyval) (k : string) (v : pyval) :
  ~ In k ["latitude"; "longitude"; "elevation_m"; "RH2M"; "WS2M"; "T2M_MAX";
          "T2M_MIN"] ->
  m !! k <> None \/ ~ In k required_vars ->
  _validate_measurements (<[k := v]> m) = _validate_measurements m.
Proof.
  intros Hk Hpresent.
  assert (filter (fun var => <[k := v]> m !! var = None) required_vars
          = filter (fun var => m !! var = None) required_vars) as Hmissing.
  { apply filter_ext_In. intros var Hvar.
    destruct (decide (k = var)) as [<- | Hne].
    - rewrite lookup_insert_eq. split; [discriminate |].
      intros Hnone. destruct Hpresent as [Hp | Hp]; contradiction.
    - now rewrite lookup_insert_ne. }
  unfold _validate_measurements, num. rewrite Hmissing.
  rewrite !lookup_insert_ne; [reflexivity | ..];
    intros ->; apply Hk; cbn; tauto.
Qed.

(** The computation reads ten entries; any other entry may change. *)
Lemma penman_monteith_insert_unread (m : gmap string pyval) (k : string)
  (v : pyval) :
  ~ In k ["latitude"; "longitude"; "elevation_m"; "RH2M"; "WS2M"; "T2M_MAX";
          "T2M_MIN"; "T2M_MEAN"; "ALLSKY_SFC_SW_DWN"; "date"] ->
  m !! k <> None \/ ~ In k required_vars ->
  penman_monteith (<[k := v]> m) = penman_monteith m.
Proof.
  intros Hk Hpresent. unfold penman_monteith.
  rewrite validate_insert_unread; [| cbn in *; tauto | assumption].
  rewrite !num_insert_ne, !str_insert_ne; [reflexivity | ..];
    intros ->; apply Hk; cbn; tauto.
Qed.

(** Validation reads the longitude only to compare it with its
    bounds. *)
Lemma validate_insert_longitude (m : gmap string pyval) (l0 l1 : R) :
  m !! "longitude" = Some (VFloat l0) ->
  -180 <= l0 <= 180 -> -180 <= l1 <= 180 ->
  _validate_measurements (<["longitude" := VFloat l1]> m)
  = _validate_measurements m.
Proof.
  intros Hm H0 H1.
  assert (filter (fun var => <["longitude" := VFloat l1]> m !! var = None)
            required_vars
          = filter (fun var => m !! var = None) required_vars) as Hmissing.
  { apply list_filter_iff. intros var.
    destruct (decide ("longitude" = var)) as [<- | Hne].
    - rewrite lookup_insert_eq, Hm. split; discriminate.
    - now rewrite lookup_insert_ne. }
  unfold _validate_measurements, num. rewrite Hmissing.
  rewrite lookup_insert_eq, Hm.
  rewrite !lookup_insert_ne by discriminate.
  destruct (bool_decide _); cbn [check mbind exc_bind mret exc_ret];
    [| reflexivity].
  destruct (m !! "latitude") as [[lat | ?] |];
    cbn [check mbind exc_bind mret exc_ret]; try reflexivity.
  destruct (Rleb (-90) lat && Rleb lat 90);
    cbn [check mbind exc_bind mret exc_ret]; [| reflexivity].
  rewrite (Rleb_true (-180) l1), (Rleb_true l1 180), (Rleb_true (-180) l0),
    (Rleb_true l0 180) by lra.
  reflexivity.
Qed.

(** X5. [calculate_et0] does not use the atmospheric pressure [PS],
    although its documentation lists it: adding or changing [PS] never
    changes the result.  The value of [PRECTOTCORR] is required to be
    present and is otherwise ignored, and the longitude only has to be
    in range: moving it within [-180, 180] leaves the result
    unchanged. *)
Theorem et0_ignores_unused_inputs :
  (forall (m : gmap string pyval) (v : pyval) (method : string),
      calculate_et0 (<["PS" := v]> m) method = calculate_et0 m method)
  /\ (forall (m : gmap string pyval) (v : pyval) (method : string),
         m !! "PRECTOTCORR" <> None ->
         calculate_et0 (<["PRECTOTCORR" := v]> m) method
         = calculate_et0 m method)
  /\ (forall (m : gmap string pyval) (l0 l1 : R) (method : string),
         m !! "longitude" = Some (VFloat l0) ->
         -180 <= l0 <= 180 -> -180 <= l1 <= 180 ->
         calculate_et0 (<["longitude" := VFloat l1]> m) method
         = calculate_et0 m method).
Proof.
  split; [| split].
  - intros m v method. unfold calculate_et0.
    rewrite penman_monteith_insert_unread; [reflexivity | |].
    + cbn. intros H; repeat destruct H as [H | H]; discriminate || tauto.
    + right. cbn. intros H; repeat destruct H as [H | H];
        discriminate || tauto.
  - intros m v method Hp. unfold calculate_et0.
    rewrite penman_monteith_insert_unread; [reflexivity | | now left].
    cbn. intros H; repeat destruct H as [H | H]; discriminate || tauto.
  - intros m l0 l1 method Hm H0 H1. unfold calculate_et0, penman_monteith.
    rewrite (validate_insert_longitude m l0 l1) by assumption.
    rewrite !num_insert_ne, !str_insert_ne by discriminate. reflexivity.
Qed.





End FAO56.

Section Recomendations.
Import ETo Pipeline Reference.
Local Open Scope R_scope.



End Recomendations.

Section Timestamps.
Import Calendar.

Lemma ns_per_day_pos : 0 < ns_per_day.
Proof. reflexivity. Qed.

Lemma midnight_ltb (a b : Z) : (midnight a <? midnight b) = (a <? b).
Proof.
  unfold midnight. pose proof ns_per_day_pos.
  destruct (a <? b) eqn:H1; [apply Z.ltb_lt | apply Z.ltb_ge];
    [apply Z.ltb_lt in H1 | apply Z.ltb_ge in H1]; nia.
Qed.

Lemma midnight_plus_days (d n : Z) : midnight d + days n = midnight (d + n).
Proof. unfold midnight, days. lia. Qed.

Lemma midnight_minus_days (d n : Z) : midnight d - days n = midnight (d - n).
Proof. unfold midnight, days. lia. Qed.

Lemma date_of_midnight (d : Z) : date_of (midnight d) = d.
Proof. unfold date_of, midnight. apply Z.div_mul. discriminate. Qed.

Lemma timedelta_days_midnight (s e : Z) :
  timedelta_days (midnight e - midnight s) = e - s.
Proof.
  unfold timedelta_days, midnight.
  replace (e * ns_per_day - s * ns_per_day) with ((e - s) * ns_per_day)
    by lia.
  apply Z.div_mul. discriminate.
Qed.

End Timestamps.

Section PeriodRules.
Import Calendar PyStr Download Rules.

(** The period checks on two dates given without a time of day, as a
    decision on the dates. *)
Lemma validate_period_cases (today s e : Z) :
  s <= e ->
  validate_period (midnight today) (midnight s) (midnight e) (e - s + 1)
    (classify_request_type today (PTimestamp (midnight s))
       (PTimestamp (midnight e)))
  = if today <? e then
      if today + 5 <? e
      then Raise (ValueError
                    "Dados forecast: período máximo até hoje + 5 dias")
      else if s <? today - 25
           then Raise (ValueError
                    "Dados forecast: data inicial deve ser >= hoje - 25 dias")
           else Ok ()
    else if s <=? today - 30 then
      if e - s + 1 <=? 90 then Ok ()
      else Raise (ValueError "Dados históricos: período entre 1 e 90 dias")
    else
      if 7 <=? e - s + 1 then Ok ()
      else Raise (ValueError "Dados atuais: período entre 7 e 30 dias").
Proof.
  intros Hse. unfold classify_request_type, to_date.
  rewrite !date_of_midnight.
  destruct (today <? e) eqn:Hf.
  - unfold validate_period.
    cbn [String.eqb Ascii.eqb Bool.eqb orb andb mbind exc_bind mret exc_ret].
    rewrite midnight_plus_days, midnight_minus_days, !midnight_ltb.
    reflexivity.
  - apply Z.ltb_ge in Hf.
    destruct (s <=? today - 30) eqn:Hh;
      [apply Z.leb_le in Hh | apply Z.leb_gt in Hh]; unfold validate_period;
      cbn [String.eqb Ascii.eqb Bool.eqb orb andb mbind exc_bind mret
           exc_ret];
      rewrite midnight_ltb;
      replace (today <? s) with false by (symmetry; apply Z.ltb_ge; lia);
      cbn [mbind exc_bind mret exc_ret].
    + replace (1 <=? e - s + 1) with true by (symmetry; apply Z.leb_le; lia).
      destruct (e - s + 1 <=? 90); reflexivity.
    + replace (e - s + 1 <=? 30) with true
        by (symmetry; apply Z.leb_le; lia).
      rewrite andb_true_r.
      destruct (7 <=? e - s + 1); reflexivity.
Qed.

(** The period checks pass exactly on the accepted dates. *)
Lemma validate_period_dates (today s e : Z) :
  s <= e ->
  validate_period (midnight today) (midnight s) (midnight e) (e - s + 1)
    (classify_request_type today (PTimestamp (midnight s))
       (PTimestamp (midnight e))) = Ok ()
  <-> accepted_dates today s e.
Proof.
  intros Hse. rewrite validate_period_cases by assumption.
  unfold accepted_dates.
  destruct (today <? e) eqn:Hf;
    [apply Z.ltb_lt in Hf | apply Z.ltb_ge in Hf].
  - destruct (today + 5 <? e) eqn:H5;
      [apply Z.ltb_lt in H5 | apply Z.ltb_ge in H5].
    { split; [discriminate | lia]. }
    destruct (s <? today - 25) eqn:H25;
      [apply Z.ltb_lt in H25 | apply Z.ltb_ge in H25].
    { split; [discriminate | lia]. }
    split; [lia | reflexivity].
  - destruct (s <=? today - 30) eqn:Hh;
      [apply Z.leb_le in Hh | apply Z.leb_gt in Hh].
    + destruct (e - s + 1 <=? 90) eqn:H90;
        [apply Z.leb_le in H90 | apply Z.leb_gt in H90].
      * split; [lia | reflexivity].
      * split; [discriminate | lia].
    + destruct (7 <=? e - s + 1) eqn:H7;
        [apply Z.leb_le in H7 | apply Z.leb_gt in H7].
      * split; [lia | reflexivity].
      * split; [discriminate | lia].
Qed.

(** The first part of [download_weather_data] on valid coordinates and
    two dates: the date checks, then the choice of the sources. *)
Lemma prepare_dates (w : world) (data_source : data_source_arg)
  (data_inicial data_final : string) (longitude latitude : R) (s e : Z) :
  to_datetime w data_inicial = Some (midnight s) ->
  to_datetime w data_final = Some (midnight e) ->
  (-90 <= latitude <= 90)%R -> (-180 <= longitude <= 180)%R ->
  prepare w data_source data_inicial data_final longitude latitude
  = if e <? s
    then Raise (ValueError "A data final deve ser posterior à data inicial")
    else
      let request_type :=
        classify_request_type (now_date w) (PTimestamp (midnight s))
          (PTimestamp (midnight e)) in
      _ ← validate_period (midnight (now_date w)) (midnight s) (midnight e)
            (e - s + 1) request_type;
      let available_source_ids :=
        map fst (filter (fun p => p.2 = true)
                   (available_sources_for_location w latitude longitude)) in
      _ ← validate_requested available_source_ids (requested_of data_source);
      sources ← select_sources request_type available_source_ids
                  (requested_of data_source);
      mret {| rq_inicial := midnight s; rq_final := midnight e;
              rq_period_days := e - s + 1;
              rq_current_date := midnight (now_date w);
              rq_request_type := request_type; rq_sources := sources |}.
Proof.
  intros Ha Hb Hlat Hlon. unfold prepare.
  rewrite !Rleb_true by lra. cbn [andb negb mbind exc_bind mret exc_ret].
  rewrite Ha, Hb. cbn [mbind exc_bind mret exc_ret].
  rewrite midnight_ltb, timedelta_days_midnight.
  destruct (e <? s) eqn:Hes; [reflexivity |]. apply Z.ltb_ge in Hes.
  cbn [mbind exc_bind mret exc_ret].
  replace (e - s + 1 <? 1) with false by (symmetry; apply Z.ltb_ge; lia).
  reflexivity.
Qed.

(** A download whose dates are not accepted raises one of the
    messages of the date checks. *)
Lemma download_rejects_dates
  (w : world) (data_source : data_source_arg)
  (data_inicial data_final : string) (longitude latitude : R) (s e : Z) :
  to_datetime w data_inicial = Some (midnight s) ->
  to_datetime w data_final = Some (midnight e) ->
  (-90 <= latitude <= 90)%R -> (-180 <= longitude <= 180)%R ->
  ~ (s <= e /\ accepted_dates (now_date w) s e) ->
  exists msg,
    In msg date_messages
    /\ download_weather_data w data_source data_inicial data_final
         longitude latitude = Raise (ValueError msg).
Proof.
  intros Ha Hb Hlat Hlon Hno. unfold download_weather_data.
  rewrite (prepare_dates w data_source data_inicial data_final longitude
             latitude s e Ha Hb Hlat Hlon).
  destruct (e <? s) eqn:Hes.
  { eexists. split; [| reflexivity]. cbn. auto. }
  apply Z.ltb_ge in Hes.
  assert (~ accepted_dates (now_date w) s e) as Hrej by tauto.
  rewrite <- validate_period_dates in Hrej by assumption.
  cbv zeta. rewrite validate_period_cases in * by assumption.
  repeat match goal with
         | |- context [if ?c then _ else _] => destruct c
         end;
    first [ congruence
          | eexists; split; [| reflexivity]; cbn; auto 10 ].
Qed.

End PeriodRules.

Section DateChecksExact.
Import Calendar PyStr Download Rules DateChecks.

(** The verdict is [None] exactly on the accepted dates, and otherwise
    one of the five messages. *)
Lemma date_verdict_cases (today s e : Z) :
  match date_verdict today s e with
  | None => s <= e /\ accepted_dates today s e
  | Some msg => In msg date_messages
                /\ ~ (s <= e /\ accepted_dates today s e)
  end.
Proof.
  unfold date_verdict, accepted_dates, date_messages.
  destruct (Z.ltb_spec e s); [split; [cbn; auto | lia] |].
  destruct (Z.ltb_spec today e).
  - destruct (Z.ltb_spec (today + 5) e); [split; [cbn; auto 10 | lia] |].
    destruct (Z.ltb_spec s (today - 25)); [split; [cbn; auto 10 | lia] |].
    lia.
  - destruct (Z.leb_spec s (today - 30)).
    + destruct (Z.leb_spec (e - s + 1) 90); [lia |].
      split; [cbn; auto 10 | lia].
    + destruct (Z.leb_spec 7 (e - s + 1)); [lia |].
      split; [cbn; auto 10 | lia].
Qed.

(** X8. For valid coordinates and two dates given without a time of
    day, the first part of [download_weather_data] is decided by the
    dates alone.  On the accepted dates (start not after end and either
    a historical request, starting at least 30 days back, of at most 90
    days, or a recent request of at least 7 days, or a request ending
    in the future, at most 5 days ahead, that starts at most 25 days
    back) every date check passes and the function goes on to choose
    the sources, for a request that carries the two midnights, the
    number of days counting both ends and the type
    [classify_request_type] gives the two dates.  On every other pair
    of dates it raises a [ValueError] with the message of the first
    check that fails, one of five; the messages "O período deve ter
    pelo menos 1 dia" and "A data inicial não pode ser futura" of the
    code are not among them: no pair of dates reaches them.  A download
    that returns was given accepted dates. *)
Theorem download_date_checks_exact
  (w : world) (data_source : data_source_arg)
  (data_inicial data_final : string) (longitude latitude : R) (s e : Z) :
  to_datetime w data_inicial = Some (midnight s) ->
  to_datetime w data_final = Some (midnight e) ->
  (-90 <= latitude <= 90)%R -> (-180 <= longitude <= 180)%R ->
  let today := now_date w in
  let prepared := prepare w data_source data_inicial data_final longitude
                    latitude in
  let result := download_weather_data w data_source data_inicial data_final
                  longitude latitude in
  prepared
  = match date_verdict today s e with
    | Some msg => Raise (ValueError msg)
    | None => choose_sources w data_source longitude latitude s e
    end
  /\ (s <= e /\ accepted_dates today s e ->
        date_verdict today s e = None
        /\ prepared = choose_sources w data_source longitude latitude s e)
  /\ (~ (s <= e /\ accepted_dates today s e) ->
        exists msg,
          date_verdict today s e = Some msg /\ In msg date_messages
          /\ prepared = Raise (ValueError msg)
          /\ result = Raise (ValueError msg))
  /\ ((exists data warnings, result = Ok (data, warnings)) ->
        s <= e /\ accepted_dates today s e).
Proof.
  intros Ha Hb Hlat Hlon today prepared result.
  assert (prepared
          = match date_verdict today s e with
            | Some msg => Raise (ValueError msg)
            | None => choose_sources w data_source longitude latitude s e
            end) as Heq.
  { unfold prepared.
    rewrite (prepare_dates w data_source data_inicial data_final longitude
               latitude s e Ha Hb Hlat Hlon).
    unfold date_verdict. fold today.
    destruct (Z.ltb_spec e s) as [Hes | Hse]; [reflexivity |].
    cbv zeta. rewrite validate_period_cases by assumption. fold today.
    assert (classify_request_type today (PTimestamp (midnight s))
              (PTimestamp (midnight e))
            = classify_request_type today (PDate s) (PDate e)) as Hty
      by (unfold classify_request_type, to_date;
          now rewrite !date_of_midnight).
    unfold choose_sources. fold today. rewrite Hty.
    destruct (today <? e).
    - destruct (today + 5 <? e); [reflexivity |].
      destruct (s <? today - 25); reflexivity.
    - destruct (s <=? today - 30).
      + destruct (e - s + 1 <=? 90); reflexivity.
      + destruct (7 <=? e - s + 1); reflexivity. }
  pose proof (date_verdict_cases today s e) as Hcases.
  split; [exact Heq |]. split; [| split].
  - intros Hacc. destruct (date_verdict today s e) as [msg |].
    + destruct Hcases as [_ Hno]. contradiction.
    + split; [reflexivity | exact Heq].
  - intros Hno. destruct (date_verdict today s e) as [msg |].
    + destruct Hcases as [Hin _]. exists msg.
      split; [reflexivity |]. split; [assumption |]. split; [exact Heq |].
      unfold result, download_weather_data. fold prepared. now rewrite Heq.
    + contradiction.
  - intros (data & warnings & Hok).
    destruct (date_verdict today s e) as [msg |]; [| exact Hcases].
    unfold result, download_weather_data in Hok. fold prepared in Hok.
    rewrite Heq in Hok. discriminate.
Qed.

(** A NASA POWER request of nine days seen from 2024-06-15 that ends
    three days ahead. *)
Lemma download_date_checks_exact_witness :
  let w := Reference.sample_world [("nasa_power", true)] in
  let s := ymd2ord 2024 6 10 in
  let e := ymd2ord 2024 6 18 in
  let today := now_date w in
  let prepared := prepare w (SourceStr "nasa_power") "2024-06-10"
                    "2024-06-18" (-48) (-15.7975) in
  let result := download_weather_data w (SourceStr "nasa_power")
                  "2024-06-10" "2024-06-18" (-48) (-15.7975) in
  prepared
  = match date_verdict today s e with
    | Some msg => Raise (ValueError msg)
    | None => choose_sources w (SourceStr "nasa_power") (-48) (-15.7975) s e
    end
  /\ (s <= e /\ accepted_dates today s e ->
        date_verdict today s e = None
        /\ prepared
           = choose_sources w (SourceStr "nasa_power") (-48) (-15.7975) s e)
  /\ (~ (s <= e /\ accepted_dates today s e) ->
        exists msg,
          date_verdict today s e = Some msg /\ In msg date_messages
          /\ prepared = Raise (ValueError msg)
          /\ result = Raise (ValueError msg))
  /\ ((exists data warnings, result = Ok (data, warnings)) ->
        s <= e /\ accepted_dates today s e).
Proof.
  apply (download_date_checks_exact
           (Reference.sample_world [("nasa_power", true)])
           (SourceStr "nasa_power") "2024-06-10" "2024-06-18" (-48)
           (-15.7975) (ymd2ord 2024 6 10) (ymd2ord 2024 6 18));
    first [reflexivity | lra].
Defined.

End DateChecksExact.

Section WindowsAgree.
Import Calendar Availability PyStr Download Reference.

Lemma assoc_In {A : Type} (name : string) (d : list (string * A)) (v : A) :
  assoc name d = Some v -> In (name, v) d.
Proof.
  induction d as [| [k x] rest IH]; cbn [assoc]; [discriminate |].
  destruct (String.eqb_spec k name) as [-> | Hne].
  - intros H. inversion H. now left.
  - intros H. right. now apply IH.
Qed.

(** X9. The per-source date checks of [download_weather_data] against
    the windows of [API_LIMITS]: for every source but
    [openmeteo_forecast], a period inside the catalog's window passes
    the download's check; for the sources that are not historical, a
    period the download accepts lies inside the catalog's window; and
    for [met_norway], [nws_forecast] and [nws_stations] the two agree
    exactly, the download accepting without adding a warning. *)
Theorem download_window_vs_catalog
  (today s e : Z) (source : string) (limits : api_limits)
  (warnings : list warning) :
  assoc source API_LIMITS = Some limits ->
  let in_window :=
    exists lo hi,
      resolved_window today limits = Some (lo, hi) /\ lo <= s /\ e <= hi in
  let accepted :=
    exists warnings',
      validate_source (midnight today) (midnight s) (midnight e) source
        warnings = Ok warnings' in
  (source <> "openmeteo_forecast" -> in_window -> accepted)
  /\ (l_type limits <> "historical" -> accepted -> in_window)
  /\ (In source ["met_norway"; "nws_forecast"; "nws_stations"] ->
      (in_window <->
       validate_source (midnight today) (midnight s) (midnight e) source
         warnings = Ok warnings)).
Proof.
  intros Hassoc. apply assoc_In in Hassoc. cbv zeta.
  unfold API_LIMITS in Hassoc. cbn [In] in Hassoc.
  repeat (destruct Hassoc as [Hassoc | Hassoc];
          [inversion Hassoc; subst source limits; clear Hassoc |]);
    [.. | contradiction];
    unfold validate_source;
    cbn [String.eqb Ascii.eqb Bool.eqb resolved_window l_type l_start_date
         l_start_date_offset l_end_date_offset historical_limits
         rolling_limits In];
    rewrite ?midnight_plus_days, ?midnight_minus_days, ?midnight_ltb;
    repeat match goal with
           | |- context [?a <? ?b] => destruct (Z.ltb_spec a b)
           end;
    (split; [| split]).
  all: try (intros Hne (lo & hi & Heq & Hlo & Hhi); inversion Heq;
            subst lo hi;
            first [ now (exfalso; apply Hne)
                  | eexists; reflexivity
                  | exfalso; lia ]).
  all: try (intros Hne [warnings' Hw];
            first [ now (exfalso; apply Hne)
                  | discriminate Hw
                  | eexists _, _; split; [reflexivity | lia] ]).
  all: intros Hsrc;
    first [ destruct Hsrc as [Hsrc | [Hsrc | [Hsrc | []]]]; discriminate Hsrc
          | split;
            [ intros (lo & hi & Heq & Hlo & Hhi); inversion Heq; subst lo hi;
              first [reflexivity | exfalso; lia]
            | intros Hw;
              first [ discriminate Hw
                    | eexists _, _; split; [reflexivity | lia] ] ] ].
Qed.

(** MET Norway seen from 2024-06-15, for the three days that follow. *)
Lemma download_window_vs_catalog_witness :
  let today := today0 in
  let s := today0 in
  let e := today0 + 3 in
  let source := "met_norway" in
  let limits := rolling_limits "forecast" 0 5 "global" true in
  let warnings := [] : list warning in
  assoc source API_LIMITS = Some limits
  /\ let in_window :=
       exists lo hi,
         resolved_window today limits = Some (lo, hi) /\ lo <= s /\ e <= hi in
     let accepted :=
       exists warnings',
         validate_source (midnight today) (midnight s) (midnight e) source
           warnings = Ok warnings' in
     (source <> "openmeteo_forecast" -> in_window -> accepted)
     /\ (l_type limits <> "historical" -> accepted -> in_window)
     /\ (In source ["met_norway"; "nws_forecast"; "nws_stations"] ->
         (in_window <->
          validate_source (midnight today) (midnight s) (midnight e) source
            warnings = Ok warnings)).
Proof.
  cbv zeta. split; [reflexivity |].
  apply (download_window_vs_catalog today0 today0 (today0 + 3) "met_norway"
           (rolling_limits "forecast" 0 5 "global" true) []).
  reflexivity.
Defined.

End WindowsAgree.

Section QueriedSources.
Import Calendar PyStr Download Reference Frames.

Lemma filter_id_Forall {A : Type} (P : A -> Prop)
  `{forall x, Decision (P x)} (items : list A) :
  Forall P items -> filter P items = items.
Proof.
  induction 1 as [| x rest Hx _ IH]; [reflexivity |].
  rewrite filter_cons, decide_True by assumption. now rewrite IH.
Qed.

Lemma possible_sources_providers (request_type src : string) :
  In src (possible_sources request_type) -> In src provider_names.
Proof.
  unfold possible_sources, provider_names.
  destruct (String.eqb request_type "historical");
    [| destruct (String.eqb request_type "current")];
    cbn [In]; intuition.
Qed.

(** X10. The sources the loop of [download_weather_data] queries: each
    is one of the six providers and is available at the location.
    Without "data fusion" in the request they are the requested
    sources, in order; with it they are a non-empty selection of the
    sources possible for the request type, which for a historical
    request are NASA POWER and the Open-Meteo archive only. *)
Theorem queried_sources
  (w : world) (data_source : data_source_arg)
  (data_inicial data_final : string) (longitude latitude : R)
  (rq : request) :
  prepare w data_source data_inicial data_final longitude latitude = Ok rq ->
  let avail := map fst (filter (fun p => p.2 = true)
                          (available_sources_for_location w latitude
                             longitude)) in
  let requested := requested_of data_source in
  Forall (fun src => In src provider_names /\ In src avail) (rq_sources rq)
  /\ (~ In "data fusion" requested -> rq_sources rq = requested)
  /\ (In "data fusion" requested ->
        rq_sources rq <> []
        /\ Forall (fun src => In src (possible_sources (rq_request_type rq)))
             (rq_sources rq)
        /\ (rq_request_type rq = "historical" ->
              Forall (fun src => In src ["nasa_power"; "openmeteo_archive"])
                (rq_sources rq))).
Proof.
  intros Hrq. apply prepare_inv in Hrq as (_ & _ & _ & _ & _ & _ & Hreq & Hsel).
  cbv zeta.
  set (avail := map fst _) in *. set (requested := requested_of _) in *.
  pose proof (validate_requested_ok _ _ Hreq) as Hvalid.
  unfold select_sources in Hsel.
  destruct (mem "data fusion" requested) eqn:Hfusion.
  - assert (In "data fusion" requested) as Hin by now apply mem_In.
    set (sources := filter _ (possible_sources (rq_request_type rq))) in Hsel.
    assert (Forall (fun src => In src (possible_sources (rq_request_type rq))
                               /\ mem src avail = true) sources) as Hall
      by apply filter_sublist_props.
    destruct sources as [| s0 rest] eqn:Hs; [discriminate |].
    inversion Hsel as [Heq]. clear Hsel.
    split; [| split; [intros Hnot; contradiction |]].
    + eapply Forall_impl; [exact Hall |]. intros src [Hp Hm].
      split; [now apply possible_sources_providers in Hp | now apply mem_In].
    + intros _. split; [discriminate |]. split.
      * eapply Forall_impl; [exact Hall |]. now intros src [Hp _].
      * intros Htype. rewrite Htype in Hall.
        eapply Forall_impl; [exact Hall |]. now intros src [Hp _].
  - assert (~ In "data fusion" requested) as Hnot.
    { intros Hin. apply mem_In in Hin. congruence. }
    assert (Forall (fun req => mem req avail = true) requested) as Hall.
    { apply Forall_forall. intros req Hin%list_elem_of_In.
      apply Hvalid; [assumption |]. intros ->. contradiction. }
    rewrite filter_id_Forall in Hsel by assumption.
    inversion Hsel as [Heq].
    split; [| split; [reflexivity | contradiction]].
    apply Forall_forall. intros req Hin%list_elem_of_In.
    destruct (Hvalid req Hin) as [Hv Ha].
    split.
    + apply mem_In in Hv. unfold valid_sources in Hv. unfold provider_names.
      cbn [In] in *.
      assert (req <> "data fusion") by (intros ->; contradiction).
      intuition.
    + apply mem_In, Ha. intros ->. contradiction.
Qed.

(** The sample request for NASA POWER that ends three days ahead. *)
Lemma queried_sources_witness :
  let w := sample_world [("nasa_power", true)] in
  let rq := {| rq_inicial := midnight (ymd2ord 2024 6 10);
               rq_final := midnight (today0 + 3);
               rq_period_days := 9;
               rq_current_date := midnight today0;
               rq_request_type := "forecast";
               rq_sources := ["nasa_power"] |} in
  prepare w (SourceStr "nasa_power") "2024-06-10" "2024-06-18" (-48)
    (-15.7975) = Ok rq
  /\ let avail := map fst (filter (fun p => p.2 = true)
                             (available_sources_for_location w (-15.7975)
                                (-48))) in
     let requested := requested_of (SourceStr "nasa_power") in
     Forall (fun src => In src provider_names /\ In src avail)
       (rq_sources rq)
     /\ (~ In "data fusion" requested -> rq_sources rq = requested)
     /\ (In "data fusion" requested ->
           rq_sources rq <> []
           /\ Forall (fun src =>
                        In src (possible_sources (rq_request_type rq)))
                (rq_sources rq)
           /\ (rq_request_type rq = "historical" ->
                 Forall (fun src =>
                           In src ["nasa_power"; "openmeteo_archive"])
                   (rq_sources rq))).
Proof.
  assert (prepare (sample_world [("nasa_power", true)])
            (SourceStr "nasa_power") "2024-06-10" "2024-06-18" (-48)
            (-15.7975)
          = Ok {| rq_inicial := midnight (ymd2ord 2024 6 10);
                  rq_final := midnight (today0 + 3);
                  rq_period_days := 9;
                  rq_current_date := midnight today0;
                  rq_request_type := "forecast";
                  rq_sources := ["nasa_power"] |}) as Hrq
    by (unfold prepare; rewrite !Rleb_true by lra; reflexivity).
  cbv zeta. split; [exact Hrq |].
  exact (queried_sources _ _ _ _ _ _ _ Hrq).
Defined.

End QueriedSources.

Section Consolidation.
Import Calendar PyStr Download Reference Frames.

Lemma drop_duplicated_spec (df : DataFrame) :
  forall seen,
    let out := drop_duplicated seen df in
    NoDup (map r_date out)
    /\ (forall r, In r out -> ~ In (r_date r) seen)
    /\ sublist out df
    /\ (forall d, first_of_date d out
                  = if existsb (Z.eqb d) seen then None
                    else first_of_date d df).
Proof.
  induction df as [| r rest IH]; intros seen; cbv zeta.
  - cbn. split; [constructor |]. split; [intros ? [] |].
    split; [constructor |]. intros d. now destruct (existsb _ seen).
  - cbn [drop_duplicated].
    destruct (existsb (Z.eqb (r_date r)) seen) eqn:Hseen.
    + destruct (IH seen) as (Hnd & Hnot & Hsub & Hfind).
      split; [assumption |]. split; [assumption |].
      split; [now apply sublist_cons |].
      intros d. rewrite Hfind. unfold first_of_date. cbn [find].
      destruct (Z.eqb_spec (r_date r) d) as [<- | Hne]; [| reflexivity].
      rewrite Hseen. reflexivity.
    + destruct (IH (r_date r :: seen)) as (Hnd & Hnot & Hsub & Hfind).
      assert (~ In (r_date r) seen) as Hfresh.
      { intros Hin. apply not_true_iff_false in Hseen. apply Hseen.
        apply existsb_exists. exists (r_date r).
        split; [assumption | apply Z.eqb_refl]. }
      split; [| split; [| split]].
      * cbn [map]. constructor; [| assumption].
        intros Hin%list_elem_of_In. apply in_map_iff in Hin as (r' & Heq & Hin).
        apply (Hnot r' Hin). left. now symmetry.
      * intros r' [<- | Hin]; [assumption |].
        intros Hs. apply (Hnot r' Hin). now right.
      * now apply sublist_skip.
      * intros d. unfold first_of_date in *. cbn [find].
        destruct (Z.eqb_spec (r_date r) d) as [<- | Hne].
        -- rewrite Hseen. reflexivity.
        -- rewrite Hfind. cbn [existsb].
           destruct (Z.eqb_spec d (r_date r)); [congruence | reflexivity].
Qed.

Lemma drop_duplicated_In (df : DataFrame) (seen : list Z) (r : row) :
  In r (drop_duplicated seen df) -> In r df.
Proof.
  revert seen. induction df as [| r0 rest IH]; intros seen; [intros [] |].
  cbn [drop_duplicated]. destruct (existsb _ seen).
  - intros H. right. now apply IH in H.
  - intros [<- | H]; [now left | right; now apply IH in H].
Qed.

(** X11. The consolidation at the end of [download_weather_data] raises
    "Nenhuma fonte forneceu dados válidos" exactly when no source gave
    a frame, returns a single frame as it is, and for two or more
    frames returns their rows in order with one row per date: the
    first row of that date in the concatenation. *)
Theorem consolidate_keeps_first_rows (frames : list DataFrame) :
  match consolidate frames with
  | Raise e =>
      frames = [] /\ e = ValueError "Nenhuma fonte forneceu dados válidos"
  | Ok data =>
      frames <> []
      /\ (forall df, frames = [df] -> data = df)
      /\ ((2 <= length frames)%nat ->
            NoDup (map r_date data)
            /\ sublist data (concat frames)
            /\ forall d, first_of_date d data
                         = first_of_date d (concat frames))
  end.
Proof.
  destruct frames as [| df [| df' rest]]; cbn [consolidate].
  - split; reflexivity.
  - cbn [mret exc_ret]. split; [discriminate |].
    split; [intros ? H; now inversion H | cbn; lia].
  - cbn [mret exc_ret]. split; [discriminate |].
    split; [intros ? H; discriminate H |]. intros _.
    destruct (drop_duplicated_spec (concat (df :: df' :: rest)) [])
      as (Hnd & _ & Hsub & Hfind).
    split; [assumption |]. split; [assumption |].
    intros d. now rewrite Hfind.
Qed.

End Consolidation.

Section CleanFrames.
Import Calendar PyStr Download Reference Frames.

Lemma clean_frame_rows (df : DataFrame) :
  clean_frame df <->
  forall r, In r df ->
    Forall (fun p : string * option R => p.2 <> Some (-999)%R) (r_cells r)
    /\ exists name x, cell r name = Some x.
Proof.
  unfold clean_frame, no_sentinel. rewrite !Forall_forall. split.
  - intros [H1 H2] r Hin%list_elem_of_In. auto.
  - intros H. split; intros r Hin%list_elem_of_In; now apply H.
Qed.

(** A fetched frame is clean once the missing-value code is replaced
    and the rows without a value are dropped. *)
Lemma inspected_frame_clean (df : DataFrame) :
  clean_frame (dropna_all (replace_sentinel df)).
Proof.
  apply clean_frame_rows. intros r Hin. unfold dropna_all in Hin.
  apply list_elem_of_In, list_elem_of_filter in Hin as [Hsome Hin].
  split.
  - apply list_elem_of_In in Hin. unfold replace_sentinel in Hin.
    apply in_map_iff in Hin as (r0 & <- & _). cbn [r_cells].
    apply Forall_forall. intros p Hp%list_elem_of_In.
    apply in_map_iff in Hp as ([name c] & <- & _). cbn.
    destruct c as [x |]; [| discriminate].
    destruct (Reqb x (-999)) eqn:Hx; [discriminate |].
    intros Heq. inversion Heq. subst x.
    rewrite Reqb_true in Hx by reflexivity. discriminate.
  - apply existsb_exists in Hsome as (name & _ & Hname).
    apply bool_decide_eq_true in Hname as [x Hx]. eauto.
Qed.

(** Every frame a completed loop has added is clean. *)
Lemma process_sources_frames (w : world) (lat lon : R)
  (current_date a b period_days : Z) (sources : list string) :
  forall warnings frames warnings' frames',
    process_sources w lat lon current_date a b period_days sources
      (warnings, frames) = Ok (warnings', frames') ->
    exists new, frames' = frames ++ new /\ Forall clean_frame new.
Proof.
  induction sources as [| s rest IH]; intros warnings frames warnings' frames' H.
  - inversion H; subst. exists []. now rewrite app_nil_r.
  - cbn [process_sources] in H.
    pose proof (process_source_cases w lat lon current_date a b period_days s
                  warnings frames) as Hcase.
    destruct (validate_source current_date a b s warnings) as [ws1 | e].
    2: { rewrite Hcase in H. discriminate. }
    destruct Hcase as [extra1 Hcase].
    destruct (fetched_frame w lat lon current_date a b s) as [df |].
    + rewrite Hcase in H. cbn [mbind exc_bind] in H.
      destruct (IH _ _ _ _ H) as (new & -> & Hnew).
      exists (dropna_all (replace_sentinel df) :: new).
      rewrite <- app_assoc. split; [reflexivity |].
      constructor; [apply inspected_frame_clean | assumption].
    + destruct Hcase as [Hcase _].
      rewrite Hcase in H. cbn [mbind exc_bind] in H.
      destruct (IH _ _ _ _ H) as (new & -> & Hnew). eauto.
Qed.

(** X12. The frame a successful [download_weather_data] returns is
    clean: no cell holds the missing-value code -999 and every row has
    at least one value. *)
Theorem downloaded_frame_clean
  (w : world) (data_source : data_source_arg)
  (data_inicial data_final : string) (longitude latitude : R)
  (data : DataFrame) (warnings : list warning) :
  download_weather_data w data_source data_inicial data_final longitude
    latitude = Ok (data, warnings) ->
  clean_frame data
  /\ forall r name, In r data -> cell r name <> Some (-999)%R.
Proof.
  unfold download_weather_data, collect. intros H.
  destruct (prepare _ _ _ _ _ _) as [rq |]; cbn [mbind exc_bind] in H;
    [| discriminate].
  destruct (process_sources _ _ _ _ _ _ _ _ _) as [[ws frames] |] eqn:Hloop;
    cbn [mbind exc_bind] in H; [| discriminate].
  apply process_sources_frames in Hloop as (new & Hnew & Hclean).
  cbn [app] in Hnew. subst frames.
  assert (clean_frame data) as Hdata.
  { assert (forall r, In r data -> exists f, In f new /\ In r f) as Hrows.
    { unfold consolidate in H.
      destruct new as [| f0 [| f1 rest]];
        cbn [mbind exc_bind mret exc_ret] in H;
        [discriminate | |]; inversion H as [[Hd Hw]].
      - intros r Hr. exists data. split; [now left | assumption].
      - intros r Hr.
        change (f0 ++ f1 ++ concat rest) with (concat (f0 :: f1 :: rest)) in Hr.
        apply drop_duplicated_In, in_concat in Hr as (f & Hf & Hrf). eauto. }
    apply clean_frame_rows. intros r Hr.
    destruct (Hrows r Hr) as (f & Hf & Hrf).
    rewrite Forall_forall in Hclean.
    specialize (Hclean f (proj2 (list_elem_of_In _ _) Hf)).
    now apply (proj1 (clean_frame_rows f) Hclean). }
  split; [assumption |].
  intros r name Hr Hcell.
  destruct (proj1 (clean_frame_rows data) Hdata r Hr) as [Hcells _].
  unfold cell in Hcell.
  destruct (Availability.assoc name (r_cells r)) as [c |] eqn:Hassoc;
    [| discriminate].
  subst c. rewrite Forall_forall in Hcells.
  assert (In (name, Some (-999)%R) (r_cells r)) as Hin.
  { clear - Hassoc. induction (r_cells r) as [| [k v] rest IH];
      cbn [Availability.assoc] in Hassoc; [discriminate |].
    destruct (String.eqb_spec k name) as [-> | Hne].
    - inversion Hassoc. now left.
    - right. now apply IH. }
  apply list_elem_of_In in Hin. apply Hcells in Hin. now apply Hin.
Qed.

(** The sample download from NASA POWER that ends three days ahead. *)
Lemma downloaded_frame_clean_witness :
  exists data warnings,
    download_weather_data (sample_world [("nasa_power", true)])
      (SourceStr "nasa_power") "2024-06-10" "2024-06-18" (-48) (-15.7975)
    = Ok (data, warnings)
    /\ clean_frame data
    /\ forall r name, In r data -> cell r name <> Some (-999)%R.
Proof.
  destruct nasa_power_future_end_truncated as (data & Hdata & _).
  eexists data, _. split; [exact Hdata |].
  exact (downloaded_frame_clean _ _ _ _ _ _ _ _ Hdata).
Defined.

End CleanFrames.

Section Verdicts.
Import Calendar Availability Reference.

Lemma evaluate_all_In (today s e : Z) (in_usa in_nordic : bool)
  (data_type : string) (catalog : list (string * api_limits)) :
  forall res name v,
    evaluate_all today s e in_usa in_nordic data_type catalog = Ok res ->
    In (name, v) res ->
    exists limits,
      In (name, limits) catalog
      /\ evaluate_api today s e in_usa in_nordic data_type name limits = Ok v.
Proof.
  induction catalog as [| [k limits] rest IH]; intros res name v H Hin.
  - inversion H; subst. destruct Hin.
  - cbn [evaluate_all] in H.
    destruct (evaluate_api today s e in_usa in_nordic data_type k limits)
      as [v0 |] eqn:Hv0; cbn [mbind exc_bind] in H; [| discriminate].
    destruct (evaluate_all today s e in_usa in_nordic data_type rest)
      as [vs |] eqn:Hvs; cbn [mbind exc_bind mret exc_ret] in H;
      [| discriminate].
    inversion H; subst res. destruct Hin as [Heq | Hin].
    + inversion Heq; subst. exists limits. split; [now left | assumption].
    + destruct (IH vs name v eq_refl Hin) as (l & Hl & Hev).
      exists l. split; [now right | assumption].
Qed.

(** The loop keeps the names and the order of the catalog. *)
Lemma evaluate_all_names (today s e : Z) (in_usa in_nordic : bool)
  (data_type : string) (catalog : list (string * api_limits)) :
  forall res,
    evaluate_all today s e in_usa in_nordic data_type catalog = Ok res ->
    map fst res = map fst catalog.
Proof.
  induction catalog as [| [k limits] rest IH]; intros res H.
  - now inversion H.
  - cbn [evaluate_all] in H.
    destruct (evaluate_api today s e in_usa in_nordic data_type k limits)
      as [v0 |]; cbn [mbind exc_bind] in H; [| discriminate].
    destruct (evaluate_all today s e in_usa in_nordic data_type rest)
      as [vs |]; cbn [mbind exc_bind mret exc_ret] in H; [| discriminate].
    inversion H. cbn. f_equal. now apply IH.
Qed.

(** The state the first three steps of the loop body thread: a source
    found unavailable always has a reason. *)
Lemma check_window_reason (api_start api_end s e : Z)
  (st : bool * list reason_item) :
  (st.1 = false -> st.2 <> []) ->
  (check_window api_start api_end s e st).1 = false ->
  (check_window api_start api_end s e st).2 <> [].
Proof.
  unfold check_window. intros Hst.
  destruct (s <? api_start), (api_end <? e); cbn [fst snd];
    try (intros _; now destruct (st.2));
    try (intros _; now destruct (_ ++ _) eqn:?; [destruct st.2 |]);
    assumption.
Qed.

(** What the first two steps of the loop body leave: the geographic
    and the type gate. *)
Lemma evaluate_api_gates (today s e : Z) (in_usa in_nordic : bool)
  (data_type api_name : string) (limits : api_limits) (v : verdict) :
  evaluate_api today s e in_usa in_nordic data_type api_name limits = Ok v ->
  v_type v = l_type limits /\ v_coverage v = l_coverage limits
  /\ reason v <> []
  /\ (available v = false -> variables v = [])
  /\ (available v = true ->
        variables v
        = (if String.eqb api_name "met_norway"
           then if in_nordic
                then ["air_temperature"; "relative_humidity"; "wind_speed";
                      "precipitation_amount"]
                else ["air_temperature"; "relative_humidity"; "wind_speed"]
           else ["all"])
        /\ (l_coverage limits = "usa" -> in_usa = true)
        /\ (data_type = "historical" -> l_type limits = "historical")
        /\ (data_type = "forecast" -> l_type limits = "historical" ->
              e < today)).
Proof.
  unfold evaluate_api.
  set (st0 := if String.eqb (l_coverage limits) "usa" && negb in_usa
              then (false, [NotOutsideUSA]) else (true, [])).
  set (st1 := if String.eqb data_type "historical" then _ else _).
  assert ((st1.1 = false -> st1.2 <> [])
          /\ (st1.1 = true ->
                (l_coverage limits = "usa" -> in_usa = true)
                /\ (data_type = "historical" -> l_type limits = "historical")
                /\ (data_type = "forecast" -> l_type limits = "historical" ->
                      e < today))) as [Hreason Hgate].
  { subst st1 st0.
    destruct (String.eqb_spec (l_coverage limits) "usa") as [Hc | Hc],
      in_usa; cbn [andb negb];
      destruct (String.eqb_spec data_type "historical") as [Hd | Hd];
      try (destruct (String.eqb_spec (l_type limits) "historical")
             as [Ht | Ht]);
      try (destruct (String.eqb_spec data_type "forecast") as [Hf | Hf]);
      try (destruct (String.eqb_spec (l_type limits) "historical")
             as [Ht | Ht]);
      try (destruct (Z.ltb_spec e today));
      cbn [negb fst snd app]; split; intros; try discriminate;
      repeat split; intros; try congruence; try lia. }
  clearbody st1. clear st0.
  set (step3 := if st1.1 && String.eqb (l_type limits) "historical"
                then _ else _).
  destruct step3 as [st2 |] eqn:Hstep; cbn [mbind exc_bind]; [| discriminate].
  assert ((st2.1 = false -> st2.2 <> [])
          /\ (st2.1 = true -> st1.1 = true)) as [Hreason2 Hgate2].
  { subst step3.
    destruct (st1.1 && String.eqb (l_type limits) "historical").
    - destruct (l_start_date limits) as [d |];
        cbn [key mbind exc_bind mret exc_ret] in Hstep; [| discriminate].
      inversion Hstep. split.
      + now apply check_window_reason.
      + intros H. now apply check_window_available in H.
    - destruct (st1.1 && (String.eqb (l_type limits) "forecast"
                          || String.eqb (l_type limits) "realtime")).
      + destruct (l_start_date_offset limits) as [d |];
          cbn [key mbind exc_bind mret exc_ret] in Hstep; [| discriminate].
        inversion Hstep. split.
        * now apply check_window_reason.
        * intros H. now apply check_window_available in H.
      + inversion Hstep; subst st2. auto. }
  clear Hstep step3.
  destruct st2 as [[] rsn]; cbn [fst snd] in *.
  - destruct (String.eqb api_name "met_norway");
      [destruct in_nordic |];
      cbn [mret exc_ret]; intros Hv; inversion Hv;
      cbn [v_type v_coverage reason available variables];
      (split; [reflexivity |]); (split; [reflexivity |]);
      (split; [now destruct rsn |]); (split; [discriminate |]);
      intros _; (split; [reflexivity |]); now apply Hgate, Hgate2.
  - cbn [mret exc_ret]. intros Hv. inversion Hv.
    cbn [v_type v_coverage reason available variables].
    split; [reflexivity |]. split; [reflexivity |].
    split; [now apply Hreason2 |]. split; [reflexivity | discriminate].
Qed.

(** X13. The dictionary [get_available_sources] returns has one
    verdict per entry of [API_LIMITS], in its order.  A verdict's
    reason is never empty; an unavailable source lists no variables;
    an available one lists ["all"], except MET Norway, which lists its
    three variables and [precipitation_amount] in the Nordic box only;
    a source with coverage "usa" is available only inside the USA box,
    and in historical mode only historical sources are available. *)
Theorem verdict_shape
  (today : Z) (start_date end_date : date_arg) (lat lon : R)
  (data_type : string) (res : list (string * verdict)) :
  get_available_sources today start_date end_date lat lon data_type
    = Ok res ->
  map fst res = map fst API_LIMITS
  /\ forall name v, In (name, v) res ->
       reason v <> []
       /\ (available v = false -> variables v = [])
       /\ (available v = true ->
             (name <> "met_norway" -> variables v = ["all"])
             /\ (name = "met_norway" ->
                   variables v
                   = ["air_temperature"; "relative_humidity"; "wind_speed"]
                     ++ (if is_in_nordic lat lon
                         then ["precipitation_amount"] else []))
             /\ (v_coverage v = "usa" -> is_in_usa lat lon = true)
             /\ (data_type = "historical" -> v_type v = "historical")).
Proof.
  unfold get_available_sources. intros H.
  destruct (as_date start_date) as [s |]; cbn [mbind exc_bind] in H;
    [| discriminate].
  destruct (as_date end_date) as [e |]; cbn [mbind exc_bind] in H;
    [| discriminate].
  split; [now apply evaluate_all_names in H |].
  intros name v Hin.
  destruct (evaluate_all_In _ _ _ _ _ _ _ _ _ _ H Hin) as (limits & _ & Hv).
  apply evaluate_api_gates in Hv
    as (Hty & Hcov & Hreason & Hunav & Hav).
  split; [assumption |]. split; [assumption |].
  intros Htrue. destruct (Hav Htrue) as (Hvars & Husa & Hhist & _).
  rewrite Hvars, Hty, Hcov. repeat split.
  - intros Hne. apply String.eqb_neq in Hne. now rewrite Hne.
  - intros ->. cbn. now destruct (is_in_nordic lat lon).
  - assumption.
  - assumption.
Qed.

(** Ten days of June 2024 seen from 2024-06-15, at Brasília, in
    historical mode. *)
Lemma verdict_shape_witness :
  exists res,
    get_available_sources today0 (DateStr "2024-06-01")
      (DateStr "2024-06-10") (-15.7975) (-48) "historical" = Ok res
    /\ map fst res = map fst API_LIMITS
    /\ forall name v, In (name, v) res ->
         reason v <> []
         /\ (available v = false -> variables v = [])
         /\ (available v = true ->
               (name <> "met_norway" -> variables v = ["all"])
               /\ (name = "met_norway" ->
                     variables v
                     = ["air_temperature"; "relative_humidity"; "wind_speed"]
                       ++ (if is_in_nordic (-15.7975) (-48)
                           then ["precipitation_amount"] else []))
               /\ (v_coverage v = "usa" ->
                     is_in_usa (-15.7975) (-48) = true)
               /\ ("historical" = "historical" -> v_type v = "historical")).
Proof.
  assert (exists res,
             get_available_sources today0 (DateStr "2024-06-01")
               (DateStr "2024-06-10") (-15.7975) (-48) "historical" = Ok res)
    as [res Hres].
  { unfold get_available_sources.
    rewrite not_in_usa_sample, not_in_nordic_sample. eexists. reflexivity. }
  exists res. split; [exact Hres |].
  exact (verdict_shape _ _ _ _ _ _ _ Hres).
Defined.

End Verdicts.

Section ClosedForm.
Import Calendar Availability Reference Catalog.

Ltac split_comparisons :=
  repeat match goal with
         | |- context [?a <? ?b] => destruct (Z.ltb_spec a b)
         | |- context [?a <=? ?b] => destruct (Z.leb_spec a b)
         end.

(** The availability the loop body computes for an entry of the
    catalog, in the two modes. *)
Lemma evaluate_api_expected (today s e : Z) (in_usa in_nordic : bool)
  (data_type name : string) (limits : api_limits) :
  In (name, limits) API_LIMITS ->
  data_type = "historical" \/ data_type = "forecast" ->
  exists v,
    evaluate_api today s e in_usa in_nordic data_type name limits = Ok v
    /\ available v = expected_available today s e in_usa data_type name.
Proof.
  intros Hin Htype. unfold API_LIMITS in Hin. cbn [In] in Hin.
  repeat (destruct Hin as [Hin | Hin];
          [inversion Hin; subst name limits; clear Hin |]);
    [.. | contradiction];
    destruct Htype as [-> | ->]; destruct in_usa, in_nordic;
    unfold evaluate_api, expected_available, historical_ok, rolling_ok,
      check_window;
    cbn [String.eqb Ascii.eqb Bool.eqb andb orb negb fst snd app key
         l_type l_start_date l_start_date_offset l_end_date_offset
         l_coverage historical_limits rolling_limits mbind exc_bind mret
         exc_ret];
    split_comparisons;
    cbn [String.eqb Ascii.eqb Bool.eqb andb orb negb fst snd app key
         mbind exc_bind mret exc_ret];
    try lia; eexists; split; reflexivity.
Qed.

(** The loop over a catalog, when every entry has an expected
    availability. *)
Lemma evaluate_all_expected (today s e : Z) (in_usa in_nordic : bool)
  (data_type : string) (catalog : list (string * api_limits)) :
  (forall name limits, In (name, limits) catalog ->
     exists v,
       evaluate_api today s e in_usa in_nordic data_type name limits = Ok v
       /\ available v = expected_available today s e in_usa data_type name) ->
  exists res,
    evaluate_all today s e in_usa in_nordic data_type catalog = Ok res
    /\ map fst (filter (fun p => available p.2 = true) res)
       = filter (fun name =>
                   expected_available today s e in_usa data_type name = true)
           (map fst catalog).
Proof.
  induction catalog as [| [k limits] rest IH]; intros Hall.
  - exists []. split; reflexivity.
  - destruct (Hall k limits (or_introl eq_refl)) as (v & Hv & Hav).
    destruct IH as (vs & Hvs & Hnames).
    { intros name l Hin. apply Hall. now right. }
    exists ((k, v) :: vs). split.
    + cbn [evaluate_all]. rewrite Hv. cbn [mbind exc_bind]. rewrite Hvs.
      reflexivity.
    + cbn [map]. rewrite !filter_cons. cbn [fst snd]. rewrite Hav.
      destruct (expected_available today s e in_usa data_type k);
        [rewrite !decide_True by reflexivity
        | rewrite !decide_False by discriminate];
        cbn [map]; now rewrite Hnames.
Qed.

(** The compatible sources are the names of the catalog whose expected
    availability holds. *)
Lemma compatible_sources_expected
  (today s e : Z) (lat lon : R) (data_type : string) :
  data_type = "historical" \/ data_type = "forecast" ->
  get_compatible_sources_list today (DateObj s) (DateObj e) lat lon data_type
  = Ok (filter (fun name =>
                  expected_available today s e (is_in_usa lat lon) data_type
                    name = true)
          (map fst API_LIMITS)).
Proof.
  intros Htype. unfold get_compatible_sources_list, get_available_sources.
  cbn [as_date mbind exc_bind].
  destruct (evaluate_all_expected today s e (is_in_usa lat lon)
              (is_in_nordic lat lon) data_type API_LIMITS)
    as (res & Hres & Hnames).
  { intros name limits Hin. now apply evaluate_api_expected. }
  rewrite Hres. cbn [mbind exc_bind mret exc_ret]. now rewrite Hnames.
Qed.

(** X14. [get_compatible_sources_list] in closed form.  In historical
    mode it is NASA POWER and the Open-Meteo archive when the period
    lies within [1990-01-01, today - 2 days], and empty otherwise.  In
    forecast mode it lists, in the order of the catalog, those two
    under the same condition, [openmeteo_forecast] within [today - 30,
    today + 5], [met_norway] within [today, today + 5], and inside the
    USA box [nws_forecast] within [today, today + 5] and
    [nws_stations] within [today - 1, today]. *)
Theorem compatible_sources_closed_form (today s e : Z) (lat lon : R) :
  get_compatible_sources_list today (DateObj s) (DateObj e) lat lon
    "historical"
  = Ok (if historical_ok today s e
        then ["nasa_power"; "openmeteo_archive"] else [])
  /\ get_compatible_sources_list today (DateObj s) (DateObj e) lat lon
       "forecast"
     = Ok ((if historical_ok today s e
            then ["nasa_power"; "openmeteo_archive"] else [])
           ++ (if rolling_ok today s e (-30) 5
               then ["openmeteo_forecast"] else [])
           ++ (if rolling_ok today s e 0 5 then ["met_norway"] else [])
           ++ (if is_in_usa lat lon && rolling_ok today s e 0 5
               then ["nws_forecast"] else [])
           ++ (if is_in_usa lat lon && rolling_ok today s e (-1) 0
               then ["nws_stations"] else [])).
Proof.
  split.
  - rewrite compatible_sources_expected by now left.
    unfold expected_available, API_LIMITS.
    cbn [map fst String.eqb Ascii.eqb Bool.eqb andb orb].
    destruct (historical_ok today s e); reflexivity.
  - rewrite compatible_sources_expected by now right.
    unfold expected_available, API_LIMITS.
    cbn [map fst String.eqb Ascii.eqb Bool.eqb andb orb].
    destruct (historical_ok today s e), (rolling_ok today s e (-30) 5),
      (rolling_ok today s e 0 5), (rolling_ok today s e (-1) 0),
      (is_in_usa lat lon); reflexivity.
Qed.

End ClosedForm.

Section ModePeriods.
Import Calendar Availability Download Modes Rules.

(** X15. [validate_period_for_mode] accepts a period exactly when it
    has at least 7 days and at most 90 days for historical data by
    e-mail, 30 days in every other case, and then answers "Período
    válido".  Every period it accepts that ends today or earlier also
    passes the date checks of [download_weather_data]. *)
Theorem mode_period_rule (today s e : Z) (mode data_type : string) :
  let period_days := e - s + 1 in
  let accepted :=
    (7 <=? period_days) && (period_days <=? mode_limit mode data_type) in
  (exists msg,
      validate_period_for_mode (DateObj s) (DateObj e) mode data_type
      = Ok (accepted, msg)
      /\ (accepted = true -> msg = PeriodValid period_days))
  /\ (accepted = true -> e <= today ->
        s <= e
        /\ accepted_dates today s e
        /\ validate_period (midnight today) (midnight s) (midnight e)
             period_days
             (classify_request_type today (PTimestamp (midnight s))
                (PTimestamp (midnight e))) = Ok ()).
Proof.
  cbv zeta. split.
  - unfold validate_period_for_mode, mode_limit.
    cbn [as_date mbind exc_bind mret exc_ret]. cbv zeta.
    destruct (String.eqb mode "web") eqn:Hweb.
    + apply String.eqb_eq in Hweb. subst mode.
      cbn [String.eqb Ascii.eqb Bool.eqb andb].
      destruct (Z.ltb_spec (e - s + 1) 7), (Z.ltb_spec 30 (e - s + 1)),
        (Z.leb_spec 7 (e - s + 1)), (Z.leb_spec (e - s + 1) 30);
        try (exfalso; lia); cbn [andb]; eexists;
        (split; [reflexivity | intros Hb; first [discriminate Hb | reflexivity]]).
    + destruct (String.eqb mode "email" && String.eqb data_type "historical").
      * destruct (Z.ltb_spec (e - s + 1) 7), (Z.ltb_spec 90 (e - s + 1)),
          (Z.leb_spec 7 (e - s + 1)), (Z.leb_spec (e - s + 1) 90);
          try (exfalso; lia); cbn [andb]; eexists;
          (split; [reflexivity
                  | intros Hb; first [discriminate Hb | reflexivity]]).
      * destruct (Z.ltb_spec (e - s + 1) 7), (Z.ltb_spec 30 (e - s + 1)),
          (Z.leb_spec 7 (e - s + 1)), (Z.leb_spec (e - s + 1) 30);
          try (exfalso; lia); cbn [andb]; eexists;
          (split; [reflexivity
                  | intros Hb; first [discriminate Hb | reflexivity]]).
  - intros Hacc Hpast. apply andb_true_iff in Hacc as [H7 Hmax].
    apply Z.leb_le in H7, Hmax.
    assert (mode_limit mode data_type <= 90) as Hlim
      by (unfold mode_limit; destruct (_ && _); lia).
    assert (s <= e) as Hse by lia.
    assert (accepted_dates today s e) as Hok
      by (unfold accepted_dates; lia).
    split; [assumption |]. split; [assumption |].
    now apply validate_period_dates.
Qed.

End ModePeriods.

Section MetNorwayClient.
Import Calendar Availability Download ETo MetNorway.

(** X16. [_calculate_ttl] always returns between 1 and 86400 seconds:
    3600 without an expiry time, 60 when less than a whole second is
    left, the whole seconds left up to a day, and 86400 beyond. *)
Theorem calculate_ttl_bounds (now : Z) (expires : option Z) :
  1 <= _calculate_ttl now expires <= 86400
  /\ (expires = None -> _calculate_ttl now expires = 3600)
  /\ (forall t, expires = Some t ->
        (t - now < 1000000 -> _calculate_ttl now expires = 60)
        /\ (1000000 <= t - now < 86401 * 1000000 ->
              _calculate_ttl now expires = (t - now) / 1000000)
        /\ (86401 * 1000000 <= t - now ->
              _calculate_ttl now expires = 86400)).
Proof.
  unfold _calculate_ttl. destruct expires as [t |].
  - assert (forall x, 0 <= x -> Z.quot x 1000000 = x / 1000000) as Hq
      by (intros x Hx; apply Z.quot_div_nonneg; lia).
    assert (t - now < 1000000 -> Z.quot (t - now) 1000000 <= 0) as Hneg.
    { intros Hlt. destruct (Z_le_gt_dec 0 (t - now)).
      - rewrite Hq by assumption.
        rewrite Z.div_small by lia. lia.
      - apply Z.quot_le_upper_bound; lia. }
    split; [| split; [discriminate |]].
    + destruct (Z.leb_spec (Z.quot (t - now) 1000000) 0); [lia |].
      destruct (Z.ltb_spec 86400 (Z.quot (t - now) 1000000)); lia.
    + intros t' Heq. inversion Heq; subst t'. split; [| split].
      * intros Hlt. specialize (Hneg Hlt).
        destruct (Z.leb_spec (Z.quot (t - now) 1000000) 0); lia.
      * intros [Hlo Hhi]. rewrite Hq by lia.
        assert (1 <= (t - now) / 1000000 <= 86400)
          by (split; [apply Z.div_le_lower_bound
                     | apply Z.lt_succ_r, Z.div_lt_upper_bound]; lia).
        destruct (Z.leb_spec ((t - now) / 1000000) 0); [lia |].
        destruct (Z.ltb_spec 86400 ((t - now) / 1000000)); lia.
      * intros Hhi. rewrite Hq by lia.
        assert (86401 <= (t - now) / 1000000)
          by (apply Z.div_le_lower_bound; lia).
        destruct (Z.leb_spec ((t - now) / 1000000) 0); [lia |].
        destruct (Z.ltb_spec 86400 ((t - now) / 1000000)); lia.
  - split; [lia |]. split; [reflexivity | discriminate].
Qed.

End MetNorwayClient.

Section MetNorwayRegion.
Import Calendar Availability PyStr Download ETo MetNorway.
Local Open Scope R_scope.





Lemma is_in_nordic_region_agrees (lat lon : R) :
  is_in_nordic_region lat lon = is_in_nordic lat lon.
Proof.
  unfold is_in_nordic_region, is_in_nordic.
  replace 4.0 with 4 by lra. replace 31.0 with 31 by lra.
  replace 54.0 with 54 by lra. replace 71.5 with (715 / 10) by lra.
  reflexivity.
Qed.

Lemma is_in_nordic_box (lat lon : R) :
  is_in_nordic lat lon = true <-> 4 <= lon <= 31 /\ 54 <= lat <= 71.5.
Proof.
  unfold is_in_nordic. rewrite !andb_true_iff, !Rleb_iff. lra.
Qed.

(** X18. The Nordic rule for precipitation is the same in the three
    places that implement it.  The bounding box of the MET Norway
    client and that of the availability catalog are the same box
    (longitude 4 to 31, latitude 54 to 71.5); the client recommends
    [precipitation_sum], the download keeps the precipitation column
    of MET Norway, and an available MET Norway verdict lists
    [precipitation_amount], each exactly inside that box. *)
Theorem nordic_precipitation_consistent (lat lon : R) :
  let nordic := 4 <= lon <= 31 /\ 54 <= lat <= 71.5 in
  is_in_nordic_region lat lon = is_in_nordic lat lon
  /\ (is_in_nordic lat lon = true <-> nordic)
  /\ (In "precipitation_sum" (get_recommended_variables lat lon) <-> nordic)
  /\ (In "precipitation_sum"
        (map fst (met_columns (mem "precipitation_sum"
                                 (met_recommended_variables lat lon))))
      <-> nordic)
  /\ (forall today start_date end_date data_type res v,
         get_available_sources today start_date end_date lat lon data_type
           = Ok res ->
         In ("met_norway", v) res -> available v = true ->
         (In "precipitation_amount" (variables v) <-> nordic)).
Proof.
  cbv zeta. rewrite <- !is_in_nordic_box.
  split; [apply is_in_nordic_region_agrees |]. split; [reflexivity |].
  unfold get_recommended_variables, met_recommended_variables.
  rewrite is_in_nordic_region_agrees.
  assert (forall (name : string) (names : list string) (b : bool),
             (b = true -> In name names) ->
             (b = false -> Forall (fun n => n <> name) names) ->
             In name names <-> b = true) as Hiff.
  { intros name names b Hyes Hno. destruct b.
    - split; [reflexivity | auto].
    - split; [| discriminate]. intros Hin.
      specialize (Hno eq_refl). rewrite Forall_forall in Hno.
      apply list_elem_of_In, Hno in Hin. congruence. }
  split; [| split].
  - apply Hiff; intros ->; unfold NORDIC_VARIABLES, GLOBAL_VARIABLES.
    + cbn [In]. auto 10.
    + repeat constructor; discriminate.
  - apply Hiff; intros ->; cbn.
    + auto 10.
    + repeat constructor; discriminate.
  - intros today start_date end_date data_type res v Hres Hin Hav.
    unfold get_available_sources in Hres.
    destruct (as_date start_date) as [s |]; cbn [mbind exc_bind] in Hres;
      [| discriminate].
    destruct (as_date end_date) as [e |]; cbn [mbind exc_bind] in Hres;
      [| discriminate].
    destruct (evaluate_all_In _ _ _ _ _ _ _ _ _ _ Hres Hin)
      as (limits & _ & Hv).
    apply evaluate_api_gates in Hv as (_ & _ & _ & _ & Hvars).
    destruct (Hvars Hav) as (-> & _). rewrite <- is_in_nordic_box.
    apply Hiff; intros ->; cbn.
    + auto 10.
    + repeat constructor; discriminate.
Qed.

End MetNorwayRegion.

Section Harmonisation.
Import PyStr Download Harmonized.

Lemma add_names_In (names seen : list string) (n : string) :
  In n (add_names names seen) <-> In n seen \/ In n names.
Proof.
  revert seen. induction names as [| x rest IH]; intros seen;
    cbn [add_names In]; [tauto |].
  destruct (mem x seen) eqn:Hx; rewrite IH.
  - apply mem_In in Hx. split; [tauto |].
    intros [H | [<- | H]]; auto.
  - rewrite in_app_iff. cbn [In]. tauto.
Qed.

Lemma columns_In (df : DataFrame) (n : string) :
  In n (columns df) <-> exists r, In r df /\ In n (map fst (r_cells r)).
Proof.
  unfold columns.
  assert (forall seen,
             In n (fold_left (fun seen r =>
                                add_names (map fst (r_cells r)) seen) df seen)
             <-> In n seen
                 \/ exists r, In r df /\ In n (map fst (r_cells r))) as H.
  { induction df as [| r rest IH]; intros seen; cbn [fold_left].
    - split; [auto | intros [H | (r & [] & _)]; assumption].
    - rewrite IH, add_names_In. split.
      + intros [[H | H] | (r' & Hr' & Hn)].
        * now left.
        * right. exists r. split; [now left | assumption].
        * right. exists r'. split; [now right | assumption].
      + intros [H | (r' & [<- | Hr'] & Hn)].
        * left. now left.
        * left. now right.
        * right. exists r'. auto. }
  rewrite H. cbn [In]. tauto.
Qed.

Lemma assoc_replace (dst n : string) (c : option R)
  (cells : list (string * option R)) :
  In dst (map fst cells) ->
  Availability.assoc n
    (map (fun p : string * option R =>
            if String.eqb p.1 dst then (dst, c) else p) cells)
  = if String.eqb n dst then Some c else Availability.assoc n cells.
Proof.
  induction cells as [| [k v] rest IH]; intros Hin; [destruct Hin |].
  cbn [map Availability.assoc fst snd].
  destruct (String.eqb_spec k dst) as [-> | Hk].
  - cbn [Availability.assoc]. rewrite (String.eqb_sym n dst).
    destruct (String.eqb_spec dst n) as [<- | Hn]; [reflexivity |].
    clear IH Hin. induction rest as [| [k' v'] rest' IH']; [reflexivity |].
    cbn [map Availability.assoc fst snd].
    destruct (String.eqb_spec k' dst) as [-> | Hk'].
    + cbn [Availability.assoc].
      destruct (String.eqb_spec dst n); [contradiction | exact IH'].
    + cbn [Availability.assoc].
      destruct (String.eqb k' n); [reflexivity | exact IH'].
  - cbn [Availability.assoc].
    destruct Hin as [Heq | Hin]; [cbn in Heq; congruence |].
    destruct (String.eqb_spec k n) as [-> | Hkn].
    + destruct (String.eqb_spec n dst); [contradiction | reflexivity].
    + now apply IH.
Qed.

Lemma assoc_append (dst n : string) (c : option R)
  (cells : list (string * option R)) :
  Availability.assoc n
    (filter (fun p : string * option R => negb (String.eqb p.1 dst)) cells
     ++ [(dst, c)])
  = if String.eqb n dst
    then Some c
    else Availability.assoc n cells.
Proof.
  induction cells as [| [k v] rest IH].
  - cbn. rewrite (String.eqb_sym dst n). reflexivity.
  - rewrite filter_cons. cbn [fst].
    destruct (String.eqb_spec k dst) as [-> | Hk]; cbn [negb].
    + rewrite decide_False by (intros []).
      rewrite IH. cbn [Availability.assoc]. rewrite (String.eqb_sym dst n).
      destruct (String.eqb n dst); reflexivity.
    + rewrite decide_True by exact I.
      cbn [app Availability.assoc].
      destruct (String.eqb_spec k n) as [-> | Hkn]; [| exact IH].
      destruct (String.eqb_spec n dst); [contradiction | reflexivity].
Qed.

Lemma names_replace (dst : string) (c : option R)
  (cells : list (string * option R)) :
  map fst (map (fun p : string * option R =>
                  if String.eqb p.1 dst then (dst, c) else p) cells)
  = map fst cells.
Proof.
  induction cells as [| [k v] rest IH]; [reflexivity |].
  cbn [map fst]. rewrite IH.
  destruct (String.eqb_spec k dst) as [-> | Hk]; reflexivity.
Qed.

Lemma names_append (dst n : string) (c : option R)
  (cells : list (string * option R)) :
  ~ In dst (map fst cells) ->
  In n (map fst (filter (fun p : string * option R =>
                           negb (String.eqb p.1 dst)) cells ++ [(dst, c)]))
  <-> In n (map fst cells) \/ n = dst.
Proof.
  intros Hnot. rewrite map_app, in_app_iff. cbn [map In fst].
  assert (filter (fun p : string * option R => negb (String.eqb p.1 dst))
            cells = cells) as ->.
  { induction cells as [| [k v] rest IH]; [reflexivity |].
    rewrite filter_cons. cbn [fst].
    destruct (String.eqb_spec k dst) as [-> | Hk].
    - exfalso. apply Hnot. now left.
    - cbn [negb]. rewrite decide_True by exact I.
      rewrite IH; [reflexivity |]. intros Hin. apply Hnot. now right. }
  split; [intros [H | [H | []]]; auto | intros [H | H]; auto].
Qed.

(** One row of [df[dst] = df[src]]. *)
Lemma copy_column_map (src dst : string) (df : DataFrame) :
  exists f,
    copy_column src dst df = map f df
    /\ forall r,
        r_date (f r) = r_date r
        /\ (forall n, cell (f r) n
                      = if String.eqb n dst then cell r src else cell r n)
        /\ (forall n, In n (map fst (r_cells (f r)))
                      <-> In n (map fst (r_cells r)) \/ n = dst).
Proof.
  eexists. split; [reflexivity |]. intros r. cbn [r_date r_cells].
  split; [reflexivity |].
  destruct (mem dst (map fst (r_cells r))) eqn:Hmem.
  - apply mem_In in Hmem. split.
    + intros n. unfold cell at 1. cbn [r_cells].
      rewrite assoc_replace by assumption.
      destruct (String.eqb n dst); reflexivity.
    + intros n. rewrite names_replace. split; [auto |].
      intros [H | ->]; assumption.
  - assert (~ In dst (map fst (r_cells r))) as Hnot.
    { intros Hin. apply mem_In in Hin. congruence. }
    split.
    + intros n. unfold cell at 1. cbn [r_cells].
      rewrite assoc_append. destruct (String.eqb n dst); reflexivity.
    + intros n. now apply names_append.
Qed.

Lemma find_app_none {A : Type} (p : A -> bool) (l1 l2 : list A) :
  find p (l1 ++ l2) = match find p l1 with
                      | Some x => Some x
                      | None => find p l2
                      end.
Proof.
  induction l1 as [| x rest IH]; [reflexivity |].
  cbn [app find]. destruct (p x); [reflexivity | exact IH].
Qed.

Lemma find_none_targets (table : list (string * string))
  (cols : list string) (n : string) :
  ~ In n (map snd table) ->
  find (fun p : string * string => String.eqb p.2 n && mem p.1 cols) table
  = None.
Proof.
  induction table as [| [src dst] rest IH]; intros Hnot; [reflexivity |].
  cbn [find fst snd].
  destruct (String.eqb_spec dst n) as [-> | Hne].
  - exfalso. apply Hnot. now left.
  - cbn [andb]. apply IH. intros Hin. apply Hnot. now right.
Qed.

(** The loop of the harmonisation, from a frame that the table [done]
    has been applied to. *)
Lemma harmonize_steps (df0 : DataFrame) (rest : list (string * string)) :
  forall (done : list (string * string)) (df : DataFrame),
    well_formed (done ++ rest) ->
    Forall2 (harmonised_row done (columns df0)) df0 df ->
    (forall n, ~ In n (map snd done) ->
               (In n (columns df) <-> In n (columns df0))) ->
    Forall2 (harmonised_row (done ++ rest) (columns df0)) df0
      (fold_left (fun df p => if mem p.1 (columns df)
                              then copy_column p.1 p.2 df else df) rest df).
Proof.
  induction rest as [| [src dst] rest IH]; intros done df Hwf Hrows Hcols.
  - now rewrite app_nil_r.
  - cbn [fold_left fst snd].
    replace (done ++ (src, dst) :: rest) with ((done ++ [(src, dst)]) ++ rest)
      in * by now rewrite <- app_assoc.
    destruct Hwf as [Hnodup Hsep].
    assert (~ In src (map snd done)) as Hsrc.
    { intros Hin. apply in_map_iff in Hin as (q & Hq & Hin).
      apply (Hsep (src, dst) q).
      - apply in_or_app. left. apply in_or_app. right. now left.
      - apply in_or_app. left. apply in_or_app. now left.
      - now symmetry. }
    assert (~ In dst (map snd done)) as Hdst.
    { rewrite !map_app in Hnodup. cbn [map snd] in Hnodup.
      rewrite <- app_assoc in Hnodup.
      apply NoDup_app in Hnodup as (_ & Hdisj & _).
      intros Hin. apply list_elem_of_In in Hin.
      apply (Hdisj dst Hin). left. }
    assert (forall r n,
               harmonized_cell (done ++ [(src, dst)]) (columns df0) r n
               = if String.eqb n dst && mem src (columns df0)
                 then cell r src
                 else harmonized_cell done (columns df0) r n) as Hcell.
    { intros r n. unfold harmonized_cell. rewrite find_app_none.
      destruct (String.eqb_spec n dst) as [-> | Hn]; cbn [andb].
      - rewrite find_none_targets by assumption. cbn [find fst snd].
        rewrite String.eqb_refl. cbn [andb].
        destruct (mem src (columns df0)); reflexivity.
      - cbn [find fst snd].
        destruct (String.eqb_spec dst n); [congruence |]. cbn [andb].
        now destruct (find _ done). }
    apply IH.
    + split; assumption.
    + destruct (mem src (columns df)) eqn:Hmem.
      * assert (mem src (columns df0) = true) as Hmem0.
        { apply mem_In, Hcols; [assumption | now apply mem_In]. }
        destruct (copy_column_map src dst df) as (f & -> & Hf).
        apply Forall2_fmap_r.
        eapply Forall2_impl; [exact Hrows |].
        intros r r' [Hdate Hr].
        destruct (Hf r') as (Hd & Hc & _). split; [congruence |].
        intros n. rewrite Hc, Hcell, Hmem0, andb_true_r.
        destruct (String.eqb n dst); [| apply Hr].
        rewrite Hr. unfold harmonized_cell.
        now rewrite find_none_targets.
      * assert (mem src (columns df0) = false) as Hmem0.
        { apply not_true_iff_false. intros H. apply mem_In in H.
          apply Hcols in H; [| assumption]. apply mem_In in H.
          congruence. }
        eapply Forall2_impl; [exact Hrows |].
        intros r r' [Hdate Hr]. split; [assumption |].
        intros n. rewrite Hcell, Hmem0, andb_false_r. apply Hr.
    + intros n Hn. rewrite map_app, in_app_iff in Hn. cbn [map snd In] in Hn.
      assert (n <> dst) as Hne by (intros ->; tauto).
      rewrite <- Hcols by tauto.
      destruct (mem src (columns df)); [| reflexivity].
      destruct (copy_column_map src dst df) as (f & -> & Hf).
      rewrite !columns_In. split.
      * intros (r & Hr & Hin). apply in_map_iff in Hr as (r0 & <- & Hr0).
        destruct (Hf r0) as (_ & _ & Hnames).
        apply Hnames in Hin as [Hin | ->]; [eauto | contradiction].
      * intros (r & Hr & Hin). exists (f r). split; [now apply in_map |].
        destruct (Hf r) as (_ & _ & Hnames). apply Hnames. now left.
Qed.

(** The two tables of the download are well formed. *)
Lemma tables_well_formed :
  well_formed archive_harmonization /\ well_formed forecast_harmonization.
Proof.
  split; (split;
    [ cbn; repeat (constructor; [cbn; rewrite ?elem_of_cons, ?elem_of_nil;
                                  intuition discriminate |]); constructor
    | intros p q Hp Hq; cbn in Hp, Hq;
      repeat (destruct Hp as [<- | Hp]; [| try contradiction]);
      repeat (destruct Hq as [<- | Hq]; [| try contradiction]);
      discriminate ]).
Qed.

(** X19. The harmonisation of an Open-Meteo frame keeps the rows and
    their dates, leaves every column that is not a target of the table
    as it was, and sets each target column to the provider column it is
    mapped from when the frame has that column, leaving it as it was
    otherwise. *)
Theorem harmonize_copies_provider_columns
  (table : list (string * string)) (df : DataFrame) :
  table = archive_harmonization \/ table = forecast_harmonization ->
  Forall2 (fun r r' =>
             r_date r' = r_date r
             /\ (forall n, ~ In n (map snd table) -> cell r' n = cell r n)
             /\ (forall src dst, In (src, dst) table ->
                   cell r' dst
                   = if mem src (columns df) then cell r src else cell r dst))
    df (harmonize table df).
Proof.
  intros Htable.
  assert (well_formed table) as Hwf
    by (destruct Htable as [-> | ->]; apply tables_well_formed).
  pose proof (harmonize_steps df table [] df Hwf) as Hsteps.
  cbn [app] in Hsteps. unfold harmonize.
  eapply Forall2_impl.
  - apply Hsteps.
    + clear. induction df as [| r rest IH]; constructor; [| exact IH].
      split; reflexivity.
    + reflexivity.
  - intros r r' [Hdate Hcell]. split; [assumption |]. split.
    + intros n Hn. rewrite Hcell. unfold harmonized_cell.
      now rewrite find_none_targets.
    + intros src dst Hin. rewrite Hcell. unfold harmonized_cell.
      destruct Hwf as [Hnodup Hsep]. clear - Hin Hnodup.
      induction table as [| [s0 d0] rest IH]; [destruct Hin |].
      cbn [find fst snd]. cbn [map snd] in Hnodup.
      apply NoDup_cons in Hnodup as [Hfresh Hnodup].
      destruct Hin as [Heq | Hin].
      * inversion Heq; subst. rewrite String.eqb_refl. cbn [andb].
        destruct (mem src (columns df)); [reflexivity |].
        rewrite find_none_targets; [reflexivity |].
        intros H. apply Hfresh. now apply list_elem_of_In.
      * destruct (String.eqb_spec d0 dst) as [-> | Hne].
        -- exfalso. apply Hfresh. apply list_elem_of_In, in_map_iff.
           exists (src, dst). auto.
        -- cbn [andb]. now apply IH.
Qed.

(** One record of the archive. *)
Lemma harmonize_copies_provider_columns_witness :
  let table := archive_harmonization in
  let df := [Reference.sample_record 0] in
  Forall2 (fun r r' =>
             r_date r' = r_date r
             /\ (forall n, ~ In n (map snd table) -> cell r' n = cell r n)
             /\ (forall src dst, In (src, dst) table ->
                   cell r' dst
                   = if mem src (columns df) then cell r src else cell r dst))
    df (harmonize table df).
Proof.
  apply (harmonize_copies_provider_columns archive_harmonization
           [Reference.sample_record 0]).
  now left.
Defined.

End Harmonisation.

Section Endpoint.
Import Calendar PyStr Download ETo Service Routes Rules.

Lemma parse_date_raises (s : string) (e : exn) :
  parse_date s = Raise e -> exists ve, e = ValueError ve.
Proof.
  unfold parse_date. destruct (strptime_ymd s) as [[[y m] d] |];
    [discriminate |]. intros H. inversion H. eauto.
Qed.

(** What the rules of the period type raise. *)
Lemma check_period_fails (today start end_ : Z)
  (request : EToCalculationRequest) (r : raised) :
  check_period today start end_ request = Fails r ->
  exists d, r = RHTTPException 400 d
            /\ match d with
               | DateFormat _ | CalculationFailed _ => False
               | _ => True
               end.
Proof.
  unfold check_period.
  repeat match goal with
         | |- context [if ?c then _ else _] => destruct c
         end;
    intros H; inversion H; eexists; split; reflexivity || exact I.
Qed.

(** X20. The outcomes of the [/calculate] endpoint.  A response always
    has status "success" and no warnings, and is given only for two
    dates that parse and pass the rules of the period type.  Status
    400 is raised only for a [ValueError], with "Formato de data
    inválido".  The 400 errors of the period rules never leave the
    endpoint as such: each is caught by the general handler and
    becomes a 500 whose detail wraps it. *)
Theorem calculate_eto_status (today : Z) (construct : exc unit)
  (locate : R -> R -> string -> string -> option R -> bool -> string ->
            location_result)
  (request : EToCalculationRequest) :
  match calculate_eto today construct locate request with
  | Responds r =>
      status r = "success" /\ warnings r = []
      /\ exists start end_ sources,
          parse_date (start_date request) = Ok start
          /\ parse_date (end_date request) = Ok end_
          /\ check_period today start end_ request = Done sources
  | HTTPError code (DateFormat ve) =>
      code = 400
      /\ (parse_date (start_date request) = Raise (ValueError ve)
          \/ parse_date (end_date request) = Raise (ValueError ve)
          \/ construct = Raise (ValueError ve))
  | HTTPError code (CalculationFailed (RHTTPException inner d)) =>
      code = 500 /\ inner = 400
      /\ exists start end_,
          parse_date (start_date request) = Ok start
          /\ parse_date (end_date request) = Ok end_
          /\ check_period today start end_ request
             = Fails (RHTTPException 400 d)
  | HTTPError code (CalculationFailed (RExn e)) =>
      code = 500 /\ construct = Raise e
  | HTTPError _ _ => False
  end.
Proof.
  unfold calculate_eto, calculate_eto_body.
  destruct (parse_date (start_date request)) as [start | e1] eqn:H1;
    cbn [of_exc attempt_bind].
  2: { destruct (parse_date_raises _ _ H1) as [ve ->]. auto. }
  destruct (parse_date (end_date request)) as [end_ | e2] eqn:H2;
    cbn [of_exc attempt_bind].
  2: { destruct (parse_date_raises _ _ H2) as [ve ->]. auto. }
  destruct (check_period today start end_ request) as [src | r] eqn:H3;
    cbn [attempt_bind].
  2: { destruct (check_period_fails _ _ _ _ _ H3) as (d & -> & Hd).
       split; [reflexivity |]. split; [reflexivity |]. eauto. }
  destruct construct as [[] | e]; cbn [of_exc attempt_bind].
  - cbn [status warnings]. split; [reflexivity |].
    split; [reflexivity |]. eauto 6.
  - destruct e; auto.
Qed.

(** X21. When the endpoint answers although the download raised, the
    error is lost: the response has status "success", no data, no
    statistics and no warnings. *)
Theorem pipeline_errors_are_swallowed (w : world)
  (continue_with : DataFrame -> list warning -> option R -> bool ->
                   location_result)
  (today : Z) (construct : exc unit) (request : EToCalculationRequest)
  (r : response) (e : exn) :
  calculate_eto today construct (process_location w continue_with) request
    = Responds r ->
  download_weather_data w (SourceStr (database_used r)) (start_date request)
    (end_date request) (lng request) (lat request) = Raise e ->
  status r = "success" /\ data r = [] /\ statistics r = None
  /\ warnings r = [].
Proof.
  unfold calculate_eto, calculate_eto_body. intros Hr Hdown.
  destruct (parse_date (start_date request)) as [start |];
    cbn [of_exc attempt_bind] in Hr; [| now destruct e0].
  destruct (parse_date (end_date request)) as [end_ |];
    cbn [of_exc attempt_bind] in Hr; [| now destruct e0].
  destruct (check_period today start end_ request) as [src | []];
    cbn [attempt_bind] in Hr; [| now destruct e0 | discriminate].
  destruct construct as [[] | e0]; cbn [of_exc attempt_bind] in Hr;
    [| now destruct e0].
  inversion Hr as [Heq]. clear Hr.
  rewrite <- Heq in Hdown. cbn [database_used] in Hdown.
  cbn [status data statistics warnings].
  unfold process_location. rewrite Hdown. auto.
Qed.

(** The late request: the endpoint answers and the download has
    rejected its dates. *)
Lemma pipeline_errors_are_swallowed_witness :
  let w := Reference.sample_world [("openmeteo_forecast", true)] in
  exists r e,
    calculate_eto (now_date w) (Ok ())
      (process_location w Samples.empty_series) Samples.late_request
    = Responds r
    /\ download_weather_data w (SourceStr (database_used r))
         (start_date Samples.late_request) (end_date Samples.late_request)
         (lng Samples.late_request) (lat Samples.late_request) = Raise e
    /\ status r = "success" /\ data r = [] /\ statistics r = None
    /\ warnings r = [].
Proof.
  cbv zeta.
  destruct (download_rejects_dates
              (Reference.sample_world [("openmeteo_forecast", true)])
              (SourceStr "openmeteo_forecast") "2024-06-10" "2024-06-25"
              (-48) (-15.7975) (ymd2ord 2024 6 10) (ymd2ord 2024 6 25))
    as (msg & _ & Hdown); try reflexivity; try lra.
  { intros [_ Hacc]. unfold accepted_dates in Hacc.
    change (now_date _) with (ymd2ord 2024 6 15) in Hacc.
    assert (ymd2ord 2024 6 10 = ymd2ord 2024 6 15 - 5) as Hs by reflexivity.
    assert (ymd2ord 2024 6 25 = ymd2ord 2024 6 15 + 10) as He by reflexivity.
    rewrite Hs, He in Hacc. lia. }
  eexists _, (ValueError msg).
  assert (calculate_eto (ymd2ord 2024 6 15) (Ok ())
            (process_location
               (Reference.sample_world [("openmeteo_forecast", true)])
               Samples.empty_series) Samples.late_request
          = Responds
              {| status := "success";
                 data := match process_location
                                 (Reference.sample_world
                                    [("openmeteo_forecast", true)])
                                 Samples.empty_series (-15.7975) (-48)
                                 "2024-06-10" "2024-06-25" None false
                                 "openmeteo_forecast" with
                         | LocationSeries et0_series _ _ => et0_series
                         | LocationError _ => []
                         end;
                 statistics := match process_location
                                       (Reference.sample_world
                                          [("openmeteo_forecast", true)])
                                       Samples.empty_series (-15.7975) (-48)
                                       "2024-06-10" "2024-06-25" None false
                                       "openmeteo_forecast" with
                               | LocationSeries _ summary _ => summary
                               | LocationError _ => None
                               end;
                 source := "openmeteo_forecast";
                 database_used := "openmeteo_forecast";
                 warnings := [];
                 location := ((-15.7975)%R, (-48)%R, None);
                 period := ("2024-06-10", "2024-06-25") |}) as Hr
    by reflexivity.
  split; [exact Hr |]. split; [exact Hdown |].
  exact (pipeline_errors_are_swallowed _ _ _ _ _ _ _ Hr Hdown).
Defined.

(** X22. The period rules of the endpoint are weaker than the date
    checks of the download: for a request that passes the former and
    whose dates the latter reject, the endpoint answers "success" with
    no data, while [process_location] has returned the error
    dictionary with the download's message. *)
Theorem endpoint_accepts_what_download_rejects (w : world)
  (continue_with : DataFrame -> list warning -> option R -> bool ->
                   location_result)
  (request : EToCalculationRequest) (s e : Z) (sources : option string) :
  parse_date (start_date request) = Ok s ->
  parse_date (end_date request) = Ok e ->
  to_datetime w (start_date request) = Some (midnight s) ->
  to_datetime w (end_date request) = Some (midnight e) ->
  (-90 <= lat request <= 90)%R -> (-180 <= lng request <= 180)%R ->
  check_period (now_date w) s e request = Done sources ->
  ~ (s <= e /\ accepted_dates (now_date w) s e) ->
  exists r msg,
    calculate_eto (now_date w) (Ok ()) (process_location w continue_with)
      request = Responds r
    /\ status r = "success" /\ data r = [] /\ statistics r = None
    /\ In msg date_messages
    /\ process_location w continue_with (lat request) (lng request)
         (start_date request) (end_date request) (elevation request) false
         (database_used r) = LocationError msg.
Proof.
  intros Hs He Ha Hb Hlat Hlon Hcheck Hrej.
  unfold calculate_eto, calculate_eto_body.
  rewrite Hs, He. cbn [of_exc attempt_bind]. rewrite Hcheck.
  cbn [of_exc attempt_bind].
  set (database := match sources with
                   | Some src => if is_auto sources then "data fusion" else src
                   | None => "data fusion"
                   end).
  destruct (download_rejects_dates w (SourceStr database) (start_date request)
              (end_date request) (lng request) (lat request) s e Ha Hb Hlat
              Hlon Hrej) as (msg & Hin & Hdown).
  eexists _, msg. split; [reflexivity |].
  cbn [status data statistics database_used].
  unfold process_location. rewrite Hdown. cbn [exn_str]. auto.
Qed.

(** The late request passes the rules of the dashboard and ends ten
    days ahead. *)
Lemma endpoint_accepts_what_download_rejects_witness :
  let w := Reference.sample_world [("openmeteo_forecast", true)] in
  let request := Samples.late_request in
  exists r msg,
    calculate_eto (now_date w) (Ok ())
      (process_location w Samples.empty_series) request = Responds r
    /\ status r = "success" /\ data r = [] /\ statistics r = None
    /\ In msg date_messages
    /\ process_location w Samples.empty_series (lat request) (lng request)
         (start_date request) (end_date request) (elevation request) false
         (database_used r) = LocationError msg.
Proof.
  apply (endpoint_accepts_what_download_rejects
           (Reference.sample_world [("openmeteo_forecast", true)])
           Samples.empty_series Samples.late_request (ymd2ord 2024 6 10)
           (ymd2ord 2024 6 25) (Some "openmeteo_forecast"));
    try reflexivity; try (cbn [lat lng Samples.late_request]; lra).
  intros [_ Hacc]. unfold accepted_dates in Hacc.
  change (now_date _) with (ymd2ord 2024 6 15) in Hacc.
  assert (ymd2ord 2024 6 10 = ymd2ord 2024 6 15 - 5) as Hs by reflexivity.
  assert (ymd2ord 2024 6 25 = ymd2ord 2024 6 15 + 10) as He by reflexivity.
  rewrite Hs, He in Hacc. lia.
Defined.

End Endpoint.

Section EmptyFrame.
Import Calendar PyStr Download Reference Service.

(** A frame all of whose values are missing or the missing-value code
    loses every row. *)
Lemma dropna_all_blank (df : DataFrame) :
  Forall (fun r => Forall (fun p : string * option R =>
                             p.2 = None \/ p.2 = Some (-999)%R) (r_cells r))
    df ->
  dropna_all (replace_sentinel df) = [].
Proof.
  intros Hblank. unfold dropna_all.
  set (cols := columns (replace_sentinel df)). clearbody cols.
  unfold replace_sentinel.
  induction Hblank as [| r rest Hr _ IH]; [reflexivity |].
  cbn [map filter list_filter].
  rewrite decide_False; [exact IH |].
  intros Hex. apply existsb_exists in Hex as (c & _ & Hc).
  apply bool_decide_eq_true in Hc as [x Hx].
  unfold cell in Hx. cbn [r_cells] in Hx.
  induction Hr as [| [k v] cells Hkv _ IHcells]; [discriminate |].
  cbn [map Availability.assoc fst snd] in Hx.
  destruct (String.eqb k c); [| now apply IHcells].
  destruct Hkv as [Hv | Hv]; cbn [snd] in Hv; subst v; [discriminate |].
  rewrite Reqb_true in Hx by reflexivity. discriminate.
Qed.

(** X23. A NASA POWER download whose records are all blank (every
    variable missing or -999) does not fail: [download_weather_data]
    returns an empty frame, and [process_location] then returns the
    error dictionary "Falha ao obter dados meteorológicos". *)
Theorem blank_records_give_empty_frame
  (w : world) (data_inicial data_final : string) (longitude latitude : R)
  (continue_with : DataFrame -> list warning -> option R -> bool ->
                   location_result)
  (elevation : option R) (include_recomendations : bool) (rq : request)
  (records : list row) :
  prepare w (SourceStr "nasa_power") data_inicial data_final longitude
    latitude = Ok rq ->
  midnight (ymd2ord 1990 1 1) <= rq_inicial rq ->
  get_data_sync w "nasa_power" latitude longitude (rq_inicial rq)
    (adjusted_end (rq_current_date rq) (rq_final rq) "nasa_power")
    = Ok records ->
  records <> [] ->
  Forall (fun r => Forall (fun p : string * string =>
                             cell r p.2 = None \/ cell r p.2 = Some (-999)%R)
                     nasa_columns) records ->
  (exists warnings,
      download_weather_data w (SourceStr "nasa_power") data_inicial
        data_final longitude latitude = Ok ([], warnings))
  /\ process_location w continue_with latitude longitude data_inicial
       data_final elevation include_recomendations "nasa_power"
     = LocationError "Falha ao obter dados meteorológicos".
Proof.
  intros Hrq Hstart Hdata Hne Hblank.
  assert (exists warnings,
             download_weather_data w (SourceStr "nasa_power") data_inicial
               data_final longitude latitude = Ok ([], warnings)) as Hdown.
  { unfold download_weather_data. rewrite Hrq. cbn [mbind exc_bind].
    apply prepare_inv in Hrq as (_ & _ & _ & _ & _ & _ & Hreq & Hsel).
    change (requested_of (SourceStr "nasa_power")) with ["nasa_power"]
      in Hreq, Hsel.
    pose proof (validate_requested_ok _ _ Hreq "nasa_power"
                  (or_introl eq_refl)) as [_ Havail].
    unfold select_sources in Hsel.
    change (mem "data fusion" ["nasa_power"]) with false in Hsel.
    rewrite filter_cons, decide_True in Hsel by (apply Havail; discriminate).
    rewrite filter_nil in Hsel. inversion Hsel as [Hsources].
    unfold collect. rewrite <- Hsources. cbn [process_sources].
    unfold process_source, validate_source.
    cbn [String.eqb Ascii.eqb Bool.eqb].
    replace (rq_inicial rq <? midnight (ymd2ord 1990 1 1)) with false
      by (symmetry; apply Z.ltb_ge; assumption).
    set (ws1 := if rq_current_date rq <? rq_final rq then _ else _).
    assert (exists ws1', ws1 = Ok ws1') as [ws1' ->]
      by (subst ws1; destruct (_ <? _); eauto).
    cbn [mbind exc_bind].
    set (ws2 := if _ && _ then _ else _). clearbody ws2.
    unfold fetch_source. cbn [String.eqb Ascii.eqb Bool.eqb].
    rewrite Hdata. destruct records as [| r0 rest]; [congruence |].
    set (df := rename nasa_columns (r0 :: rest)).
    assert (df_empty df = false) as ->.
    { unfold df_empty. subst df. cbn [rename map].
      destruct (columns _) eqn:Hcols; [| reflexivity].
      exfalso.
      assert (In "T2M_MAX" (columns
                (rename nasa_columns (r0 :: rest)))) as Hin.
      { apply columns_In. eexists. split; [now left |]. cbn. now left. }
      cbn [rename map] in Hin. rewrite Hcols in Hin. destruct Hin. }
    unfold inspect_frame.
    rewrite (dropna_all_blank df).
    2: { subst df. unfold rename. apply Forall_forall.
         intros r' Hr'%list_elem_of_In. apply in_map_iff in Hr' as (r & <- & Hr).
         cbn [r_cells]. apply Forall_forall.
         intros p Hp%list_elem_of_In. apply in_map_iff in Hp as (q & <- & Hq).
         cbn [snd]. rewrite Forall_forall in Hblank.
         specialize (Hblank r (proj2 (list_elem_of_In _ _) Hr)).
         rewrite Forall_forall in Hblank.
         apply (Hblank q), list_elem_of_In, Hq. }
    cbn [days_returned map columns fold_left length Z.of_nat mbind exc_bind
         mret exc_ret app consolidate].
    eauto. }
  split; [assumption |].
  destruct Hdown as [warnings Hdown].
  unfold process_location. rewrite Hdown. reflexivity.
Qed.

(** Ten days of June 2024 seen from 2024-06-15, with an adapter that
    returns blank records. *)
Lemma blank_records_give_empty_frame_witness :
  let w := Samples.blank_world [("nasa_power", true)] in
  (exists warnings,
      download_weather_data w (SourceStr "nasa_power") "2024-06-01"
        "2024-06-10" (-48) (-15.7975) = Ok ([], warnings))
  /\ process_location w Samples.empty_series (-15.7975) (-48) "2024-06-01"
       "2024-06-10" None false "nasa_power"
     = LocationError "Falha ao obter dados meteorológicos".
Proof.
  assert (prepare (Samples.blank_world [("nasa_power", true)])
            (SourceStr "nasa_power") "2024-06-01" "2024-06-10" (-48)
            (-15.7975)
          = Ok {| rq_inicial := midnight (ymd2ord 2024 6 1);
                  rq_final := midnight (ymd2ord 2024 6 10);
                  rq_period_days := 10;
                  rq_current_date := midnight today0;
                  rq_request_type := "current";
                  rq_sources := ["nasa_power"] |}) as Hrq
    by (unfold prepare; rewrite !Rleb_true by lra; reflexivity).
  apply (blank_records_give_empty_frame
           (Samples.blank_world [("nasa_power", true)]) "2024-06-01"
           "2024-06-10" (-48) (-15.7975) Samples.empty_series None false _
           [Samples.blank_record (midnight (ymd2ord 2024 6 1));
            Samples.blank_record (midnight (ymd2ord 2024 6 10))] Hrq).
  - apply Z.leb_le. reflexivity.
  - reflexivity.
  - discriminate.
  - repeat constructor; right; reflexivity.
Defined.

End EmptyFrame.

Section DateArguments.
Import Calendar Format Availability Modes.


(** The loop over the catalog never raises: every entry of
    [API_LIMITS] has the key its type reads. *)
Lemma evaluate_catalog_total (today s e : Z) (in_usa in_nordic : bool)
  (data_type : string) :
  exists res,
    evaluate_all today s e in_usa in_nordic data_type API_LIMITS = Ok res.
Proof.
  apply evaluate_all_total. unfold API_LIMITS.
  repeat constructor; discriminate.
Qed.


(** X25. The three functions take a date or its ISO string to the
    same result: for two dates that exist, calling them with
    [date.isoformat()] strings or with the date objects makes no
    difference, and [get_available_sources] returns. *)
Theorem date_and_string_interchangeable
  (today y m d y' m' d' : Z) (lat lon : R) (mode data_type : string) :
  valid_ymd y m d = true -> valid_ymd y' m' d' = true ->
  let s := DateStr (isoformat (y, m, d)) in
  let e := DateStr (isoformat (y', m', d')) in
  let s' := DateObj (ymd2ord y m d) in
  let e' := DateObj (ymd2ord y' m' d') in
  get_available_sources today s e lat lon data_type
  = get_available_sources today s' e' lat lon data_type
  /\ get_compatible_sources_list today s e lat lon data_type
     = get_compatible_sources_list today s' e' lat lon data_type
  /\ validate_period_for_mode s e mode data_type
     = validate_period_for_mode s' e' mode data_type
  /\ exists res,
      get_available_sources today s e lat lon data_type = Ok res.
Proof.
  intros Hv Hv'. cbv zeta.
  unfold get_compatible_sources_list, get_available_sources,
    validate_period_for_mode.
  cbn [as_date]. unfold parse_date.
  rewrite !strptime_isoformat by assumption.
  cbn [mbind exc_bind]. repeat split.
  apply evaluate_catalog_total.
Qed.

(** The first ten days of June 2024. *)
Lemma date_and_string_interchangeable_witness :
  let today := Reference.today0 in
  let s := DateStr (isoformat (2024, 6, 1)) in
  let e := DateStr (isoformat (2024, 6, 10)) in
  let s' := DateObj (ymd2ord 2024 6 1) in
  let e' := DateObj (ymd2ord 2024 6 10) in
  get_available_sources today s e (-15.7975) (-48) "forecast"
  = get_available_sources today s' e' (-15.7975) (-48) "forecast"
  /\ get_compatible_sources_list today s e (-15.7975) (-48) "forecast"
     = get_compatible_sources_list today s' e' (-15.7975) (-48) "forecast"
  /\ validate_period_for_mode s e "web" "forecast"
     = validate_period_for_mode s' e' "web" "forecast"
  /\ exists res,
      get_available_sources today s e (-15.7975) (-48) "forecast" = Ok res.
Proof.
  apply (date_and_string_interchangeable Reference.today0 2024 6 1 2024 6 10
           (-15.7975) (-48) "web" "forecast"); reflexivity.
Defined.

End DateArguments.
